(** * VideoTranscriber: path resolution, audio extraction, transcription
      output and batch glue, embedded from [core/video_converter.py] and
      [core/audio_transcriber.py].

    Conventions of the embedding.
    - A Python [str] is a [string] holding its UTF-8 bytes.
    - [os.path] and [pathlib] follow their POSIX flavour ([posixpath],
      [PurePosixPath], Python up to 3.13). [os.path.exists] answers
      [False] whenever [os.stat] fails; [Path.exists] does so only for a
      missing file and raises the other errors of [os.stat] again.
    - The file system, the clock, moviepy and whisper are reached through
      the operations of a [Platform]; every call that leaves the program is
      recorded in a trace of events.
    - Python exceptions are values of [exn]; only subclasses of
      [Exception] are modelled (what [except Exception] catches).
    - A Python [float] is a binary64 value of [spec_float]. *)

From Stdlib Require Import String Ascii List ZArith Lia Bool DecimalString.
From Stdlib Require Import Floats.SpecFloat.
Import ListNotations.
Local Open Scope string_scope.
Local Open Scope list_scope.

(** ** Python string operations *)

Module PyStr.

Definition bytes (l : list N) : string :=
  string_of_list_ascii (map ascii_of_N l).

Definition LF : string := bytes [10%N].

Fixpoint rev_acc (s acc : string) : string :=
  match s with
  | EmptyString => acc
  | String c r => rev_acc r (String c acc)
  end.

Definition rev (s : string) : string := rev_acc s EmptyString.

(** [s[n:]] *)
Fixpoint drop (n : nat) (s : string) : string :=
  match n, s with
  | O, _ => s
  | S n', String _ r => drop n' r
  | S _, EmptyString => EmptyString
  end.

(** [s[:n]] *)
Fixpoint take (n : nat) (s : string) : string :=
  match n, s with
  | O, _ => EmptyString
  | S n', String c r => String c (take n' r)
  | S _, EmptyString => EmptyString
  end.

(** [s.startswith(p)] *)
Fixpoint startswith (s p : string) {struct p} : bool :=
  match p with
  | EmptyString => true
  | String a p' =>
      match s with
      | EmptyString => false
      | String b s' => Ascii.eqb a b && startswith s' p'
      end
  end.

(** [s.endswith(p)] *)
Definition endswith (s p : string) : bool := startswith (rev s) (rev p).

(** [c in s] for a one-character [c] *)
Fixpoint contains_char (c : ascii) (s : string) : bool :=
  match s with
  | EmptyString => false
  | String d r => Ascii.eqb d c || contains_char c r
  end.

(** [needle in s] *)
Fixpoint contains (needle s : string) : bool :=
  startswith s needle ||
  match s with
  | EmptyString => false
  | String _ r => contains needle r
  end.

(** The characters for which [str.isspace] holds, as UTF-8 byte
    sequences: U+0009..U+000D, U+001C..U+0020, U+0085, U+00A0, U+1680,
    U+2000..U+200A, U+2028, U+2029, U+202F, U+205F, U+3000. *)
Definition whitespace : list string :=
  map bytes
    [ [9]; [10]; [11]; [12]; [13]; [28]; [29]; [30]; [31]; [32];
      [194; 133]; [194; 160]; [225; 154; 128];
      [226; 128; 128]; [226; 128; 129]; [226; 128; 130]; [226; 128; 131];
      [226; 128; 132]; [226; 128; 133]; [226; 128; 134]; [226; 128; 135];
      [226; 128; 136]; [226; 128; 137]; [226; 128; 138];
      [226; 128; 168]; [226; 128; 169]; [226; 128; 175];
      [226; 129; 159]; [227; 128; 128] ]%N.

(** Removes one leading member of [table], if there is one. *)
Fixpoint strip_one (table : list string) (s : string) : option string :=
  match table with
  | [] => None
  | p :: table' =>
      if startswith s p then Some (drop (String.length p) s)
      else strip_one table' s
  end.

Fixpoint strip_many (table : list string) (fuel : nat) (s : string) : string :=
  match fuel with
  | O => s
  | S fuel' =>
      match strip_one table s with
      | Some r => strip_many table fuel' r
      | None => s
      end
  end.

Definition lstrip (s : string) : string :=
  strip_many whitespace (String.length s) s.

Definition rstrip (s : string) : string :=
  rev (strip_many (map rev whitespace) (String.length s) (rev s)).

(** [s.strip()] *)
Definition strip (s : string) : string := rstrip (lstrip s).

Definition lower_ascii (c : ascii) : ascii :=
  let n := N_of_ascii c in
  if ((65 <=? n) && (n <=? 90))%N then ascii_of_N (n + 32) else c.

(** [s.isascii()]: every byte is below 128. *)
Definition isascii (s : string) : bool :=
  forallb (fun c => (N_of_ascii c <? 128)%N) (list_ascii_of_string s).

(** [s.lower()]. On a string of ASCII characters ([isascii]) this is
    Python's result. Beyond ASCII only U+212A KELVIN SIGN is lowered, to
    [k]: it is the one character outside ASCII whose lower case lies within
    it, so a comparison of the result with an ASCII literal comes out as in
    Python for every string. Other capitals beyond ASCII are left as they
    are: a statement about the lowered string itself is made for ASCII
    strings only. *)
Fixpoint lower (s : string) : string :=
  match s with
  | EmptyString => EmptyString
  | String a r =>
      match r with
      | String b (String c r') =>
          if ((N_of_ascii a =? 226) && (N_of_ascii b =? 132)
              && (N_of_ascii c =? 170))%N
          then String "k" (lower r')
          else String (lower_ascii a) (lower r)
      | _ => String (lower_ascii a) (lower r)
      end
  end.

(** [sep.join(parts)] *)
Fixpoint join (sep : string) (parts : list string) : string :=
  match parts with
  | [] => EmptyString
  | [p] => p
  | p :: rest => p ++ sep ++ join sep rest
  end.

(** [s.split(sep)] for a one-character [sep] *)
Fixpoint split (sep : ascii) (s : string) : list string :=
  match s with
  | EmptyString => [EmptyString]
  | String c r =>
      let l := split sep r in
      if Ascii.eqb c sep then EmptyString :: l
      else match l with
           | [] => [String c EmptyString]
           | h :: t => String c h :: t
           end
  end.

(** [s.rfind(c)], [None] for -1 *)
Fixpoint rfind (c : ascii) (s : string) : option nat :=
  match s with
  | EmptyString => None
  | String d r =>
      match rfind c r with
      | Some i => Some (S i)
      | None => if Ascii.eqb d c then Some O else None
      end
  end.

(** [len(s)]: the bytes that start a character. *)
Fixpoint len (s : string) : nat :=
  match s with
  | EmptyString => O
  | String c r =>
      let n := N_of_ascii c in
      if ((128 <=? n) && (n <? 192))%N then len r else S (len r)
  end.

(** [str(n)] for a non-negative integer *)
Definition of_N (n : N) : string := NilZero.string_of_uint (N.to_uint n).

Definition of_nat (n : nat) : string := of_N (N.of_nat n).

(** [str(z)] *)
Definition of_Z (z : Z) : string :=
  match z with
  | Zneg p => "-" ++ of_N (Npos p)
  | _ => of_N (Z.to_N z)
  end.

(** [c * n] *)
Fixpoint repeat (c : string) (n : nat) : string :=
  match n with
  | O => EmptyString
  | S n' => c ++ repeat c n'
  end.

(** [format(z, "0<width>d")]: zeros go between the sign and the digits. *)
Definition format_0d (width : nat) (z : Z) : string :=
  let digits := of_N (Z.abs_N z) in
  let sign := if (z <? 0)%Z then "-" else "" in
  sign ++ repeat "0" (width - String.length sign - String.length digits)
       ++ digits.

End PyStr.

(** ** [posixpath] and [PurePosixPath] *)

Module PosixPath.

(** [os.path.isabs] *)
Definition isabs (p : string) : bool := PyStr.startswith p "/".

(** [os.path.join(a, b)] *)
Definition join (a b : string) : string :=
  if PyStr.startswith b "/" then b
  else if String.eqb a "" || PyStr.endswith a "/" then a ++ b
  else a ++ "/" ++ b.

(** A parsed path: [root] is [""], ["/"] or ["//"]. *)
Record PurePath := mkPath { root : string; tail : list string }.

(** [posixpath.splitroot], without the drive *)
Definition splitroot (p : string) : string * string :=
if negb (PyStr.startswith p "/") then ("", p)
else if negb (PyStr.startswith (PyStr.drop 1 p) "/")
        || PyStr.startswith (PyStr.drop 2 p) "/"
     then ("/", PyStr.drop 1 p)
     else ("//", PyStr.drop 2 p).

Definition is_component (x : string) : bool :=
  negb (String.eqb x "") && negb (String.eqb x ".").

(** [Path(p)] *)
Definition Path (p : string) : PurePath :=
  let '(rt, rel) := splitroot p in
  mkPath rt (filter is_component (PyStr.split "/" rel)).

(** [str(p)] *)
Definition str (p : PurePath) : string :=
  if String.eqb (root p) "" then
    match tail p with
    | [] => "."
    | _ => PyStr.join "/" (tail p)
    end
  else root p ++ PyStr.join "/" (tail p).

(** [p / s] *)
Definition joinpath (p : PurePath) (s : string) : PurePath :=
  Path (join (str p) s).

(** [p.is_absolute()] *)
Definition is_absolute (p : PurePath) : bool := negb (String.eqb (root p) "").

(** [p.parent] *)
Definition parent (p : PurePath) : PurePath :=
  match tail p with
  | [] => p
  | _ => mkPath (root p) (removelast (tail p))
  end.

(** [p.name] *)
Definition name (p : PurePath) : string := last (tail p) "".

(** The index of the dot that starts the suffix of a file name. *)
Definition suffix_index (nm : string) : option nat :=
  match PyStr.rfind "." nm with
  | Some i =>
      if ((0 <? i) && (i <? String.length nm - 1))%nat then Some i else None
  | None => None
  end.

(** [p.suffix] *)
Definition suffix (p : PurePath) : string :=
  match suffix_index (name p) with
  | Some i => PyStr.drop i (name p)
  | None => ""
  end.

(** [p.stem] *)
Definition stem (p : PurePath) : string :=
  match suffix_index (name p) with
  | Some i => PyStr.take i (name p)
  | None => name p
  end.

End PosixPath.

Export PosixPath (PurePath).

(** ** Exceptions, results and the outside world *)

(** An exception object: its class, [str(e)] and [e.__context__], the
    exception that was being handled when it was raised. *)
#[warnings="-register-all"]
Inductive exn : Type :=
| Exn (cls : string) (msg : string) (context : option exn).

Definition exn_class (e : exn) : string := let 'Exn c _ _ := e in c.
Definition exn_str (e : exn) : string := let 'Exn _ m _ := e in m.
Definition exn_context (e : exn) : option exn := let 'Exn _ _ c := e in c.

Definition FileNotFoundError (msg : string) : exn :=
  Exn "FileNotFoundError" msg None.

Definition is_FileNotFoundError (e : exn) : bool :=
  String.eqb (exn_class e) "FileNotFoundError".

Inductive outcome (A : Type) : Type :=
| Return (a : A)
| Raise (e : exn).

Arguments Return {A} a.
Arguments Raise {A} e.

(** A [VideoFileClip] object; [clip_has_audio] is [video.audio is not None]. *)
Record Clip := { clip_id : nat; clip_has_audio : bool }.

(** A loaded whisper model. *)
Record Model := { model_id : nat }.

Record Segment := {
  seg_start : spec_float;
  seg_end : spec_float;
  seg_text : string
}.

Record Metadata := {
  audio_file : string;
  model_used : string;
  transcription_date : string;
  detected_language : string
}.

(** The dictionary whisper returns, with the ["metadata"] entry that
    [transcribe_audio] adds. *)
Record Result := {
  text : string;
  segments : list Segment;
  language : option string;
  metadata : option Metadata
}.

(** What [os.stat] does on a path: it succeeds; or it fails in a way that
    [os.path.exists] and [Path.exists] both take for a missing file
    ([ENOENT], [ENOTDIR], [EBADF], [ELOOP], or the [ValueError] of a
    malformed path); or it fails with another [OSError], such as
    [ENAMETOOLONG] or [EACCES], which [os.path.exists] takes for a missing
    file too and [Path.exists] raises again. *)
Inductive stat_result : Type :=
| StatOk
| StatMissing
| StatError (e : exn).

(** Calls that leave the program, in the order they are made. *)
Inductive event : Type :=
| EvPrint (line : string)
| EvMakedirs (path : string)
| EvOpen (path : string)
| EvWrite (path chunk : string)
| EvVideoFileClip (path : string)
| EvWriteAudiofile (clip : Clip) (path : string)
| EvClose (clip : Clip)
| EvLoadModel (size : string)
| EvTranscribe (path : string) (lang : option string).

(** What the host and the two libraries do, over a state of the world [W].
    - [home], [getcwd]: [os.path.expanduser("~")], [os.getcwd()];
    - [stat]: [os.stat] on the path. Python raises [FileNotFoundError] for
      the error number [ENOENT] and for no other, and [ENOENT] is among
      the errors taken for a missing file: so an error that [Path.exists]
      raises again is no [FileNotFoundError] ([stat_error_kept]);
    - [listdir]: [os.listdir];
    - [makedirs]: [os.makedirs(p, exist_ok=True)] and
      [Path(p).mkdir(parents=True, exist_ok=True)];
    - [open_w], [write]: [open(p, "w", encoding="utf-8")] and [f.write];
    - [now_isoformat]: [datetime.now().isoformat()];
    - [json_dumps]: the text [json.dump(result, f, indent=2,
      ensure_ascii=False)] writes;
    - [VideoFileClip], [write_audiofile], [clip_close]: moviepy;
    - [load_model], [model_transcribe]: whisper. *)
Class Platform (W : Type) := {
  home : W -> string;
  getcwd : W -> string;
  stat : W -> string -> stat_result;
  stat_error_kept :
    forall w p e, stat w p = StatError e -> is_FileNotFoundError e = false;
  listdir : W -> string -> outcome (list string);
  makedirs : W -> string -> outcome unit * W;
  open_w : W -> string -> outcome unit * W;
  write : W -> string -> string -> outcome unit * W;
  now_isoformat : W -> string;
  json_dumps : Result -> string;
  VideoFileClip : W -> string -> outcome Clip * W;
  write_audiofile : W -> Clip -> string -> outcome unit * W;
  clip_close : W -> Clip -> outcome unit * W;
  load_model : W -> string -> outcome Model * W;
  model_transcribe : W -> Model -> string -> option string -> outcome Result * W
}.

(** The state a call runs in: the world, the trace so far, and the object
    the method is called on ([unit] for static methods). *)
Record State (W Obj : Type) := mkState {
  world : W;
  trace : list event;
  this : Obj
}.

Arguments mkState {W Obj} world trace this.
Arguments world {W Obj} s.
Arguments trace {W Obj} s.
Arguments this {W Obj} s.

(** Computations that read and change the state and may raise. *)
Definition M (W Obj A : Type) : Type := State W Obj -> outcome A * State W Obj.

Definition ret {W Obj A} (a : A) : M W Obj A := fun s => (Return a, s).

Definition bind {W Obj A B} (m : M W Obj A) (k : A -> M W Obj B) : M W Obj B :=
  fun s =>
    match m s with
    | (Return a, s') => k a s'
    | (Raise e, s') => (Raise e, s')
    end.

Definition raise {W Obj A} (e : exn) : M W Obj A := fun s => (Raise e, s).

(** [try: body  except Exception as e: handler(e)] *)
Definition try_except {W Obj A} (body : M W Obj A) (handler : exn -> M W Obj A)
  : M W Obj A :=
  fun s =>
    match body s with
    | (Return a, s') => (Return a, s')
    | (Raise e, s') => handler e s'
    end.

(** [raise cls(msg)] inside [except ... as e]: [e] becomes the context. *)
Definition raise_in_handler {W Obj A} (cls msg : string) (e : exn) : M W Obj A :=
  raise (Exn cls msg (Some e)).

Definition lift_outcome {W Obj A} (o : outcome A) : M W Obj A := fun s => (o, s).

Definition reads {W Obj A} (f : W -> A) : M W Obj A :=
  fun s => (Return (f (world s)), s).

Definition call {W Obj A} (ev : event) (op : W -> outcome A * W) : M W Obj A :=
  fun s =>
    let '(o, w') := op (world s) in
    (o, mkState w' (trace s ++ [ev]) (this s)).

Definition get_this {W Obj} : M W Obj Obj := fun s => (Return (this s), s).

Definition set_this {W Obj} (o : Obj) : M W Obj unit :=
  fun s => (Return tt, mkState (world s) (trace s) o).

Definition print {W Obj} (line : string) : M W Obj unit :=
  fun s => (Return tt, mkState (world s) (trace s ++ [EvPrint line]) (this s)).

Declare Scope py_scope.
Delimit Scope py_scope with py.
Notation "x <- m ;; k" := (bind m (fun x => k))
  (at level 61, m at next level, right associativity) : py_scope.
Notation "m ;; k" := (bind m (fun _ => k))
  (at level 61, right associativity) : py_scope.
Local Open Scope py_scope.

(** [os.stat] succeeds on the path. *)
Definition stat_ok {W} `{Platform W} (w : W) (p : string) : bool :=
  match stat w p with StatOk => true | _ => false end.

(** A computation that reads the world and may raise. *)
Definition tries {W Obj A} (f : W -> outcome A) : M W Obj A :=
  fun s => (f (world s), s).

(** [os.path.exists]: [os.stat] fails on the empty string. *)
Definition os_path_exists {W} `{Platform W} (w : W) (p : string) : bool :=
  negb (String.eqb p "") && stat_ok w p.

(** [Path.exists]: [False] for a missing file; any other error of
    [os.stat] is raised again. *)
Definition path_exists {W} `{Platform W} (w : W) (p : PurePath)
  : outcome bool :=
  match stat w (PosixPath.str p) with
  | StatOk => Return true
  | StatMissing => Return false
  | StatError e => Raise e
  end.

(** [Path.absolute] *)
Definition path_absolute {W} `{Platform W} (w : W) (p : PurePath) : PurePath :=
  if PosixPath.is_absolute p then p
  else PosixPath.joinpath (PosixPath.Path (getcwd w)) (PosixPath.str p).

Notation "p // s" := (PosixPath.joinpath p s) (at level 40, left associativity).

(** [x in set], for the extension sets. *)
Definition in_set (x : string) (set : list string) : bool :=
  existsb (String.eqb x) set.

(** The entries of an [os.listdir] result whose suffix, lowered, is one of
    [extensions], each joined to [directory]. *)
Definition matching_files (directory : string) (extensions names : list string)
  : list string :=
  map (PosixPath.join directory)
    (filter
       (fun file =>
          in_set (PyStr.lower (PosixPath.suffix (PosixPath.Path file)))
            extensions)
       names).

(** ** [class PathUtils] *)

Module PathUtils.
Section WithPlatform.
Context {W : Type} `{Platform W}.

Definition get_common_folders (w : W) : list (string * PurePath) :=
  let user_home := PosixPath.Path (home w) in
  [ ("desktop", user_home // "Desktop");
    ("downloads", user_home // "Downloads");
    ("documents", user_home // "Documents");
    ("videos", user_home // "Videos");
    ("music", user_home // "Music");
    ("pictures", user_home // "Pictures");
    ("onedrive_desktop", user_home // "OneDrive" // "Desktop") ].

(** The loop over [common_folders.items()]: [Some] is its [return]; it
    raises what [resolved.exists()] raises. *)
Fixpoint shortcut_loop (w : W) (path_input : string)
    (items : list (string * PurePath)) : outcome (option string) :=
  match items with
  | [] => Return None
  | (shortcut, folder_path) :: items' =>
      if PyStr.startswith path_input (shortcut ++ "/")
         || PyStr.startswith path_input (shortcut ++ "\")
      then
        let relative_part :=
          PyStr.drop (String.length shortcut + 1) path_input in
        let resolved := folder_path // relative_part in
        match path_exists w resolved with
        | Raise e => Raise e
        | Return true => Return (Some (PosixPath.str resolved))
        | Return false => shortcut_loop w path_input items'
        end
      else shortcut_loop w path_input items'
  end.

(** The loop over [common_folders.values()]. *)
Fixpoint filename_loop (w : W) (path_input : string)
    (values : list PurePath) : outcome (option string) :=
  match values with
  | [] => Return None
  | folder_path :: values' =>
      let potential_path := folder_path // path_input in
      match path_exists w potential_path with
      | Raise e => Raise e
      | Return true => Return (Some (PosixPath.str potential_path))
      | Return false => filename_loop w path_input values'
      end
  end.

Definition is_bare_filename (path_input : string) : bool :=
  negb (PyStr.contains_char "/" path_input)
  && negb (PyStr.contains_char "\" path_input).

(** The last two steps: relative to the current directory, else as is. *)
Definition resolve_relative (w : W) (path_input : string) : outcome string :=
  let current_dir_path := PosixPath.Path path_input in
  match path_exists w current_dir_path with
  | Raise e => Raise e
  | Return true => Return (PosixPath.str (path_absolute w current_dir_path))
  | Return false => Return path_input
  end.

Definition resolve_path (w : W) (path_input : string) : outcome string :=
  let path_input := PyStr.strip path_input in
  if PosixPath.isabs path_input then Return path_input
  else
    let common_folders := get_common_folders w in
    match shortcut_loop w path_input common_folders with
    | Raise e => Raise e
    | Return (Some r) => Return r
    | Return None =>
        match
          (if is_bare_filename path_input
           then filename_loop w path_input (map snd common_folders)
           else Return None)
        with
        | Raise e => Raise e
        | Return (Some r) => Return r
        | Return None => resolve_relative w path_input
        end
    end.

End WithPlatform.
End PathUtils.

(** ** [class VideoConverter] *)

Module VideoConverter.
Section WithPlatform.
Context {W Obj : Type} `{Platform W}.

Definition default_audio_format : string := "mp3".

(** The path used when [audio_path is None]. *)
Definition derived_audio_path (resolved_video_path audio_format : string)
  : string :=
  let video_file := PosixPath.Path resolved_video_path in
  PosixPath.str
    (PosixPath.parent video_file
       // (PosixPath.stem video_file ++ "." ++ audio_format)).

(** [video.audio.write_audiofile(audio_path)] *)
Definition audio_write_audiofile (video : Clip) (audio_path : string)
  : M W Obj unit :=
  if clip_has_audio video
  then call (EvWriteAudiofile video audio_path)
            (fun w => write_audiofile w video audio_path)
  else raise (Exn "AttributeError"
                "'NoneType' object has no attribute 'write_audiofile'" None).

(** The body of the [try] block of [extract_audio]. *)
Definition extract_audio_body (resolved_video_path audio_path : string)
  : M W Obj string :=
  print ("Loading video: " ++ resolved_video_path) ;;
  video <- call (EvVideoFileClip resolved_video_path)
                (fun w => VideoFileClip w resolved_video_path) ;;
  print ("Extracting audio to: " ++ audio_path) ;;
  audio_write_audiofile video audio_path ;;
  call (EvClose video) (fun w => clip_close w video) ;;
  print "Audio extraction completed successfully!" ;;
  ret audio_path.

Definition extract_audio (video_path : string) (audio_path : option string)
    (audio_format : string) : M W Obj string :=
  resolved_video_path <- tries (fun w => PathUtils.resolve_path w video_path) ;;
  found <- reads (fun w => os_path_exists w resolved_video_path) ;;
  if negb found then
    raise (FileNotFoundError
             ("Video file not found: " ++ video_path
              ++ " (resolved to: " ++ resolved_video_path ++ ")"))
  else
    audio_path <-
      match audio_path with
      | None => ret (derived_audio_path resolved_video_path audio_format)
      | Some a => tries (fun w => PathUtils.resolve_path w a)
      end ;;
    try_except
      (extract_audio_body resolved_video_path audio_path)
      (fun e =>
         raise_in_handler "Exception"
           ("Error during audio extraction: " ++ exn_str e) e).

Definition video_extensions : list string :=
  [".mp4"; ".avi"; ".mov"; ".mkv"; ".wmv"; ".flv"; ".webm"].

(** The conversion loop of [batch_convert]. *)
Fixpoint convert_loop (video_files : list string)
    (output_directory audio_format : string) (extracted_files : list string)
  : M W Obj (list string) :=
  match video_files with
  | [] => ret extracted_files
  | video_file :: rest =>
      extracted_files' <-
        try_except
          (let video_name := PosixPath.stem (PosixPath.Path video_file) in
           let audio_path :=
             PosixPath.join output_directory
               (video_name ++ "." ++ audio_format) in
           result <- extract_audio video_file (Some audio_path) audio_format ;;
           ret (extracted_files ++ [result]))
          (fun e =>
             print ("Failed to convert " ++ video_file ++ ": " ++ exn_str e) ;;
             ret extracted_files) ;;
      convert_loop rest output_directory audio_format extracted_files'
  end.

Definition batch_convert (video_directory : string)
    (output_directory : option string) (audio_format : string)
  : M W Obj (list string) :=
  found <- reads (fun w => os_path_exists w video_directory) ;;
  if negb found then
    raise (FileNotFoundError ("Directory not found: " ++ video_directory))
  else
    output_directory <-
      match output_directory with
      | None => ret video_directory
      | Some d => call (EvMakedirs d) (fun w => makedirs w d) ;; ret d
      end ;;
    names <- (fun s => (listdir (world s) video_directory, s)) ;;
    let video_files := matching_files video_directory video_extensions names in
    convert_loop video_files output_directory audio_format [].

End WithPlatform.
End VideoConverter.

(** ** Python [float] arithmetic on binary64 *)

Module PyFloat.

Definition prec : Z := 53.
Definition emax : Z := 1024.

(** [float(z)] *)
Definition of_Z (z : Z) : spec_float := binary_normalize prec emax z 0 false.

(** The double nearest to [n / d] for [d <> 0]: what a literal with that
    decimal value denotes. *)
Definition of_ratio (n d : Z) : spec_float :=
  match n with
  | Z0 => S754_zero false
  | _ =>
      let '(mz, ez, lz) :=
        SFdiv_core_binary prec emax (Z.abs n) 0 (Z.abs d) 0 in
      binary_round_aux prec emax (xorb (n <? 0)%Z (d <? 0)%Z) mz ez lz
  end.

Definition is_zero (x : spec_float) : bool :=
  match x with S754_zero _ => true | _ => false end.

(** [x < 0] *)
Definition is_negative (x : spec_float) : bool :=
  match x with
  | S754_finite s _ _ | S754_infinity s => s
  | _ => false
  end.

(** [copysign(0.0, y)] *)
Definition zero_like (y : spec_float) : spec_float :=
  match y with
  | S754_zero s | S754_finite s _ _ | S754_infinity s => S754_zero s
  | S754_nan => S754_zero false
  end.

(** C's [fmod]: exact, with the sign of [x]. *)
Definition fmod (x y : spec_float) : spec_float :=
  match x, y with
  | S754_nan, _ | _, S754_nan => S754_nan
  | S754_infinity _, _ => S754_nan
  | _, S754_zero _ => S754_nan
  | S754_zero _, _ => x
  | S754_finite _ _ _, S754_infinity _ => x
  | S754_finite sx mx ex, S754_finite _ my ey =>
      let e := Z.min ex ey in
      let r := ((Zpos mx * 2 ^ (ex - e)) mod (Zpos my * 2 ^ (ey - e)))%Z in
      binary_normalize prec emax (cond_Zopp sx r) e sx
  end.

(** C's [floor] *)
Definition floor (x : spec_float) : spec_float :=
  match x with
  | S754_finite s m e =>
      if (0 <=? e)%Z then x
      else binary_normalize prec emax
             (cond_Zopp s (Zpos m) / 2 ^ (- e))%Z 0 s
  | _ => x
  end.

Definition ZeroDivisionError (msg : string) : exn :=
  Exn "ZeroDivisionError" msg None.

(** [x % y] ([float_rem]) *)
Definition rem (x y : spec_float) : outcome spec_float :=
  if is_zero y then Raise (ZeroDivisionError "float modulo")
  else
    let md := fmod x y in
    Return
      (if is_zero md then zero_like y
       else if negb (Bool.eqb (is_negative y) (is_negative md))
            then SFadd prec emax md y
            else md).

(** [x // y] ([float_floor_div], through [_float_div_mod]) *)
Definition floordiv (x y : spec_float) : outcome spec_float :=
  if is_zero y then Raise (ZeroDivisionError "float floor division by zero")
  else
    let md := fmod x y in
    let div := SFdiv prec emax (SFsub prec emax x md) y in
    let div :=
      if negb (is_zero md)
         && negb (Bool.eqb (is_negative y) (is_negative md))
      then SFsub prec emax div (of_Z 1)
      else div in
    Return
      (if is_zero div then zero_like (SFdiv prec emax x y)
       else
         let fl := floor div in
         if SFltb (of_ratio 1 2) (SFsub prec emax div fl)
         then SFadd prec emax fl (of_Z 1)
         else fl).

(** [int(x)] *)
Definition to_int (x : spec_float) : outcome Z :=
  match x with
  | S754_nan =>
      Raise (Exn "ValueError" "cannot convert float NaN to integer" None)
  | S754_infinity _ =>
      Raise (Exn "OverflowError" "cannot convert float infinity to integer"
               None)
  | S754_zero _ => Return 0%Z
  | S754_finite s m e =>
      Return (cond_Zopp s
                (if (0 <=? e)%Z then Zpos m * 2 ^ e
                 else Zpos m / 2 ^ (- e)))%Z
  end.

Definition bind {A B} (o : outcome A) (k : A -> outcome B) : outcome B :=
  match o with
  | Return a => k a
  | Raise e => Raise e
  end.

End PyFloat.

(** ** [class AudioTranscriber] *)

Module AudioTranscriber.

(** The attributes of an instance. *)
Record Self := { model_size : string; model : option Model }.

Definition MODELS : list (string * string) :=
  [ ("tiny", "Fastest, least accurate (~39 MB)");
    ("base", "Good balance (~142 MB)");
    ("small", "Better accuracy (~461 MB)");
    ("medium", "High accuracy (~1.5 GB)");
    ("large", "Highest accuracy (~2.9 GB)") ].

Fixpoint lookup (k : string) (d : list (string * string)) : option string :=
  match d with
  | [] => None
  | (k', v) :: d' => if String.eqb k k' then Some v else lookup k d'
  end.

(** The four fields of a time stamp: hours, minutes, seconds,
    milliseconds. *)
Definition time_fields (seconds : spec_float) : outcome (Z * Z * Z * Z) :=
  let f := fun z : Z => PyFloat.of_Z z in
  PyFloat.bind (PyFloat.bind (PyFloat.floordiv seconds (f 3600%Z)) PyFloat.to_int)
    (fun hours =>
  PyFloat.bind
    (PyFloat.bind
       (PyFloat.bind (PyFloat.rem seconds (f 3600%Z))
          (fun r => PyFloat.floordiv r (f 60%Z)))
       PyFloat.to_int)
    (fun minutes =>
  PyFloat.bind (PyFloat.bind (PyFloat.rem seconds (f 60%Z)) PyFloat.to_int)
    (fun secs =>
  PyFloat.bind
    (PyFloat.bind (PyFloat.rem seconds (f 1%Z))
       (fun r => PyFloat.to_int (SFmul PyFloat.prec PyFloat.emax r (f 1000%Z))))
    (fun millisecs => Return (hours, minutes, secs, millisecs))))).

(** [f"{hours:02d}:{minutes:02d}:{secs:02d}<sep>{millisecs:03d}"] *)
Definition format_time (sep : string) (t : Z * Z * Z * Z) : string :=
  let '(hours, minutes, secs, millisecs) := t in
  PyStr.format_0d 2 hours ++ ":" ++ PyStr.format_0d 2 minutes ++ ":"
    ++ PyStr.format_0d 2 secs ++ sep ++ PyStr.format_0d 3 millisecs.

Definition _seconds_to_srt_time (seconds : spec_float) : outcome string :=
  PyFloat.bind (time_fields seconds) (fun t => Return (format_time "," t)).

Definition _seconds_to_vtt_time (seconds : spec_float) : outcome string :=
  PyFloat.bind (time_fields seconds) (fun t => Return (format_time "." t)).

Section WithPlatform.
Context {W : Type} `{Platform W}.

Definition __init__ {Obj} (model_size : string) : M W Obj Self :=
  match lookup model_size MODELS with
  | None =>
      raise (Exn "ValueError"
               ("Invalid model size. Choose from: "
                ++ "['tiny', 'base', 'small', 'medium', 'large']") None)
  | Some info =>
      print ("Initializing Whisper with '" ++ model_size ++ "' model...") ;;
      print ("Model info: " ++ info) ;;
      ret {| model_size := model_size; model := None |}
  end.

Definition _load_model : M W Self unit :=
  self <- get_this ;;
  match model self with
  | Some _ => ret tt
  | None =>
      print ("Loading Whisper '" ++ model_size self
             ++ "' model... (this may take a moment)") ;;
      m <- call (EvLoadModel (model_size self))
                (fun w => load_model w (model_size self)) ;;
      set_this {| model_size := model_size self; model := Some m |} ;;
      print "✅ Model loaded successfully!"
  end.

(** [self.model.transcribe(audio_path, ...)] *)
Definition self_model_transcribe (audio_path : string) (lang : option string)
  : M W Self Result :=
  self <- get_this ;;
  match model self with
  | Some m =>
      call (EvTranscribe audio_path lang)
           (fun w => model_transcribe w m audio_path lang)
  | None =>
      raise (Exn "AttributeError"
               "'NoneType' object has no attribute 'transcribe'" None)
  end.

Definition with_metadata (result : Result) (m : Metadata) : Result :=
  {| text := text result; segments := segments result;
     language := language result; metadata := Some m |}.

(** The body of the [try] block of [transcribe_audio]. *)
Definition transcribe_audio_body (audio_path : string)
    (lang : option string) : M W Self Result :=
  print ("🎵 Transcribing: " ++ audio_path) ;;
  result <-
    match lang with
    | Some l =>
        if String.eqb l "" then
          print "🌍 Auto-detecting language..." ;;
          self_model_transcribe audio_path None
        else
          print ("🌍 Using language: " ++ l) ;;
          self_model_transcribe audio_path (Some l)
    | None =>
        print "🌍 Auto-detecting language..." ;;
        self_model_transcribe audio_path None
    end ;;
  self <- get_this ;;
  date <- reads now_isoformat ;;
  let detected :=
    match language result with Some l => l | None => "unknown" end in
  let result :=
    with_metadata result
      {| audio_file := audio_path; model_used := model_size self;
         transcription_date := date; detected_language := detected |} in
  print "✅ Transcription completed!" ;;
  print ("📝 Detected language: " ++ detected) ;;
  print ("📊 Text length: " ++ PyStr.of_nat (PyStr.len (text result))
         ++ " characters") ;;
  ret result.

Definition transcribe_audio (audio_path : string) (lang : option string)
    (output_format : string) : M W Self Result :=
  found <- reads (fun w => os_path_exists w audio_path) ;;
  if negb found then
    raise (FileNotFoundError ("Audio file not found: " ++ audio_path))
  else
    _load_model ;;
    try_except
      (transcribe_audio_body audio_path lang)
      (fun e =>
         raise_in_handler "Exception"
           ("Error during transcription: " ++ exn_str e) e).

Definition fopen {Obj} (path : string) : M W Obj unit :=
  call (EvOpen path) (fun w => open_w w path).

Definition fwrite {Obj} (path chunk : string) : M W Obj unit :=
  call (EvWrite path chunk) (fun w => write w path chunk).

(** [result['metadata']] *)
Definition get_metadata {Obj} (result : Result) : M W Obj Metadata :=
  match metadata result with
  | Some m => ret m
  | None => raise (Exn "KeyError" "'metadata'" None)
  end.

Definition write_txt {Obj} (result : Result) (output_path : string)
  : M W Obj unit :=
  let nl := PyStr.LF in
  fopen output_path ;;
  fwrite output_path (PyStr.repeat "=" 50 ++ nl) ;;
  fwrite output_path ("AUDIO TRANSCRIPTION" ++ nl) ;;
  fwrite output_path (PyStr.repeat "=" 50 ++ nl ++ nl) ;;
  m <- get_metadata result ;;
  fwrite output_path ("Audio File: " ++ audio_file m ++ nl) ;;
  fwrite output_path ("Model: " ++ model_used m ++ nl) ;;
  fwrite output_path ("Language: " ++ detected_language m ++ nl) ;;
  fwrite output_path ("Date: " ++ transcription_date m ++ nl) ;;
  fwrite output_path (nl ++ PyStr.repeat "-" 50 ++ nl) ;;
  fwrite output_path ("TRANSCRIPTION:" ++ nl) ;;
  fwrite output_path (PyStr.repeat "-" 50 ++ nl ++ nl) ;;
  fwrite output_path (text result) ;;
  fwrite output_path (nl ++ nl ++ PyStr.repeat "=" 50 ++ nl).

(** [json.dump] is taken as one write of the whole text. *)
Definition write_json {Obj} (result : Result) (output_path : string)
  : M W Obj unit :=
  fopen output_path ;;
  fwrite output_path (json_dumps result).

(** The loop over [enumerate(result["segments"], i)]. *)
Fixpoint srt_loop {Obj} (output_path : string) (i : nat)
    (segs : list Segment) : M W Obj unit :=
  match segs with
  | [] => ret tt
  | segment :: rest =>
      start_time <- lift_outcome (_seconds_to_srt_time (seg_start segment)) ;;
      end_time <- lift_outcome (_seconds_to_srt_time (seg_end segment)) ;;
      fwrite output_path (PyStr.of_nat i ++ PyStr.LF) ;;
      fwrite output_path (start_time ++ " --> " ++ end_time ++ PyStr.LF) ;;
      fwrite output_path
        (PyStr.strip (seg_text segment) ++ PyStr.LF ++ PyStr.LF) ;;
      srt_loop output_path (S i) rest
  end.

Definition write_srt {Obj} (result : Result) (output_path : string)
  : M W Obj unit :=
  fopen output_path ;;
  srt_loop output_path 1 (segments result).

Fixpoint vtt_loop {Obj} (output_path : string) (segs : list Segment)
  : M W Obj unit :=
  match segs with
  | [] => ret tt
  | segment :: rest =>
      start_time <- lift_outcome (_seconds_to_vtt_time (seg_start segment)) ;;
      end_time <- lift_outcome (_seconds_to_vtt_time (seg_end segment)) ;;
      fwrite output_path (start_time ++ " --> " ++ end_time ++ PyStr.LF) ;;
      fwrite output_path
        (PyStr.strip (seg_text segment) ++ PyStr.LF ++ PyStr.LF) ;;
      vtt_loop output_path rest
  end.

Definition write_vtt {Obj} (result : Result) (output_path : string)
  : M W Obj unit :=
  fopen output_path ;;
  fwrite output_path ("WEBVTT" ++ PyStr.LF ++ PyStr.LF) ;;
  vtt_loop output_path (segments result).

(** The [if]/[elif] chain on [format_type.lower()]. *)
Definition write_format {Obj} (result : Result)
    (output_path format_type : string) : M W Obj unit :=
  let fmt := PyStr.lower format_type in
  if String.eqb fmt "txt" then write_txt result output_path
  else if String.eqb fmt "json" then write_json result output_path
  else if String.eqb fmt "srt" then write_srt result output_path
  else if String.eqb fmt "vtt" then write_vtt result output_path
  else ret tt.

Definition save_transcription {Obj} (result : Result)
    (output_path format_type : string) : M W Obj unit :=
  let output_file := PosixPath.Path output_path in
  let parent_dir := PosixPath.str (PosixPath.parent output_file) in
  call (EvMakedirs parent_dir) (fun w => makedirs w parent_dir) ;;
  try_except
    (write_format result output_path format_type ;;
     print ("💾 Transcription saved to: " ++ output_path))
    (fun e =>
       raise_in_handler "Exception"
         ("Error saving transcription: " ++ exn_str e) e).

Definition transcribe_and_save (audio_path : string)
    (output_path : option string) (lang : option string)
    (output_format : string) : M W Self string :=
  let output_path :=
    match output_path with
    | Some p => p
    | None =>
        let audio_file := PosixPath.Path audio_path in
        PosixPath.str
          (PosixPath.parent audio_file
             // (PosixPath.stem audio_file ++ "_transcription."
                 ++ output_format))
    end in
  result <- transcribe_audio audio_path lang output_format ;;
  save_transcription result output_path output_format ;;
  ret output_path.

Definition audio_extensions : list string :=
  [".mp3"; ".wav"; ".m4a"; ".flac"; ".aac"; ".ogg"; ".wma"].

(** The loop over [enumerate(audio_files, i)]; [total] is
    [len(audio_files)]. *)
Fixpoint transcribe_loop (audio_files : list string) (i total : nat)
    (output_directory : string) (lang : option string)
    (output_format : string) (transcribed_files : list string)
  : M W Self (list string) :=
  match audio_files with
  | [] => ret transcribed_files
  | audio_file :: rest =>
      transcribed_files' <-
        try_except
          (print (PyStr.LF ++ "📝 Processing file " ++ PyStr.of_nat i ++ "/"
                  ++ PyStr.of_nat total) ;;
           let audio_name := PosixPath.stem (PosixPath.Path audio_file) in
           let output_path :=
             PosixPath.join output_directory
               (audio_name ++ "_transcription." ++ output_format) in
           result_path <-
             transcribe_and_save audio_file (Some output_path) lang
               output_format ;;
           ret (transcribed_files ++ [result_path]))
          (fun e =>
             print ("❌ Failed to transcribe " ++ audio_file ++ ": "
                    ++ exn_str e) ;;
             ret transcribed_files) ;;
      transcribe_loop rest (S i) total output_directory lang output_format
        transcribed_files'
  end.

Definition batch_transcribe (audio_directory : string)
    (output_directory : option string) (lang : option string)
    (output_format : string) : M W Self (list string) :=
  found <- reads (fun w => os_path_exists w audio_directory) ;;
  if negb found then
    raise (FileNotFoundError ("Directory not found: " ++ audio_directory))
  else
    let output_directory :=
      match output_directory with
      | Some d => d
      | None => PosixPath.join audio_directory "transcriptions"
      end in
    call (EvMakedirs output_directory)
         (fun w => makedirs w output_directory) ;;
    names <- (fun s => (listdir (world s) audio_directory, s)) ;;
    let audio_files :=
      matching_files audio_directory audio_extensions names in
    print ("🎵 Found " ++ PyStr.of_nat (List.length audio_files)
           ++ " audio files to transcribe") ;;
    transcribed_files <-
      transcribe_loop audio_files 1 (List.length audio_files)
        output_directory lang output_format [] ;;
    print (PyStr.LF ++ "🎉 Batch transcription completed! "
           ++ PyStr.of_nat (List.length transcribed_files) ++ "/"
           ++ PyStr.of_nat (List.length audio_files) ++ " files processed") ;;
    ret transcribed_files.

End WithPlatform.
End AudioTranscriber.

(** ** Reading a trace *)

Definition clip_eqb (a b : Clip) : bool :=
  Nat.eqb (clip_id a) (clip_id b)
  && Bool.eqb (clip_has_audio a) (clip_has_audio b).

Definition is_clip_open (ev : event) : bool :=
  match ev with EvVideoFileClip _ => true | _ => false end.

Definition is_audio_write (ev : event) : bool :=
  match ev with EvWriteAudiofile _ _ => true | _ => false end.

Definition is_close_of (c : Clip) (ev : event) : bool :=
  match ev with EvClose c' => clip_eqb c c' | _ => false end.

Definition is_file_output (ev : event) : bool :=
  match ev with EvOpen _ | EvWrite _ _ => true | _ => false end.

Definition is_engine_call (ev : event) : bool :=
  match ev with
  | EvVideoFileClip _ | EvWriteAudiofile _ _ | EvClose _
  | EvLoadModel _ | EvTranscribe _ _ => true
  | _ => false
  end.

Definition count (f : event -> bool) (t : list event) : nat :=
  List.length (filter f t).

(** The clip [c] has been closed somewhere in [t]. *)
Definition released (c : Clip) (t : list event) : bool :=
  existsb (is_close_of c) t.

(** The text sent to [path] by the events [t], starting from [acc]:
    opening for writing truncates, each write appends. *)
Fixpoint file_text (path : string) (t : list event) (acc : string) : string :=
  match t with
  | [] => acc
  | EvOpen p :: t' =>
      file_text path t' (if String.eqb p path then "" else acc)
  | EvWrite p chunk :: t' =>
      file_text path t' (if String.eqb p path then acc ++ chunk else acc)
  | _ :: t' => file_text path t' acc
  end.

(** ** Well-formed paths *)

(** A component of a parsed path: not empty, not a dot, without a slash. *)
Definition component (x : string) : Prop :=
  x <> "" /\ x <> "." /\ PyStr.contains_char "/" x = false.

(** What [Path] produces: one of the three roots, then components. *)
Definition normal (p : PurePath) : Prop :=
  (PosixPath.root p = "" \/ PosixPath.root p = "/" \/ PosixPath.root p = "//")
  /\ Forall component (PosixPath.tail p).

(** ** Names used in the statements *)

Definition separator (sep : string) : Prop := sep = "/" \/ sep = "\".

(** The exception [extract_audio] raises when its [try] block raised [e0]. *)
Definition extraction_error (e0 : exn) : exn :=
  Exn "Exception" ("Error during audio extraction: " ++ exn_str e0) (Some e0).

(** The exception [transcribe_audio] raises when its [try] block raised
    [e0]. *)
Definition transcription_error (e0 : exn) : exn :=
  Exn "Exception" ("Error during transcription: " ++ exn_str e0) (Some e0).

(** The exception [save_transcription] raises when its [try] block raised
    [e0]. *)
Definition saving_error (e0 : exn) : exn :=
  Exn "Exception" ("Error saving transcription: " ++ exn_str e0) (Some e0).

(** The output path of [extract_audio], once the input is resolved. *)
Definition target_path {W} `{Platform W} (w : W) (resolved : string)
    (audio_path : option string) (audio_format : string) : outcome string :=
  match audio_path with
  | None => Return (VideoConverter.derived_audio_path resolved audio_format)
  | Some a => PathUtils.resolve_path w a
  end.

(** ** Batches, file by file *)

(** The results of a batch. *)
Definition successes {A} (outs : list (outcome A)) : list A :=
  flat_map (fun o => match o with Return a => [a] | Raise _ => [] end) outs.



(** Each file is processed in turn, in the state the previous one left;
    a failure is reported on the console and the run goes on. [i] is the
    1-based position of the first file. *)
Fixpoint run_each {W Obj A} (process : nat -> string -> M W Obj A)
    (report : string -> exn -> string) (i : nat) (files : list string)
    (s : State W Obj) : list (outcome A) * State W Obj :=
  match files with
  | [] => ([], s)
  | file :: rest =>
      match process i file s with
      | (Return a, s1) =>
          let '(outs, s2) := run_each process report (S i) rest s1 in
          (Return a :: outs, s2)
      | (Raise e, s1) =>
          let '(outs, s2) :=
            run_each process report (S i) rest
              (mkState (world s1) (trace s1 ++ [EvPrint (report file e)])
                 (this s1)) in
          (Raise e :: outs, s2)
      end
  end.

Section BatchItems.
Context {W : Type} `{Platform W}.

(** What [batch_convert] does with one video. *)
Definition convert_one {Obj} (output_directory audio_format : string)
    (i : nat) (video_file : string) : M W Obj string :=
  VideoConverter.extract_audio video_file
    (Some (PosixPath.join output_directory
             (PosixPath.stem (PosixPath.Path video_file) ++ "."
              ++ audio_format)))
    audio_format.


(** What [batch_transcribe] does with one audio file, the [i]-th of
    [total]. *)
Definition transcribe_one (total : nat) (output_directory : string)
    (lang : option string) (output_format : string) (i : nat)
    (audio_file : string) : M W AudioTranscriber.Self string :=
  print (PyStr.LF ++ "📝 Processing file " ++ PyStr.of_nat i ++ "/"
         ++ PyStr.of_nat total) ;;
  AudioTranscriber.transcribe_and_save audio_file
    (Some (PosixPath.join output_directory
             (PosixPath.stem (PosixPath.Path audio_file)
              ++ "_transcription." ++ output_format)))
    lang output_format.

Definition transcribe_report (audio_file : string) (e : exn) : string :=
  "❌ Failed to transcribe " ++ audio_file ++ ": " ++ exn_str e.

End BatchItems.

(** ** Subtitle files, as the formats are described *)

(** A time stamp with separator [sep]; empty when the conversion raises. *)
Definition subtitle_time (sep : string) (seconds : spec_float) : string :=
  match AudioTranscriber.time_fields seconds with
  | Return t => AudioTranscriber.format_time sep t
  | Raise _ => ""
  end.

(** One block: an optional index line, the time line, the text, a blank
    line. *)
Definition subtitle_block (index_line sep : string) (seg : Segment) : string :=
  index_line
  ++ subtitle_time sep (seg_start seg) ++ " --> "
  ++ subtitle_time sep (seg_end seg) ++ PyStr.LF
  ++ PyStr.strip (seg_text seg) ++ PyStr.LF ++ PyStr.LF.

(** srt: one block per segment, in order, numbered from [i]. *)
Fixpoint srt_blocks (i : nat) (segs : list Segment) : string :=
  match segs with
  | [] => ""
  | seg :: rest =>
      subtitle_block (PyStr.of_nat i ++ PyStr.LF) "," seg
      ++ srt_blocks (S i) rest
  end.

Definition srt_text (result : Result) : string :=
  srt_blocks 1 (segments result).

(** vtt: the header, then the same blocks without the index line and with
    a dot in the time stamps. *)
Fixpoint vtt_blocks (segs : list Segment) : string :=
  match segs with
  | [] => ""
  | seg :: rest => subtitle_block "" "." seg ++ vtt_blocks rest
  end.

Definition vtt_text (result : Result) : string :=
  "WEBVTT" ++ PyStr.LF ++ PyStr.LF ++ vtt_blocks (segments result).

(** The same layouts with the text of each segment as it is in the result,
    not stripped: this is how the specification words the blocks. They are
    kept beside [srt_text] and [vtt_text], which follow the code, to be
    compared with them. *)
Definition claimed_block (index_line sep : string) (seg : Segment) : string :=
  index_line
  ++ subtitle_time sep (seg_start seg) ++ " --> "
  ++ subtitle_time sep (seg_end seg) ++ PyStr.LF
  ++ seg_text seg ++ PyStr.LF ++ PyStr.LF.

Fixpoint claimed_srt_blocks (i : nat) (segs : list Segment) : string :=
  match segs with
  | [] => ""
  | seg :: rest =>
      claimed_block (PyStr.of_nat i ++ PyStr.LF) "," seg
      ++ claimed_srt_blocks (S i) rest
  end.

Definition claimed_srt_text (result : Result) : string :=
  claimed_srt_blocks 1 (segments result).

Fixpoint claimed_vtt_blocks (segs : list Segment) : string :=
  match segs with
  | [] => ""
  | seg :: rest => claimed_block "" "." seg ++ claimed_vtt_blocks rest
  end.

Definition claimed_vtt_text (result : Result) : string :=
  "WEBVTT" ++ PyStr.LF ++ PyStr.LF ++ claimed_vtt_blocks (segments result).

(** ** The shape of a time stamp *)

Definition is_digit (c : ascii) : bool :=
  Nat.leb 48 (nat_of_ascii c) && Nat.leb (nat_of_ascii c) 57.

(** [s] is [n] decimal digits. *)
Fixpoint digits (n : nat) (s : string) : bool :=
  match n, s with
  | O, EmptyString => true
  | S n', String c r => is_digit c && digits n' r
  | _, _ => false
  end.

(** [HH:MM:SS<sep>mmm] *)
Definition stamp_shaped (sep t : string) : Prop :=
  exists hh mm ss mmm : string,
    t = (hh ++ ":" ++ mm ++ ":" ++ ss ++ sep ++ mmm)%string
    /\ digits 2 hh = true /\ digits 2 mm = true /\ digits 2 ss = true
    /\ digits 3 mmm = true.

(** ** Time stamps at whole seconds plus 0.9996 *)

(** [HH:MM:SS] for a whole number of seconds. *)
Definition hms (x : nat) : string :=
  PyStr.format_0d 2 (Z.of_nat (x / 3600)) ++ ":"
  ++ PyStr.format_0d 2 (Z.of_nat ((x mod 3600) / 60)) ++ ":"
  ++ PyStr.format_0d 2 (Z.of_nat (x mod 60)).

(** The double written [x.9996]. *)
Definition dot9996 (x : nat) : spec_float :=
  PyFloat.of_ratio (Z.of_nat x * 10000 + 9996) 10000.

(** Both ends of the segment can be converted to time fields. *)
Definition convertible (seg : Segment) : Prop :=
  (exists a, AudioTranscriber.time_fields (seg_start seg) = Return a)
  /\ (exists b, AudioTranscriber.time_fields (seg_end seg) = Return b).

(** ** Doubles as multiples of the least positive one *)

Definition fexp64 : Z -> Z := fexp PyFloat.prec PyFloat.emax.

(** A positive float in canonical form: the exponent is the one its
    magnitude calls for, and within range. *)
Definition canonical (m : positive) (e : Z) : Prop :=
  fexp64 (Zpos (digits2_pos m) + e) = e /\ (e <= 971)%Z.

(** The value of [m * 2^e] in units of [2^-1074], the least positive
    double. *)
Definition units (m e : Z) : Z := (m * 2 ^ (e + 1074))%Z.

(** One, in those units. *)
Definition unity : Z := (2 ^ 1074)%Z.

(** [x] is zero or a positive double in canonical form, and its value is
    [u] units. *)
Definition measures (x : spec_float) (u : Z) : Prop :=
  (x = S754_zero false /\ u = 0%Z)
  \/ exists m e, x = S754_finite false m e /\ canonical m e
                 /\ units (Zpos m) e = u.

(** The last place of [x], in units; for zero, the unit. *)
Definition ulp_units (x : spec_float) : Z :=
  match x with
  | S754_finite _ _ e => (2 ^ (e + 1074))%Z
  | _ => 1%Z
  end.

(** [s'] continues [s] with events that append [txt] to the file [p]. *)
Definition appends {W Obj} (p txt : string) (s s' : State W Obj) : Prop :=
  this s' = this s
  /\ exists evs, trace s' = trace s ++ evs
                 /\ forall acc, file_text p evs acc = (acc ++ txt)%string.

Definition known_formats : list string := ["txt"; "json"; "srt"; "vtt"].

(** ** More readers of a trace *)

Definition is_model_load (ev : event) : bool :=
  match ev with EvLoadModel _ => true | _ => false end.

(** How many times [whisper.load_model] has been called. *)
Definition loads {W Obj} (s : State W Obj) : nat :=
  count is_model_load (trace s).

(** Creating a directory, opening a file for writing, writing to it. *)
Definition touches_disk (ev : event) : bool :=
  match ev with EvMakedirs _ | EvOpen _ | EvWrite _ _ => true | _ => false end.

(** Neither moviepy nor whisper. *)
Definition not_engine (ev : event) : bool := negb (is_engine_call ev).

(** Every run of [m] continues the trace with events that [allowed]
    accepts. *)
Definition emits {W Obj A} (allowed : event -> bool) (m : M W Obj A) : Prop :=
  forall s, exists evs,
    trace (snd (m s)) = trace s ++ evs /\ forallb allowed evs = true.

(** No run of [m] changes the object it is called on. *)
Definition keeps_this {W Obj A} (m : M W Obj A) : Prop :=
  forall s, this (snd (m s)) = this s.

(** ** What [transcribe_audio] asks of whisper, and what it adds *)

(** The [language] keyword of the call: absent when the argument is [None]
    or empty. *)
Definition language_argument (lang : option string) : option string :=
  match lang with
  | Some l => if String.eqb l "" then None else Some l
  | None => None
  end.

(** The result of whisper with the metadata of a run on [audio_path] with
    the model [size], at the time [date]. *)
Definition transcript (r0 : Result) (audio_path size date : string) : Result :=
  {| text := text r0; segments := segments r0; language := language r0;
     metadata :=
       Some {| audio_file := audio_path; model_used := size;
               transcription_date := date;
               detected_language :=
                 match language r0 with Some l => l | None => "unknown" end |} |}.

(** ** The text file, line by line *)

Definition rule (c : string) : string := PyStr.repeat c 50.

(** What the first three writes send: the banner and an empty line. *)
Definition txt_banner : string :=
  PyStr.join PyStr.LF [rule "="; "AUDIO TRANSCRIPTION"; rule "="; ""; ""].

Definition txt_lines (body : string) (m : Metadata) : list string :=
  [ rule "="; "AUDIO TRANSCRIPTION"; rule "="; "";
    ("Audio File: " ++ audio_file m)%string;
    ("Model: " ++ model_used m)%string;
    ("Language: " ++ detected_language m)%string;
    ("Date: " ++ transcription_date m)%string;
    ""; rule "-"; "TRANSCRIPTION:"; rule "-"; "";
    body; ""; rule "="; "" ].

Definition txt_text (body : string) (m : Metadata) : string :=
  PyStr.join PyStr.LF (txt_lines body m).

(** The first time stamp of the segment that cannot be converted, as the
    subtitle loops meet it: the start, then the end. *)
Definition stamp_error (seg : Segment) : option exn :=
  match AudioTranscriber.time_fields (seg_start seg) with
  | Raise e => Some e
  | Return _ =>
      match AudioTranscriber.time_fields (seg_end seg) with
      | Raise e => Some e
      | Return _ => None
      end
  end.

(** ** The file dialogs *)

(** A [tk.Tk] root window. *)
Record Window := { window_id : nat }.

(** What tkinter does, over the same state of the world:
    - [Tk]: [tk.Tk()];
    - [withdraw], [attributes], [destroy]: the methods of the root window;
    - [askopenfilename]: [filedialog.askopenfilename(title=, initialdir=,
      filetypes=)];
    - [asksaveasfilename]: [filedialog.asksaveasfilename(title=,
      initialdir=, initialfile=, filetypes=)].
    A dialog that is closed without a choice returns the empty string. *)
Class Toolkit (W : Type) := {
  Tk : W -> outcome Window * W;
  withdraw : W -> Window -> outcome unit * W;
  attributes : W -> Window -> string -> bool -> outcome unit * W;
  destroy : W -> Window -> outcome unit * W;
  askopenfilename :
    W -> string -> option string -> list (string * string)
    -> outcome string * W;
  asksaveasfilename :
    W -> string -> option string -> option string -> list (string * string)
    -> outcome string * W
}.

(** A call of the toolkit: it may change the world; the trace keeps to the
    console, the file system and the two engines. *)
Definition gui {W Obj A} (op : W -> outcome A * W) : M W Obj A :=
  fun s =>
    let '(o, w') := op (world s) in
    (o, mkState w' (trace s) (this s)).

(** [d.get(k, default)] on the folder table. *)
Fixpoint folder_get (k : string) (d : list (string * PurePath))
    (default : PurePath) : PurePath :=
  match d with
  | [] => default
  | (k', v) :: d' => if String.eqb k k' then v else folder_get k d' default
  end.

(** [x if x else None] for the string a dialog returns. *)
Definition chosen (file_path : string) : option string :=
  if String.eqb file_path "" then None else Some file_path.

Module Interactive.
Section WithToolkit.
Context {W : Type} `{Platform W} `{Toolkit W}.

Definition video_filetypes : list (string * string) :=
  [ ("Video files", "*.mp4 *.avi *.mov *.mkv *.wmv *.flv *.webm");
    ("MP4 files", "*.mp4");
    ("AVI files", "*.avi");
    ("MOV files", "*.mov");
    ("All files", "*.*") ].

Definition audio_output_filetypes : list (string * string) :=
  [ ("MP3 files", "*.mp3");
    ("WAV files", "*.wav");
    ("Audio files", "*.mp3 *.wav *.aac *.flac");
    ("All files", "*.*") ].

Definition audio_filetypes : list (string * string) :=
  [ ("Audio files", "*.mp3 *.wav *.m4a *.flac *.aac *.ogg *.wma");
    ("MP3 files", "*.mp3");
    ("WAV files", "*.wav");
    ("All files", "*.*") ].

Definition transcript_filetypes : list (string * string) :=
  [ ("Text files", "*.txt");
    ("JSON files", "*.json");
    ("SRT files", "*.srt");
    ("VTT files", "*.vtt");
    ("All files", "*.*") ].

(** The three calls that make the hidden root window. *)
Definition hidden_root {Obj} : M W Obj Window :=
  root <- gui Tk ;;
  gui (fun w => withdraw w root) ;;
  gui (fun w => attributes w root "-topmost" true) ;;
  ret root.

(** [PathUtils.pick_video_file] *)
Definition pick_video_file {Obj} (title : string) : M W Obj (option string) :=
  try_except
    (root <- hidden_root ;;
     common_folders <- reads PathUtils.get_common_folders ;;
     user_home <- reads (fun w => PosixPath.Path (home w)) ;;
     let initial_dir :=
       PosixPath.str (folder_get "desktop" common_folders user_home) in
     file_path <-
       gui (fun w =>
              askopenfilename w title (Some initial_dir) video_filetypes) ;;
     gui (fun w => destroy w root) ;;
     ret (chosen file_path))
    (fun e =>
       print ("Error opening file dialog: " ++ exn_str e) ;;
       ret None).

(** [PathUtils.pick_output_location] *)
Definition pick_output_location {Obj} (title default_name : string)
  : M W Obj (option string) :=
  try_except
    (root <- hidden_root ;;
     common_folders <- reads PathUtils.get_common_folders ;;
     user_home <- reads (fun w => PosixPath.Path (home w)) ;;
     let initial_dir :=
       PosixPath.str (folder_get "music" common_folders user_home) in
     file_path <-
       gui (fun w =>
              asksaveasfilename w title (Some initial_dir)
                (Some default_name) audio_output_filetypes) ;;
     gui (fun w => destroy w root) ;;
     ret (chosen file_path))
    (fun e =>
       print ("Error opening save dialog: " ++ exn_str e) ;;
       ret None).

(** [VideoConverter.extract_audio_interactive] *)
Definition extract_audio_interactive {Obj} : M W Obj (option string) :=
  print "=== Interactive Video to Audio Converter ===" ;;
  print "Please select a video file..." ;;
  video_path <- pick_video_file "Select Video File" ;;
  match video_path with
  | None =>
      print "No video file selected. Operation cancelled." ;;
      ret None
  | Some video_path =>
      print ("Selected video: " ++ video_path) ;;
      let video_file := PosixPath.Path video_path in
      let default_audio_name := (PosixPath.stem video_file ++ ".mp3")%string in
      print "Please choose where to save the audio file..." ;;
      audio_path <-
        pick_output_location "Save Audio File As" default_audio_name ;;
      match audio_path with
      | None =>
          print "No output location selected. Operation cancelled." ;;
          ret None
      | Some audio_path =>
          try_except
            (result <-
               VideoConverter.extract_audio video_path (Some audio_path)
                 VideoConverter.default_audio_format ;;
             print ("✅ Success! Audio saved to: " ++ result) ;;
             ret (Some result))
            (fun e =>
               print ("❌ Conversion failed: " ++ exn_str e) ;;
               ret None)
      end
  end.

(** [AudioTranscriber.pick_audio_file] *)
Definition pick_audio_file {Obj} (title : string) : M W Obj (option string) :=
  try_except
    (root <- hidden_root ;;
     file_path <-
       gui (fun w => askopenfilename w title None audio_filetypes) ;;
     gui (fun w => destroy w root) ;;
     ret (chosen file_path))
    (fun e =>
       print ("Error opening file dialog: " ++ exn_str e) ;;
       ret None).

(** [Path(output_path).suffix[1:].lower() or "txt"] *)
Definition format_of_path (output_path : string) : string :=
  let ext :=
    PyStr.lower (PyStr.drop 1 (PosixPath.suffix (PosixPath.Path output_path)))
  in
  if String.eqb ext "" then "txt" else ext.

(** [AudioTranscriber.transcribe_interactive] *)
Definition transcribe_interactive
  : M W AudioTranscriber.Self (option string) :=
  print "=== Interactive Audio Transcriber ===" ;;
  print "Please select an audio file to transcribe..." ;;
  audio_path <- pick_audio_file "Select Audio File" ;;
  match audio_path with
  | None =>
      print "No audio file selected. Operation cancelled." ;;
      ret None
  | Some audio_path =>
      print ("Selected audio: " ++ audio_path) ;;
      let audio_file := PosixPath.Path audio_path in
      let default_output :=
        (PosixPath.stem audio_file ++ "_transcription.txt")%string in
      print "Choose where to save the transcription..." ;;
      root <- hidden_root ;;
      output_path <-
        gui (fun w =>
               asksaveasfilename w "Save Transcription As" None
                 (Some default_output) transcript_filetypes) ;;
      gui (fun w => destroy w root) ;;
      if String.eqb output_path "" then
        print "No output location selected. Operation cancelled." ;;
        ret None
      else
        let output_format := format_of_path output_path in
        try_except
          (result_path <-
             AudioTranscriber.transcribe_and_save audio_path
               (Some output_path) None output_format ;;
           print ("✅ Success! Transcription saved to: " ++ result_path) ;;
           ret (Some result_path))
          (fun e =>
             print ("❌ Transcription failed: " ++ exn_str e) ;;
             ret None)
  end.

End WithToolkit.
End Interactive.

(** What the open dialog of [pick_video_file] answers when the function
    is run from [s]: the string that [askopenfilename] returns in the world
    the three calls for the hidden root window have left, or the error it
    raises there; the error of those calls when one of them fails. *)
Definition video_dialog_answer {W Obj} `{Platform W} `{Toolkit W}
    (title : string) (s : State W Obj) : outcome string :=
  match Interactive.hidden_root s with
  | (Raise e, _) => Raise e
  | (Return _, s1) =>
      fst (askopenfilename (world s1) title
             (Some (PosixPath.str
                      (folder_get "desktop"
                         (PathUtils.get_common_folders (world s1))
                         (PosixPath.Path (home (world s1))))))
             Interactive.video_filetypes)
  end.

(** The same for the save dialog of [pick_output_location]. *)
Definition output_dialog_answer {W Obj} `{Platform W} `{Toolkit W}
    (title default_name : string) (s : State W Obj) : outcome string :=
  match Interactive.hidden_root s with
  | (Raise e, _) => Raise e
  | (Return _, s1) =>
      fst (asksaveasfilename (world s1) title
             (Some (PosixPath.str
                      (folder_get "music"
                         (PathUtils.get_common_folders (world s1))
                         (PosixPath.Path (home (world s1))))))
             (Some default_name) Interactive.audio_output_filetypes)
  end.

(** One of the calls of the save dialog of [transcribe_interactive]
    raises [e] in some world. *)
Definition toolkit_raised {W} `{Toolkit W} (e : exn) : Prop :=
  exists w root,
    fst (Tk w) = Raise e
    \/ fst (withdraw w root) = Raise e
    \/ fst (attributes w root "-topmost" true) = Raise e
    \/ fst (destroy w root) = Raise e
    \/ exists d i,
         fst (asksaveasfilename w "Save Transcription As" d i
                Interactive.transcript_filetypes) = Raise e.

(** What a guarded dialog [m] does from [s]: it returns; a path it
    returns is not empty and is what the dialog [answers] in some world
    and for some initial directory; the object is left alone; and the
    trace is as it was, or the dialog failed, nothing was chosen and one
    line starting with [prefix] was printed. *)
Definition dialog_outcome {W Obj} (m : M W Obj (option string))
    (prefix : string) (answers : W -> option string -> outcome string)
    (s : State W Obj) : Prop :=
  exists res s',
    m s = (Return res, s')
    /\ this s' = this s
    /\ (forall p, res = Some p ->
                  p <> "" /\ exists w dir, answers w dir = Return p)
    /\ (trace s' = trace s
        \/ (res = None
            /\ exists e,
                 trace s' = trace s ++ [EvPrint (prefix ++ exn_str e)])).

(** ** A small concrete platform, for running the code on examples *)

Module Demo.

Record World := {
  home_dir : string;
  cwd : string;
  present : list string;              (* paths [os.stat] succeeds on *)
  listings : list (string * list string);
  unreadable : list string;           (* videos moviepy cannot open *)
  silent : list string;               (* videos without an audio track *)
  unwritable : list string;           (* outputs the encoder fails on *)
  untranscribable : list string;      (* audio whisper fails on *)
  loader_error : option exn;          (* what [whisper.load_model] raises *)
  transcription : Result;             (* what whisper returns *)
  next_clip : nat
}.

Definition add_path (p : string) (w : World) : World :=
  {| home_dir := home_dir w; cwd := cwd w; present := p :: present w;
     listings := listings w; unreadable := unreadable w; silent := silent w;
     unwritable := unwritable w; untranscribable := untranscribable w;
     loader_error := loader_error w; transcription := transcription w;
     next_clip := next_clip w |}.

Definition bump_clip (w : World) : World :=
  {| home_dir := home_dir w; cwd := cwd w; present := present w;
     listings := listings w; unreadable := unreadable w; silent := silent w;
     unwritable := unwritable w; untranscribable := untranscribable w;
     loader_error := loader_error w; transcription := transcription w;
     next_clip := S (next_clip w) |}.

Fixpoint find_listing (d : string) (l : list (string * list string))
  : outcome (list string) :=
  match l with
  | [] => Raise (FileNotFoundError "[Errno 2] No such file or directory")
  | (d', names) :: l' =>
      if String.eqb d d' then Return names else find_listing d l'
  end.

Definition quote : string := PyStr.bytes [34%N].

(** [os.stat] in the demo: the listed paths are there; a path with a
    component of more than 255 bytes is refused as on Linux; nothing else
    exists. *)
Definition name_too_long (p : string) : exn :=
  Exn "OSError" ("[Errno 36] File name too long: '" ++ p ++ "'") None.

Definition demo_stat (w : World) (p : string) : stat_result :=
  if in_set p (present w) then StatOk
  else if existsb (fun c => Nat.ltb 255 (String.length c))
            (PosixPath.tail (PosixPath.Path p))
       then StatError (name_too_long p)
       else StatMissing.

#[global] Instance platform : Platform World := {
  home := home_dir;
  getcwd := cwd;
  stat := demo_stat;
  stat_error_kept :=
    ltac:(intros w p e; unfold demo_stat;
          destruct (in_set p (present w)); [discriminate|];
          destruct (existsb _ _); [|discriminate];
          intros [= <-]; reflexivity);
  listdir := fun w d => find_listing d (listings w);
  makedirs := fun w d => (Return tt, add_path d w);
  open_w := fun w p => (Return tt, add_path p w);
  write := fun w _ _ => (Return tt, w);
  now_isoformat := fun _ => "2025-09-21T13:33:26";
  json_dumps := fun r => ("{" ++ quote ++ "text" ++ quote ++ ": " ++ quote
                          ++ text r ++ quote ++ "}")%string;
  VideoFileClip := fun w p =>
    if in_set p (unreadable w)
    then (Raise (Exn "OSError" "decoder failed" None), w)
    else (Return {| clip_id := next_clip w;
                    clip_has_audio := negb (in_set p (silent w)) |},
          bump_clip w);
  write_audiofile := fun w _ out =>
    if in_set out (unwritable w)
    then (Raise (Exn "OSError" "encoder failed" None), w)
    else (Return tt, add_path out w);
  clip_close := fun w _ => (Return tt, w);
  load_model := fun w _ =>
    match loader_error w with
    | Some e => (Raise e, w)
    | None => (Return {| model_id := 0 |}, w)
    end;
  model_transcribe := fun w _ p _ =>
    if in_set p (untranscribable w)
    then (Raise (Exn "RuntimeError" "transcription failed" None), w)
    else (Return (transcription w), w)
}.

Definition hello : Result :=
  {| text := " Hello world. Goodbye.";
     segments :=
       [ {| seg_start := PyFloat.of_Z 0; seg_end := PyFloat.of_ratio 3 2;
            seg_text := " Hello world." |};
         {| seg_start := PyFloat.of_ratio 3 2;
            seg_end := PyFloat.of_ratio 35999999 10000;
            seg_text := " Goodbye." |} ];
     language := Some "en";
     metadata := None |}.

(** A home directory with one video on the desktop; nothing else exists. *)
Definition w0 : World :=
  {| home_dir := "/home/u"; cwd := "/work";
     present := ["/home/u/Desktop/x.mp4"; "/home/u/Desktop"; "/home/u"];
     listings := []; unreadable := []; silent := []; unwritable := [];
     untranscribable := []; loader_error := None; transcription := hello;
     next_clip := 0 |}.

Definition with_faults (w : World) (bad_video no_audio bad_output
    bad_audio : list string) (loader : option exn) : World :=
  {| home_dir := home_dir w; cwd := cwd w; present := present w;
     listings := listings w; unreadable := bad_video; silent := no_audio;
     unwritable := bad_output; untranscribable := bad_audio;
     loader_error := loader; transcription := transcription w;
     next_clip := next_clip w |}.

(** As [w0], but encoding to [x.mp3] fails. *)
Definition w_unwritable : World :=
  with_faults w0 [] [] ["/home/u/Desktop/x.mp3"] [] None.

(** As [w0], but [x.mp4] has no audio track. *)
Definition w_silent : World :=
  with_faults w0 [] ["/home/u/Desktop/x.mp4"] [] [] None.

(** As [w0], but [x.mp4] cannot be decoded. *)
Definition w_unreadable : World :=
  with_faults w0 ["/home/u/Desktop/x.mp4"] [] [] [] None.

(** A video in the current directory. *)
Definition w_clip : World :=
  {| home_dir := "/home/u"; cwd := "/work";
     present := ["clip.mp4"; "/work/clip.mp4"; "/work"];
     listings := []; unreadable := []; silent := []; unwritable := [];
     untranscribable := []; loader_error := None; transcription := hello;
     next_clip := 0 |}.

(** A directory of three videos and a text file; [b.MP4] cannot be
    decoded. *)
Definition w_videos : World :=
  {| home_dir := "/home/u"; cwd := "/work";
     present := ["/in"; "/in/a.mp4"; "/in/notes.txt"; "/in/b.MP4";
                 "/in/c.mkv"];
     listings := [("/in", ["a.mp4"; "notes.txt"; "b.MP4"; "c.mkv"])];
     unreadable := ["/in/b.MP4"]; silent := []; unwritable := [];
     untranscribable := []; loader_error := None; transcription := hello;
     next_clip := 0 |}.


(** A directory of three audio files; whisper fails on [b.wav]. *)
Definition w_audios : World :=
  {| home_dir := "/home/u"; cwd := "/work";
     present := ["/in"; "/in/a.mp3"; "/in/b.wav"; "/in/c.ogg"];
     listings := [("/in", ["a.mp3"; "b.wav"; "c.ogg"])];
     unreadable := []; silent := []; unwritable := [];
     untranscribable := ["/in/b.wav"]; loader_error := None;
     transcription := hello; next_clip := 0 |}.

Definition base_transcriber : AudioTranscriber.Self :=
  {| AudioTranscriber.model_size := "base"; AudioTranscriber.model := None |}.

Definition start {Obj} (w : World) (o : Obj) : State World Obj :=
  mkState w [] o.

End Demo.

(** ** A desk for the examples: what the user answers in the dialogs *)

Module Desk.

(** The display works or not; the two dialogs are answered with
    [open_answer] and [save_answer]. *)
Definition toolkit (display : bool) (open_answer save_answer : string)
  : Toolkit Demo.World := {|
  Tk := fun w =>
    if display then (Return {| window_id := 0 |}, w)
    else (Raise (Exn "TclError" "no display name and no $DISPLAY environment variable" None), w);
  withdraw := fun w _ => (Return tt, w);
  attributes := fun w _ _ _ => (Return tt, w);
  destroy := fun w _ => (Return tt, w);
  askopenfilename := fun w _ _ _ => (Return open_answer, w);
  asksaveasfilename := fun w _ _ _ _ => (Return save_answer, w)
|}.

End Desk.

(** ** Proof helpers *)

Ltac monad_unfold :=
  unfold bind, ret, raise, raise_in_handler, try_except, reads, call, print,
    lift_outcome, get_this, set_this in *;
  cbn [world trace this fst snd] in *.

(** * Theorems *)

(** ** Strings *)

Lemma append_assoc (a b c : string) : ((a ++ b) ++ c = a ++ (b ++ c))%string.
Proof. induction a as [|x a IH]; simpl; [reflexivity | now rewrite IH]. Qed.

Lemma append_nil_r (a : string) : (a ++ "" = a)%string.
Proof. induction a as [|x a IH]; simpl; [reflexivity | now rewrite IH]. Qed.

Lemma rev_acc_app (s acc : string) :
  PyStr.rev_acc s acc = (PyStr.rev_acc s "" ++ acc)%string.
Proof.
  revert acc. induction s as [|c s IH]; intros acc; simpl.
  - reflexivity.
  - rewrite IH. rewrite (IH (String c "")).
    rewrite append_assoc. reflexivity.
Qed.

Lemma rev_cons (c : ascii) (s : string) :
  PyStr.rev (String c s) = (PyStr.rev s ++ String c "")%string.
Proof. unfold PyStr.rev. simpl. apply rev_acc_app. Qed.

Lemma rev_snoc (c : ascii) (s : string) :
  PyStr.rev (s ++ String c "") = String c (PyStr.rev s).
Proof.
  induction s as [|d s IH]; simpl.
  - reflexivity.
  - rewrite !rev_cons, IH. reflexivity.
Qed.

Lemma startswith_snoc (c : ascii) (p v : string) :
  PyStr.contains_char c p = false ->
  PyStr.startswith (v ++ String c "") p = true ->
  exists v', v = (p ++ v')%string.
Proof.
  revert v. induction p as [|a p IH]; intros v Hc Hp.
  - exists v. reflexivity.
  - cbn [PyStr.contains_char] in Hc. apply orb_false_iff in Hc as [Ha Hc].
    destruct v as [|b v]; cbn [PyStr.startswith append] in Hp.
    + apply andb_true_iff in Hp as [Hp _]. congruence.
    + apply andb_true_iff in Hp as [Hab Hp].
      apply Ascii.eqb_eq in Hab as ->.
      destruct (IH v Hc Hp) as [v' ->]. exists v'. reflexivity.
Qed.

Lemma drop_app (p v : string) : PyStr.drop (String.length p) (p ++ v) = v.
Proof. induction p; simpl; auto. Qed.

Lemma strip_one_snoc (c : ascii) (table : list string) (v u : string) :
  Forall (fun p => PyStr.contains_char c p = false) table ->
  PyStr.strip_one table (v ++ String c "") = Some u ->
  exists v', u = (v' ++ String c "")%string.
Proof.
  induction 1 as [|p table Hp _ IH]; cbn [PyStr.strip_one]; intros Hs.
  - discriminate.
  - destruct (PyStr.startswith (v ++ String c "") p) eqn:E.
    + destruct (startswith_snoc _ _ _ Hp E) as [v' ->].
      injection Hs as <-. rewrite append_assoc, drop_app.
      now exists v'.
    + auto.
Qed.

Lemma strip_many_snoc (c : ascii) (table : list string) (n : nat) (v : string) :
  Forall (fun p => PyStr.contains_char c p = false) table ->
  exists v', PyStr.strip_many table n (v ++ String c "") = (v' ++ String c "")%string.
Proof.
  intros Ht. revert v. induction n as [|n IH]; intros v; cbn [PyStr.strip_many].
  - now exists v.
  - destruct (PyStr.strip_one table (v ++ String c "")) as [u|] eqn:E.
    + destruct (strip_one_snoc _ _ _ _ Ht E) as [v' ->]. apply IH.
    + now exists v.
Qed.

Lemma whitespace_no_slash :
  Forall (fun p => PyStr.contains_char "/" p = false)
    (map PyStr.rev PyStr.whitespace).
Proof. repeat constructor. Qed.

Lemma lstrip_slash (r : string) :
  PyStr.lstrip (String "/" r) = String "/" r.
Proof. reflexivity. Qed.

Lemma isabs_inv (p : string) :
  PosixPath.isabs p = true -> exists r, p = String "/" r.
Proof.
  unfold PosixPath.isabs. destruct p as [|c r]; cbn [PyStr.startswith].
  - discriminate.
  - rewrite andb_true_r. intros Hc. apply Ascii.eqb_eq in Hc as <-.
    now exists r.
Qed.

Lemma isabs_strip (token : string) :
  PosixPath.isabs token = true -> PosixPath.isabs (PyStr.strip token) = true.
Proof.
  intros Habs. destruct (isabs_inv _ Habs) as [r ->].
  unfold PyStr.strip. rewrite lstrip_slash. unfold PyStr.rstrip.
  rewrite rev_cons.
  destruct (strip_many_snoc "/" (map PyStr.rev PyStr.whitespace)
              (String.length (String "/" r)) (PyStr.rev r)
              whitespace_no_slash) as [v' ->].
  rewrite rev_snoc. reflexivity.
Qed.

(** ** Path resolution *)


Section PathResolver.
Context {W : Type} `{Platform W}.

Lemma resolve_path_absolute (w : W) (token : string) :
  PosixPath.isabs (PyStr.strip token) = true ->
  PathUtils.resolve_path w token = Return (PyStr.strip token).
Proof. intros Habs. unfold PathUtils.resolve_path. now rewrite Habs. Qed.

(** C8, as amended: an absolute token comes back with its leading and
    trailing whitespace stripped, so unchanged when it has none. No file
    is looked for, so nothing can fail. *)
Theorem C8_absolute_token_is_stripped (w : W) (token : string) :
  PosixPath.isabs token = true ->
  PathUtils.resolve_path w token = Return (PyStr.strip token)
  /\ (PyStr.strip token = token ->
      PathUtils.resolve_path w token = Return token).
Proof.
  intros Habs. apply isabs_strip in Habs.
  rewrite (resolve_path_absolute w token Habs). split; [reflexivity|].
  now intros ->.
Qed.

(** What the probe of a path gives: the path when it is there, nothing
    when it is missing, the error of [exists] otherwise. *)
Lemma shortcut_token (w : W) (shortcut sep rest : string) (folder : PurePath) :
  In (shortcut, folder) (PathUtils.get_common_folders w) ->
  separator sep ->
  let p := (shortcut ++ sep ++ rest)%string in
  PosixPath.isabs p = false
  /\ PathUtils.is_bare_filename p = false
  /\ PathUtils.shortcut_loop w p (PathUtils.get_common_folders w) =
     match path_exists w (folder // rest) with
     | Raise e => Raise e
     | Return true => Return (Some (PosixPath.str (folder // rest)))
     | Return false => Return None
     end.
Proof.
  intros Hin Hsep p. subst p.
  unfold PathUtils.get_common_folders in *.
  cbn [In] in Hin.
  destruct Hsep as [-> | ->];
    repeat (destruct Hin as [Hin | Hin];
            [ injection Hin as <- <-;
              split; [reflexivity | split ];
              [ first [ reflexivity
                      | apply andb_false_iff; right; reflexivity ]
              | cbn;
                match goal with
                | |- context [path_exists w ?q] =>
                    destruct (path_exists w q) as [[|]|e]; reflexivity
                end ]
            | ]);
    destruct Hin.
Qed.

(** C1, as amended: the token is stripped first; with a shortcut prefix
    the joined path is returned when it exists; when [exists] fails on it
    with an error other than a missing file, that error is raised;
    otherwise the bare-filename probe does not apply (the token holds a
    separator) and the result is the absolute form of the stripped token
    when it exists relative to the current directory, the stripped token
    itself when it does not, and the error of that last probe when it
    fails. *)
Theorem C1_shortcut_resolution (w : W) (token shortcut sep rest : string)
    (folder : PurePath) :
  In (shortcut, folder) (PathUtils.get_common_folders w) ->
  separator sep ->
  PyStr.strip token = (shortcut ++ sep ++ rest)%string ->
  let joined := folder // rest in
  (path_exists w joined = Return true ->
     PathUtils.resolve_path w token = Return (PosixPath.str joined))
  /\ (forall e, path_exists w joined = Raise e ->
        PathUtils.resolve_path w token = Raise e)
  /\ (path_exists w joined = Return false ->
        PathUtils.is_bare_filename (PyStr.strip token) = false
        /\ PathUtils.resolve_path w token =
           PathUtils.resolve_relative w (PyStr.strip token)
        /\ (path_exists w (PosixPath.Path (PyStr.strip token)) = Return true ->
              PathUtils.resolve_path w token =
              Return
                (PosixPath.str
                   (path_absolute w (PosixPath.Path (PyStr.strip token)))))
        /\ (path_exists w (PosixPath.Path (PyStr.strip token)) = Return false ->
              PathUtils.resolve_path w token = Return (PyStr.strip token))
        /\ (forall e,
              path_exists w (PosixPath.Path (PyStr.strip token)) = Raise e ->
              PathUtils.resolve_path w token = Raise e)).
Proof.
  intros Hin Hsep Hstrip joined.
  destruct (shortcut_token w shortcut sep rest folder Hin Hsep)
    as (Habs & Hbare & Hloop).
  unfold PathUtils.resolve_path. rewrite Hstrip, Habs, Hloop, Hbare.
  fold joined. split; [|split].
  - now intros ->.
  - now intros e ->.
  - intros ->. split; [reflexivity|]. split; [reflexivity|].
    unfold PathUtils.resolve_relative.
    split; [|split]; [intros -> | intros -> | intros e ->]; reflexivity.
Qed.

End PathResolver.

(** C1, as stated, fails: a trailing blank is stripped, so the token that
    comes back is not the original one. *)
Lemma C1_counterexample :
  let token := "desktop/y.mp4 " in
  let folder := PosixPath.Path (home Demo.w0) // "Desktop" in
  In ("desktop", folder) (PathUtils.get_common_folders Demo.w0)
  /\ token = ("desktop" ++ "/" ++ "y.mp4 ")%string
  /\ path_exists Demo.w0 (folder // "y.mp4 ") = Return false
  /\ PathUtils.filename_loop Demo.w0 token
       (map snd (PathUtils.get_common_folders Demo.w0)) = Return None
  /\ path_exists Demo.w0 (PosixPath.Path token) = Return false
  /\ PathUtils.resolve_path Demo.w0 token = Return "desktop/y.mp4"
  /\ PathUtils.resolve_path Demo.w0 token <> Return token.
Proof. cbv zeta. repeat split; try (left; reflexivity); discriminate. Qed.

Lemma C1_shortcut_resolution_witness :
  PathUtils.resolve_path Demo.w0 " desktop\x.mp4 "
  = Return "/home/u/Desktop/x.mp4".
Proof.
  refine (proj1 (C1_shortcut_resolution Demo.w0 " desktop\x.mp4 " "desktop" "\"
                   "x.mp4" (PosixPath.Path (home Demo.w0) // "Desktop")
                   _ _ _) _).
  - left. reflexivity.
  - right. reflexivity.
  - reflexivity.
  - reflexivity.
Defined.

(** A name of 300 bytes after the shortcut: [exists] fails with
    [ENAMETOOLONG], and so does the resolution. *)
Lemma resolve_path_name_too_long :
  let long := PyStr.repeat "a" 300 in
  PathUtils.resolve_path Demo.w0 ("desktop/" ++ long)
  = Raise (Demo.name_too_long ("/home/u/Desktop/" ++ long))
  /\ PathUtils.resolve_path Demo.w0 long
     = Raise (Demo.name_too_long ("/home/u/Desktop/" ++ long)).
Proof. vm_compute. split; reflexivity. Qed.

(** C8, as stated, fails: an absolute token that ends in a blank comes back
    without it. *)
Lemma C8_counterexample :
  PosixPath.isabs "/a " = true
  /\ PathUtils.resolve_path Demo.w0 "/a " = Return "/a"
  /\ PathUtils.resolve_path Demo.w0 "/a " <> Return "/a ".
Proof. repeat split. discriminate. Qed.

Lemma C8_absolute_token_is_stripped_witness :
  PathUtils.resolve_path Demo.w0 "/a " = Return (PyStr.strip "/a ")
  /\ (PyStr.strip "/a " = "/a " ->
      PathUtils.resolve_path Demo.w0 "/a " = Return "/a ").
Proof. apply (C8_absolute_token_is_stripped Demo.w0 "/a "). reflexivity. Defined.

(** ** Paths *)

Lemma contains_char_app (c : ascii) (a b : string) :
  PyStr.contains_char c (a ++ b)
  = PyStr.contains_char c a || PyStr.contains_char c b.
Proof.
  induction a as [|x a IH]; cbn [append PyStr.contains_char].
  - reflexivity.
  - rewrite IH. now rewrite orb_assoc.
Qed.

Lemma split_free (sep : ascii) (x : string) :
  PyStr.contains_char sep x = false -> PyStr.split sep x = [x].
Proof.
  induction x as [|c x IH]; cbn [PyStr.contains_char PyStr.split].
  - reflexivity.
  - intros Hc. apply orb_false_iff in Hc as [Hc Hx].
    rewrite Hc, (IH Hx). reflexivity.
Qed.

Lemma split_app_sep (sep : ascii) (x rest : string) :
  PyStr.contains_char sep x = false ->
  PyStr.split sep (x ++ String sep rest) = x :: PyStr.split sep rest.
Proof.
  induction x as [|c x IH]; cbn [PyStr.contains_char PyStr.split append].
  - intros _. now rewrite Ascii.eqb_refl.
  - intros Hc. apply orb_false_iff in Hc as [Hc Hx].
    rewrite Hc, (IH Hx). reflexivity.
Qed.

Lemma split_pieces_free (sep : ascii) (s : string) :
  Forall (fun x => PyStr.contains_char sep x = false) (PyStr.split sep s).
Proof.
  induction s as [|c s IH]; cbn [PyStr.split].
  - repeat constructor.
  - destruct (Ascii.eqb c sep) eqn:Hc.
    + constructor; [reflexivity | exact IH].
    + destruct (PyStr.split sep s) as [|h t].
      * repeat constructor. cbn. now rewrite Hc.
      * inversion IH; subst. constructor; [|assumption].
        cbn. now rewrite Hc.
Qed.

Lemma join_cons (sep x : string) (l : list string) :
  l <> [] -> PyStr.join sep (x :: l) = (x ++ sep ++ PyStr.join sep l)%string.
Proof. destruct l; [congruence | reflexivity]. Qed.

Lemma split_join (l : list string) :
  Forall (fun x => PyStr.contains_char "/" x = false) l ->
  l <> [] ->
  PyStr.split "/" (PyStr.join "/" l) = l.
Proof.
  induction 1 as [|x l Hx Hl IH]; [congruence|]. intros _.
  destruct l as [|y l].
  - cbn [PyStr.join]. now apply split_free.
  - rewrite join_cons by discriminate.
    change ("/" ++ PyStr.join "/" (y :: l))%string
      with (String "/" (PyStr.join "/" (y :: l))).
    rewrite (split_app_sep "/" x _ Hx). rewrite IH by discriminate.
    reflexivity.
Qed.

Lemma join_snoc (l : list string) (x : string) :
  l <> [] ->
  PyStr.join "/" (l ++ [x]) = (PyStr.join "/" l ++ "/" ++ x)%string.
Proof.
  induction l as [|y l IH]; [congruence|]. intros _.
  destruct l as [|z l].
  - reflexivity.
  - change ((y :: z :: l) ++ [x]) with (y :: ((z :: l) ++ [x])).
    rewrite join_cons by (cbn; discriminate).
    rewrite IH by discriminate.
    rewrite (join_cons "/" y (z :: l)) by discriminate.
    now rewrite !append_assoc.
Qed.

Lemma component_filter (l : list string) :
  Forall component l -> filter PosixPath.is_component l = l.
Proof.
  induction 1 as [|x l (Hne & Hnd & _) _ IH]; [reflexivity|].
  cbn [filter]. unfold PosixPath.is_component.
  apply String.eqb_neq in Hne, Hnd. rewrite Hne, Hnd. cbn [negb andb].
  f_equal. exact IH.
Qed.

Lemma component_free (l : list string) :
  Forall component l ->
  Forall (fun x => PyStr.contains_char "/" x = false) l.
Proof. apply Forall_impl. now intros x (_ & _ & Hx). Qed.

(** A non-empty list of components joins to a string that starts with a
    character other than a slash. *)
Lemma join_head (l : list string) :
  Forall component l -> l <> [] ->
  exists c r, PyStr.join "/" l = String c r /\ Ascii.eqb "/" c = false.
Proof.
  intros Hl Hne. destruct l as [|x l]; [congruence|].
  inversion Hl as [|? ? (Hx & _ & Hfree) _]; subst.
  destruct x as [|c x]; [congruence|].
  cbn [PyStr.contains_char] in Hfree. apply orb_false_iff in Hfree as [Hc _].
  rewrite Ascii.eqb_sym in Hc.
  exists c. destruct l as [|y l].
  - exists x. now split.
  - eexists. rewrite join_cons by discriminate. split; [reflexivity|assumption].
Qed.

Lemma splitroot_relative (c : ascii) (r : string) :
  Ascii.eqb "/" c = false ->
  PosixPath.splitroot (String c r) = ("", String c r)
  /\ PosixPath.splitroot (String "/" (String c r)) = ("/", String c r)
  /\ PosixPath.splitroot (String "/" (String "/" (String c r)))
     = ("//", String c r).
Proof.
  intros Hc. unfold PosixPath.splitroot.
  cbn [PyStr.startswith PyStr.drop]. rewrite Hc.
  repeat split; reflexivity.
Qed.

(** [Path] undoes [str] on a normal path. *)
Lemma Path_str (p : PurePath) : normal p -> PosixPath.Path (PosixPath.str p) = p.
Proof.
  destruct p as [rt tl]. intros [Hroot Htail].
  cbn [PosixPath.root PosixPath.tail] in *.
  unfold PosixPath.str. cbn [PosixPath.root PosixPath.tail].
  destruct tl as [|x tl].
  - destruct Hroot as [-> | [-> | ->]]; reflexivity.
  - destruct (join_head (x :: tl) Htail ltac:(discriminate))
      as (c & r & Hj & Hc).
    assert (Hsplit : filter PosixPath.is_component
                       (PyStr.split "/" (PyStr.join "/" (x :: tl))) = x :: tl).
    { rewrite split_join by (auto using component_free; discriminate).
      now apply component_filter. }
    destruct (splitroot_relative c r Hc) as (S0 & S1 & S2).
    rewrite <- Hj in S0, S1, S2.
    unfold PosixPath.Path.
    destruct Hroot as [-> | [-> | ->]]; cbn [String.eqb append].
    + rewrite S0, Hsplit. reflexivity.
    + rewrite S1, Hsplit. reflexivity.
    + rewrite S2, Hsplit. reflexivity.
Qed.

Lemma Path_normal (s : string) : normal (PosixPath.Path s).
Proof.
  unfold PosixPath.Path, normal.
  destruct (PosixPath.splitroot s) as [rt rel] eqn:Hs.
  cbn [PosixPath.root PosixPath.tail]. split.
  - unfold PosixPath.splitroot in Hs.
    destruct (negb (PyStr.startswith s "/")); [injection Hs as <- _; auto|].
    destruct (negb (PyStr.startswith (PyStr.drop 1 s) "/")
              || PyStr.startswith (PyStr.drop 2 s) "/");
      injection Hs as <- _; auto.
  - apply Forall_forall. intros x Hx. apply filter_In in Hx as [Hin Hc].
    unfold PosixPath.is_component in Hc.
    apply andb_true_iff in Hc as [H1 H2].
    apply negb_true_iff in H1, H2. apply String.eqb_neq in H1, H2.
    repeat split; try assumption.
    pose proof (split_pieces_free "/" rel) as Hfree.
    rewrite Forall_forall in Hfree. now apply Hfree.
Qed.

Lemma string_snoc (x : string) :
  x <> "" -> exists b c, x = (b ++ String c "")%string.
Proof.
  induction x as [|d x IH]; [congruence|]. intros _.
  destruct x as [|e x].
  - now exists "", d.
  - destruct IH as (b & c & Hx); [discriminate|].
    exists (String d b), c. cbn [append]. now rewrite <- Hx.
Qed.

(** A non-empty list of components joins to a string that ends with a
    character other than a slash. *)
Lemma join_last (l : list string) :
  Forall component l -> l <> [] ->
  exists b c, PyStr.join "/" l = (b ++ String c "")%string
              /\ Ascii.eqb "/" c = false.
Proof.
  induction 1 as [|x l (Hx & _ & Hfree) Hl IH]; [congruence|]. intros _.
  destruct l as [|y l].
  - destruct (string_snoc x Hx) as (b & c & ->).
    exists b, c. split; [reflexivity|].
    rewrite contains_char_app in Hfree.
    apply orb_false_iff in Hfree as [_ Hc]. cbn in Hc.
    rewrite orb_false_r in Hc. now rewrite Ascii.eqb_sym.
  - destruct IH as (b & c & Hj & Hc); [discriminate|].
    exists (x ++ "/" ++ b)%string, c. split; [|assumption].
    rewrite join_cons by discriminate. rewrite Hj.
    now rewrite !append_assoc.
Qed.

Lemma endswith_snoc (b : string) (c : ascii) :
  PyStr.endswith (b ++ String c "") "/" = Ascii.eqb "/" c.
Proof.
  unfold PyStr.endswith. rewrite rev_snoc. cbn [PyStr.rev PyStr.rev_acc].
  cbn [PyStr.startswith]. now rewrite andb_true_r.
Qed.

Lemma component_not_rooted (x : string) :
  component x -> PyStr.startswith x "/" = false.
Proof.
  intros (Hx & _ & Hfree). destruct x as [|c x]; [congruence|].
  cbn [PyStr.contains_char] in Hfree. apply orb_false_iff in Hfree as [Hc _].
  cbn [PyStr.startswith]. now rewrite Ascii.eqb_sym, Hc.
Qed.

Lemma snoc_nonempty (b : string) (c : ascii) :
  String.eqb (b ++ String c "") "" = false.
Proof. destruct b; reflexivity. Qed.

Lemma join_after_name (a b nm : string) (c : ascii) :
  a = (b ++ String c "")%string ->
  Ascii.eqb "/" c = false ->
  PyStr.startswith nm "/" = false ->
  PosixPath.join a nm = (a ++ "/" ++ nm)%string.
Proof.
  intros -> Hc Hnm. unfold PosixPath.join.
  now rewrite Hnm, snoc_nonempty, endswith_snoc, Hc.
Qed.

(** Joining a component to a normal path appends it. *)
Lemma joinpath_component (q : PurePath) (nm : string) :
  normal q -> component nm ->
  q // nm = PosixPath.mkPath (PosixPath.root q) (PosixPath.tail q ++ [nm]).
Proof.
  intros Hq Hnm. pose proof Hq as [Hroot Htail].
  assert (Hq' : normal (PosixPath.mkPath (PosixPath.root q)
                          (PosixPath.tail q ++ [nm]))).
  { split; [exact Hroot|]. apply Forall_app. split; [exact Htail|].
    now constructor. }
  pose proof (component_not_rooted nm Hnm) as Hrooted.
  unfold PosixPath.joinpath.
  destruct q as [rt tl]. cbn [PosixPath.root PosixPath.tail] in *.
  destruct tl as [|x tl].
  - destruct Hroot as [-> | [-> | ->]].
    + unfold PosixPath.join. rewrite Hrooted.
      unfold PosixPath.str. cbn [PosixPath.root PosixPath.tail String.eqb].
      change (PyStr.endswith "." "/") with false.
      cbn [String.eqb Ascii.eqb Bool.eqb orb app append].
      unfold PosixPath.Path.
      change (PosixPath.splitroot (String "." (String "/" nm)))
        with ("", String "." (String "/" nm)).
      cbv beta iota.
      change (String "." (String "/" nm)) with ("." ++ String "/" nm)%string.
      rewrite (split_app_sep "/" "." nm eq_refl).
      destruct Hnm as (H1 & H2 & H3).
      rewrite (split_free "/" nm H3).
      apply String.eqb_neq in H1, H2.
      cbn [filter]. change (PosixPath.is_component ".") with false.
      unfold PosixPath.is_component. rewrite H1, H2. reflexivity.
    + unfold PosixPath.join. rewrite Hrooted.
      rewrite <- (Path_str _ Hq'). reflexivity.
    + unfold PosixPath.join. rewrite Hrooted.
      rewrite <- (Path_str _ Hq'). reflexivity.
  - destruct (join_last (x :: tl) Htail ltac:(discriminate))
      as (b & c & Hj & Hc).
    rewrite <- (Path_str _ Hq') at 1. f_equal.
    unfold PosixPath.str. cbn [PosixPath.root PosixPath.tail].
    rewrite (join_snoc (x :: tl) nm) by discriminate.
    destruct Hroot as [-> | [-> | ->]]; cbn [String.eqb].
    + rewrite (join_after_name _ b nm c Hj Hc Hrooted).
      destruct tl; reflexivity.
    + rewrite (join_after_name ("/" ++ PyStr.join "/" (x :: tl))
                 (String "/" b) nm c); try assumption.
      * now rewrite append_assoc.
      * now rewrite Hj.
    + rewrite (join_after_name ("//" ++ PyStr.join "/" (x :: tl))
                 (String "/" (String "/" b)) nm c); try assumption.
      * now rewrite append_assoc.
      * now rewrite Hj.
Qed.

Lemma tail_decompose (p : PurePath) :
  PosixPath.tail p <> [] ->
  PosixPath.tail p = removelast (PosixPath.tail p) ++ [PosixPath.name p].
Proof. intros Hne. unfold PosixPath.name. now apply app_removelast_last. Qed.

Lemma name_component (p : PurePath) :
  normal p -> PosixPath.tail p <> [] -> component (PosixPath.name p).
Proof.
  intros [_ Htail] Hne. rewrite (tail_decompose p Hne) in Htail.
  apply Forall_app in Htail as [_ Hlast]. now inversion Hlast.
Qed.

Lemma take_free (c : ascii) (n : nat) (x : string) :
  PyStr.contains_char c x = false ->
  PyStr.contains_char c (PyStr.take n x) = false.
Proof.
  revert x. induction n as [|n IH]; intros x Hx; [reflexivity|].
  destruct x as [|d x]; [reflexivity|].
  cbn [PyStr.contains_char PyStr.take] in *.
  apply orb_false_iff in Hx as [-> Hx]. now rewrite IH.
Qed.

Lemma stem_component (p : PurePath) :
  normal p -> PosixPath.tail p <> [] ->
  PosixPath.stem p <> "" /\ PyStr.contains_char "/" (PosixPath.stem p) = false.
Proof.
  intros Hp Hne. destruct (name_component p Hp Hne) as (Hnm & _ & Hfree).
  unfold PosixPath.stem, PosixPath.suffix_index.
  destruct (PyStr.rfind "." (PosixPath.name p)) as [i|]; [|now split].
  destruct ((0 <? i)%nat && (i <? String.length (PosixPath.name p) - 1)%nat)
    eqn:Hi; [|now split].
  apply andb_true_iff in Hi as [Hi _]. apply Nat.ltb_lt in Hi.
  split; [|now apply take_free].
  destruct i as [|i]; [lia|].
  destruct (PosixPath.name p); [congruence | discriminate].
Qed.

Lemma replaced_name_component (st fmt : string) :
  st <> "" ->
  PyStr.contains_char "/" st = false ->
  PyStr.contains_char "/" fmt = false ->
  component (st ++ "." ++ fmt)%string.
Proof.
  intros Hst Hfree Hfmt. repeat split.
  - destruct st; [congruence | discriminate].
  - destruct st as [|c st]; [congruence|].
    destruct st; cbn; intros Heq; discriminate Heq.
  - rewrite !contains_char_app, Hfree, Hfmt. reflexivity.
Qed.

Lemma rfind_none (c : ascii) (x : string) :
  PyStr.contains_char c x = false -> PyStr.rfind c x = None.
Proof.
  induction x as [|d x IH]; [reflexivity|].
  cbn [PyStr.contains_char PyStr.rfind]. intros Hx.
  apply orb_false_iff in Hx as [Hd Hx]. now rewrite (IH Hx), Hd.
Qed.

Lemma rfind_app (c : ascii) (a b : string) :
  PyStr.contains_char c b = false ->
  PyStr.rfind c (a ++ String c b) = Some (String.length a).
Proof.
  intros Hb. induction a as [|d a IH]; cbn [append PyStr.rfind String.length].
  - now rewrite (rfind_none c b Hb), Ascii.eqb_refl.
  - now rewrite IH.
Qed.

Lemma take_app (a b : string) : PyStr.take (String.length a) (a ++ b) = a.
Proof. induction a as [|c a IH]; cbn; [now destruct b | now rewrite IH]. Qed.

Lemma length_append (a b : string) :
  String.length (a ++ b) = String.length a + String.length b.
Proof. induction a as [|c a IH]; cbn; [reflexivity | now rewrite IH]. Qed.

Lemma suffix_index_replaced (st fmt : string) :
  st <> "" -> fmt <> "" ->
  PyStr.contains_char "." fmt = false ->
  PosixPath.suffix_index (st ++ "." ++ fmt)%string = Some (String.length st).
Proof.
  intros Hst Hfmt Hdot. unfold PosixPath.suffix_index.
  change (st ++ "." ++ fmt)%string with (st ++ String "." fmt)%string.
  rewrite (rfind_app "." st fmt Hdot).
  rewrite length_append. cbn [String.length].
  assert (0 < String.length st) by (destruct st; [congruence | cbn; lia]).
  assert (0 < String.length fmt) by (destruct fmt; [congruence | cbn; lia]).
  assert (H1 : (0 <? String.length st)%nat = true) by (apply Nat.ltb_lt; lia).
  assert (H2 : (String.length st
                <? String.length st + S (String.length fmt) - 1)%nat = true)
    by (apply Nat.ltb_lt; lia).
  now rewrite H1, H2.
Qed.

Lemma parent_snoc (rt : string) (l : list string) (x : string) :
  PosixPath.parent (PosixPath.mkPath rt (l ++ [x])) = PosixPath.mkPath rt l.
Proof.
  unfold PosixPath.parent. cbn [PosixPath.root PosixPath.tail].
  destruct (l ++ [x]) eqn:E.
  - now apply app_eq_nil in E as [_ E].
  - rewrite <- E. now rewrite removelast_last.
Qed.

(** Where the derived path lies: same root and directories as the input,
    and the input's stem, a dot and the format as its last component. *)
Lemma derived_audio_path_structure (r fmt : string) :
  PosixPath.tail (PosixPath.Path r) <> [] ->
  PyStr.contains_char "/" fmt = false ->
  let video_file := PosixPath.Path r in
  let derived :=
    PosixPath.mkPath (PosixPath.root video_file)
      (removelast (PosixPath.tail video_file)
       ++ [(PosixPath.stem video_file ++ "." ++ fmt)%string]) in
  VideoConverter.derived_audio_path r fmt = PosixPath.str derived
  /\ PosixPath.Path (VideoConverter.derived_audio_path r fmt) = derived
  /\ PosixPath.parent derived = PosixPath.parent video_file
  /\ PosixPath.name derived = (PosixPath.stem video_file ++ "." ++ fmt)%string
  /\ (fmt <> "" -> PyStr.contains_char "." fmt = false ->
      PosixPath.stem derived = PosixPath.stem video_file
      /\ PosixPath.suffix derived = ("." ++ fmt)%string).
Proof.
  intros Hne Hfmt video_file derived.
  pose proof (Path_normal r) as Hv. fold video_file in Hv, Hne.
  destruct (stem_component video_file Hv Hne) as [Hst Hfree].
  pose proof (replaced_name_component _ _ Hst Hfree Hfmt) as Hnm.
  assert (Hparent : PosixPath.parent video_file
                    = PosixPath.mkPath (PosixPath.root video_file)
                        (removelast (PosixPath.tail video_file))).
  { unfold PosixPath.parent. destruct (PosixPath.tail video_file);
      [congruence | reflexivity]. }
  assert (Hpn : normal (PosixPath.parent video_file)).
  { rewrite Hparent. destruct Hv as [Hroot Htail]. split; [exact Hroot|].
    cbn [PosixPath.tail]. rewrite (tail_decompose video_file Hne) in Htail.
    now apply Forall_app in Htail as [Htail _]. }
  assert (Hd : VideoConverter.derived_audio_path r fmt = PosixPath.str derived).
  { unfold VideoConverter.derived_audio_path. cbv zeta. fold video_file.
    rewrite (joinpath_component _ _ Hpn Hnm). now rewrite Hparent. }
  assert (Hdn : normal derived).
  { destruct Hpn as [Hroot Htail]. rewrite Hparent in Hroot, Htail.
    split; [exact Hroot|]. apply Forall_app. split; [exact Htail|].
    now constructor. }
  assert (Hname : PosixPath.name derived
                  = (PosixPath.stem video_file ++ "." ++ fmt)%string).
  { unfold PosixPath.name, derived. cbn [PosixPath.tail]. apply last_last. }
  split; [exact Hd|]. split; [rewrite Hd; now apply Path_str|].
  split; [|split].
  - unfold derived. rewrite parent_snoc. now rewrite Hparent.
  - exact Hname.
  - intros Hf Hdot. unfold PosixPath.stem at 1, PosixPath.suffix.
    rewrite Hname, (suffix_index_replaced _ _ Hst Hf Hdot).
    split; [apply take_app | apply drop_app].
Qed.

Lemma derived_audio_path_example :
  VideoConverter.derived_audio_path "clip.mp4" "mp3" = "clip.mp3"
  /\ VideoConverter.derived_audio_path "/home/u/Videos/clip.mp4" "mp3"
     = "/home/u/Videos/clip.mp3"
  /\ VideoConverter.derived_audio_path "/home/u/Videos/archive.tar.gz" "wav"
     = "/home/u/Videos/archive.tar.wav".
Proof. repeat split. Qed.

(** ** Audio extraction *)

Section Extraction.
Context {W Obj : Type} `{Platform W}.

(** Every way the [try] block can go, with the calls it makes. *)
Lemma extract_audio_body_cases (r a : string) (s : State W Obj) :
  VideoConverter.extract_audio_body r a s =
  let t0 := trace s ++ [EvPrint ("Loading video: " ++ r); EvVideoFileClip r] in
  match VideoFileClip (world s) r with
  | (Raise e, w1) => (Raise e, mkState w1 t0 (this s))
  | (Return video, w1) =>
      let t1 := t0 ++ [EvPrint ("Extracting audio to: " ++ a)] in
      if clip_has_audio video then
        match write_audiofile w1 video a with
        | (Raise e, w2) =>
            (Raise e, mkState w2 (t1 ++ [EvWriteAudiofile video a]) (this s))
        | (Return _, w2) =>
            match clip_close w2 video with
            | (Raise e, w3) =>
                (Raise e,
                 mkState w3 (t1 ++ [EvWriteAudiofile video a; EvClose video])
                   (this s))
            | (Return _, w3) =>
                (Return a,
                 mkState w3
                   (t1 ++ [EvWriteAudiofile video a; EvClose video;
                           EvPrint "Audio extraction completed successfully!"])
                   (this s))
            end
        end
      else
        (Raise (Exn "AttributeError"
                  "'NoneType' object has no attribute 'write_audiofile'" None),
         mkState w1 t1 (this s))
  end.
Proof.
  unfold VideoConverter.extract_audio_body, VideoConverter.audio_write_audiofile.
  monad_unfold.
  destruct (VideoFileClip (world s) r) as [[video|e] w1]; cbn.
  - destruct (clip_has_audio video); monad_unfold.
    + destruct (write_audiofile w1 video a) as [[[]|e] w2]; cbn.
      * destruct (clip_close w2 video) as [[[]|e] w3]; cbn;
          repeat rewrite <- app_assoc; reflexivity.
      * repeat rewrite <- app_assoc; reflexivity.
    + repeat rewrite <- app_assoc; reflexivity.
  - repeat rewrite <- app_assoc; reflexivity.
Qed.



(** The input is there, the output cannot be resolved: the error of the
    probe comes out as it is, before the video is opened. *)
Lemma extract_audio_unresolved_output (v : string) (a : option string)
    (fmt : string) (s : State W Obj) (r : string) (e : exn) :
  PathUtils.resolve_path (world s) v = Return r ->
  os_path_exists (world s) r = true ->
  target_path (world s) r a fmt = Raise e ->
  VideoConverter.extract_audio v a fmt s = (Raise e, s).
Proof.
  intros Hres Hex Htarget. unfold VideoConverter.extract_audio, tries.
  monad_unfold. rewrite Hres, Hex. cbn [negb].
  destruct a as [a|]; [|discriminate]. cbn [target_path] in Htarget.
  monad_unfold. now rewrite Htarget.
Qed.

Lemma extract_audio_found (v : string) (a : option string) (fmt : string)
    (s : State W Obj) (r target : string) :
  PathUtils.resolve_path (world s) v = Return r ->
  os_path_exists (world s) r = true ->
  target_path (world s) r a fmt = Return target ->
  VideoConverter.extract_audio v a fmt s =
  match VideoConverter.extract_audio_body r target s with
  | (Return out, s1) => (Return out, s1)
  | (Raise e0, s1) => (Raise (extraction_error e0), s1)
  end.
Proof.
  intros Hres Hex Htarget. unfold VideoConverter.extract_audio, tries.
  monad_unfold. rewrite Hres, Hex. cbn [negb].
  destruct a as [a|]; cbn [target_path] in Htarget; monad_unfold.
  - now rewrite Htarget.
  - now injection Htarget as <-.
Qed.

Lemma count_app (f : event -> bool) (a b : list event) :
  count f (a ++ b) = count f a + count f b.
Proof. unfold count. now rewrite filter_app, length_app. Qed.

Lemma released_app (c : Clip) (a b : list event) :
  released c (a ++ b) = released c a || released c b.
Proof. unfold released. apply existsb_app. Qed.

(** C9, as amended: when the [try] block raises [e0], [extract_audio]
    raises one new [Exception] whose message is the fixed prefix followed
    by [str(e0)] and whose context is [e0]; it adds no path of its own;
    the clip was opened once and written at most once. *)
Theorem C9_extraction_failure_wrapped_once (v : string) (a : option string)
    (fmt : string) (s s1 : State W Obj) (e0 : exn) (r target : string) :
  PathUtils.resolve_path (world s) v = Return r ->
  os_path_exists (world s) r = true ->
  target_path (world s) r a fmt = Return target ->
  VideoConverter.extract_audio_body r target s = (Raise e0, s1) ->
  VideoConverter.extract_audio v a fmt s = (Raise (extraction_error e0), s1)
  /\ exn_class (extraction_error e0) = "Exception"
  /\ exn_str (extraction_error e0)
     = ("Error during audio extraction: " ++ exn_str e0)%string
  /\ exn_context (extraction_error e0) = Some e0
  /\ count is_clip_open (trace s1) = count is_clip_open (trace s) + 1
  /\ count is_audio_write (trace s1) <= count is_audio_write (trace s) + 1.
Proof.
  intros Hres Hex Htarget Hbody.
  split; [rewrite (extract_audio_found v a fmt s r target Hres Hex Htarget);
          now rewrite Hbody|].
  repeat (split; [reflexivity|]).
  rewrite extract_audio_body_cases in Hbody. cbv zeta in Hbody.
  destruct (VideoFileClip (world s) _) as [[video|e] w1].
  - destruct (clip_has_audio video).
    + destruct (write_audiofile w1 video _) as [[[]|e] w2].
      * destruct (clip_close w2 video) as [[[]|e] w3];
          [discriminate|].
        injection Hbody as <- <-. cbn [trace].
        rewrite !count_app. cbn. lia.
      * injection Hbody as <- <-. cbn [trace].
        rewrite !count_app. cbn. lia.
    + injection Hbody as <- <-. cbn [trace].
      rewrite !count_app. cbn. lia.
  - injection Hbody as <- <-. cbn [trace].
    rewrite !count_app. cbn. lia.
Qed.

Lemma clip_eqb_refl (c : Clip) : clip_eqb c c = true.
Proof. unfold clip_eqb. now rewrite Nat.eqb_refl, Bool.eqb_reflx. Qed.

(** When [extract_audio] returns, the clip it opened has been closed. *)
Lemma extract_audio_closes_on_return (v : string) (a : option string)
    (fmt out : string) (s s1 : State W Obj) (video : Clip) (w1 : W)
    (r : string) :
  PathUtils.resolve_path (world s) v = Return r ->
  os_path_exists (world s) r = true ->
  VideoFileClip (world s) r = (Return video, w1) ->
  VideoConverter.extract_audio v a fmt s = (Return out, s1) ->
  released video (trace s1) = true.
Proof.
  intros Hres Hex Hopen.
  destruct (target_path (world s) r a fmt) as [target|e] eqn:Htarget;
    [|now rewrite (extract_audio_unresolved_output v a fmt s r e Hres Hex
                     Htarget)].
  rewrite (extract_audio_found v a fmt s r target Hres Hex Htarget).
  rewrite extract_audio_body_cases. cbv zeta. rewrite Hopen.
  destruct (clip_has_audio video); [|discriminate].
  destruct (write_audiofile w1 video _) as [[[]|e] w2]; [|discriminate].
  destruct (clip_close w2 video) as [[[]|e] w3]; [|discriminate].
  intros Heq. injection Heq as _ <-. cbn [trace].
  rewrite !released_app. cbn. rewrite clip_eqb_refl.
  now rewrite !orb_true_r.
Qed.

(** When the audio write raises, [extract_audio] raises without having
    closed the clip. *)
Lemma extract_audio_leaks_on_write_failure (v : string) (a : option string)
    (fmt : string) (s : State W Obj) (video : Clip) (w1 w2 : W) (e : exn)
    (r target : string) :
  PathUtils.resolve_path (world s) v = Return r ->
  os_path_exists (world s) r = true ->
  target_path (world s) r a fmt = Return target ->
  VideoFileClip (world s) r = (Return video, w1) ->
  clip_has_audio video = true ->
  write_audiofile w1 video target = (Raise e, w2) ->
  released video (trace s) = false ->
  exists s1,
    VideoConverter.extract_audio v a fmt s = (Raise (extraction_error e), s1)
    /\ world s1 = w2
    /\ released video (trace s1) = false.
Proof.
  intros Hres Hex Htarget Hopen Haudio Hwrite Hrel.
  rewrite (extract_audio_found v a fmt s r target Hres Hex Htarget).
  rewrite extract_audio_body_cases. cbv zeta.
  rewrite Hopen, Haudio, Hwrite.
  eexists. split; [reflexivity|]. split; [reflexivity|].
  cbn [trace]. rewrite !released_app, Hrel. reflexivity.
Qed.

(** C7: with no output path given, what [extract_audio] returns and writes
    to is the path derived from the resolved input: its parent directory
    joined with its stem, a dot and the format. For an input that names a
    file, that path lies in the same directory as the input, and its name is
    the input's name with the extension replaced by the format. *)
Theorem C7_default_output_path (v fmt : string) (s : State W Obj)
    (r : string) :
  PathUtils.resolve_path (world s) v = Return r ->
  os_path_exists (world s) r = true ->
  let video_file := PosixPath.Path r in
  let derived :=
    PosixPath.str
      (PosixPath.parent video_file // (PosixPath.stem video_file ++ "." ++ fmt)) in
  (forall out s1,
      VideoConverter.extract_audio v None fmt s = (Return out, s1) ->
      out = derived
      /\ exists video, In (EvWriteAudiofile video derived) (trace s1))
  /\ (forall video w1 w2 w3,
        VideoFileClip (world s) r = (Return video, w1) ->
        clip_has_audio video = true ->
        write_audiofile w1 video derived = (Return tt, w2) ->
        clip_close w2 video = (Return tt, w3) ->
        fst (VideoConverter.extract_audio v None fmt s) = Return derived)
  /\ (PosixPath.tail video_file <> [] ->
      PyStr.contains_char "/" fmt = false ->
      PosixPath.parent (PosixPath.Path derived) = PosixPath.parent video_file
      /\ PosixPath.name (PosixPath.Path derived)
         = (PosixPath.stem video_file ++ "." ++ fmt)%string
      /\ (fmt <> "" -> PyStr.contains_char "." fmt = false ->
          PosixPath.stem (PosixPath.Path derived) = PosixPath.stem video_file
          /\ PosixPath.suffix (PosixPath.Path derived) = ("." ++ fmt)%string)).
Proof.
  intros Hres Hex video_file derived.
  assert (target_path (world s) r None fmt = Return derived) as Htarget
    by reflexivity.
  split; [|split].
  - intros out s1.
    rewrite (extract_audio_found v None fmt s r derived Hres Hex Htarget).
    rewrite extract_audio_body_cases. cbv zeta.
    destruct (VideoFileClip (world s) r) as [[video|e] w1]; [|discriminate].
    destruct (clip_has_audio video); [|discriminate].
    destruct (write_audiofile w1 video derived) as [[[]|e] w2];
      [|discriminate].
    destruct (clip_close w2 video) as [[[]|e] w3]; [|discriminate].
    intros Heq. injection Heq as <- <-. split; [reflexivity|].
    exists video. cbn [trace]. apply in_or_app. right. now left.
  - intros video w1 w2 w3 Hopen Haudio Hwrite Hclose.
    rewrite (extract_audio_found v None fmt s r derived Hres Hex Htarget).
    rewrite extract_audio_body_cases. cbv zeta.
    now rewrite Hopen, Haudio, Hwrite, Hclose.
  - intros Hne Hfmt.
    destruct (derived_audio_path_structure r fmt Hne Hfmt)
      as (_ & Hpath & Hparent & Hname & Hsuffix).
    change (VideoConverter.derived_audio_path r fmt) with derived in Hpath.
    rewrite Hpath. fold video_file in Hparent, Hname, Hsuffix.
    repeat split; try assumption; now apply Hsuffix.
Qed.

(** An error of the probes is no [FileNotFoundError]. *)
Lemma shortcut_loop_error_class (w : W) (p : string)
    (items : list (string * PurePath)) (e : exn) :
  PathUtils.shortcut_loop w p items = Raise e ->
  is_FileNotFoundError e = false.
Proof.
  induction items as [|[k f] items IH]; cbn [PathUtils.shortcut_loop];
    [discriminate|].
  destruct (PyStr.startswith p (k ++ "/") || PyStr.startswith p (k ++ "\"));
    [|exact IH].
  unfold path_exists.
  destruct (stat w _) as [| |e'] eqn:Hstat; [discriminate | exact IH |].
  intros [= <-]. exact (stat_error_kept _ _ _ Hstat).
Qed.

Lemma filename_loop_error_class (w : W) (p : string)
    (values : list PurePath) (e : exn) :
  PathUtils.filename_loop w p values = Raise e ->
  is_FileNotFoundError e = false.
Proof.
  induction values as [|f values IH]; cbn [PathUtils.filename_loop];
    [discriminate|].
  unfold path_exists.
  destruct (stat w _) as [| |e'] eqn:Hstat; [discriminate | exact IH |].
  intros [= <-]. exact (stat_error_kept _ _ _ Hstat).
Qed.



(** C4: [extract_audio] is to close the clip it opens on every way out.
    It does so when it returns. But when the audio write raises, and when
    the video has no audio track, it raises the wrapped error with the clip
    it opened still open: no close call is made. *)
Theorem C4_clip_not_released_on_failure (v : string) (a : option string)
    (fmt : string) (s : State W Obj) (video : Clip) (w1 : W)
    (r target : string) :
  PathUtils.resolve_path (world s) v = Return r ->
  target_path (world s) r a fmt = Return target ->
  let opened :=
    trace s ++ [ EvPrint ("Loading video: " ++ r); EvVideoFileClip r;
                 EvPrint ("Extracting audio to: " ++ target) ] in
  os_path_exists (world s) r = true ->
  VideoFileClip (world s) r = (Return video, w1) ->
  released video (trace s) = false ->
  (forall out s1,
      VideoConverter.extract_audio v a fmt s = (Return out, s1) ->
      released video (trace s1) = true)
  /\ (forall e w2,
        clip_has_audio video = true ->
        write_audiofile w1 video target = (Raise e, w2) ->
        VideoConverter.extract_audio v a fmt s
        = (Raise (extraction_error e),
           mkState w2 (opened ++ [EvWriteAudiofile video target]) (this s))
        /\ released video (opened ++ [EvWriteAudiofile video target]) = false)
  /\ (clip_has_audio video = false ->
      VideoConverter.extract_audio v a fmt s
      = (Raise (extraction_error
                  (Exn "AttributeError"
                     "'NoneType' object has no attribute 'write_audiofile'"
                     None)),
         mkState w1 opened (this s))
      /\ released video opened = false).
Proof.
  intros Hres Htarget opened Hex Hopen Hrel. split; [|split].
  - intros out s1.
    now apply extract_audio_closes_on_return with (w1 := w1) (r := r).
  - intros e w2 Haudio Hwrite.
    rewrite (extract_audio_found v a fmt s r target Hres Hex Htarget).
    rewrite extract_audio_body_cases. cbv zeta.
    rewrite Hopen, Haudio, Hwrite. unfold opened.
    repeat rewrite <- app_assoc. split; [reflexivity|].
    rewrite !released_app, Hrel. reflexivity.
  - intros Haudio.
    rewrite (extract_audio_found v a fmt s r target Hres Hex Htarget).
    rewrite extract_audio_body_cases. cbv zeta.
    rewrite Hopen, Haudio. unfold opened.
    repeat rewrite <- app_assoc. split; [reflexivity|].
    rewrite !released_app, Hrel. reflexivity.
Qed.

End Extraction.

(** The two failures on a home folder with one video: the encoder fails,
    and the video has no audio track. The run that succeeds closes the
    clip. *)
Lemma C4_clip_not_released_on_failure_witness :
  let video := {| clip_id := 0; clip_has_audio := true |} in
  let mute := {| clip_id := 0; clip_has_audio := false |} in
  let run w := VideoConverter.extract_audio "desktop/x.mp4" None "mp3"
                 (Demo.start w tt) in
  (fst (run Demo.w0) = Return "/home/u/Desktop/x.mp3"
   /\ released video (trace (snd (run Demo.w0))) = true)
  /\ (VideoFileClip Demo.w_unwritable "/home/u/Desktop/x.mp4"
      = (Return video, Demo.bump_clip Demo.w_unwritable)
      /\ fst (run Demo.w_unwritable)
         = Raise (extraction_error (Exn "OSError" "encoder failed" None))
      /\ trace (snd (run Demo.w_unwritable))
         = [ EvPrint "Loading video: /home/u/Desktop/x.mp4";
             EvVideoFileClip "/home/u/Desktop/x.mp4";
             EvPrint "Extracting audio to: /home/u/Desktop/x.mp3";
             EvWriteAudiofile video "/home/u/Desktop/x.mp3" ]
      /\ released video (trace (snd (run Demo.w_unwritable))) = false)
  /\ (VideoFileClip Demo.w_silent "/home/u/Desktop/x.mp4"
      = (Return mute, Demo.bump_clip Demo.w_silent)
      /\ fst (run Demo.w_silent)
         = Raise (extraction_error
                    (Exn "AttributeError"
                       "'NoneType' object has no attribute 'write_audiofile'"
                       None))
      /\ trace (snd (run Demo.w_silent))
         = [ EvPrint "Loading video: /home/u/Desktop/x.mp4";
             EvVideoFileClip "/home/u/Desktop/x.mp4";
             EvPrint "Extracting audio to: /home/u/Desktop/x.mp3" ]
      /\ released mute (trace (snd (run Demo.w_silent))) = false).
Proof.
  cbv zeta. split; [|split].
  - split; [reflexivity|].
    apply (proj1 (@C4_clip_not_released_on_failure Demo.World unit
                    Demo.platform "desktop/x.mp4" None "mp3"
                    (Demo.start Demo.w0 tt)
                    {| clip_id := 0; clip_has_audio := true |}
                    (Demo.bump_clip Demo.w0)
                    "/home/u/Desktop/x.mp4" "/home/u/Desktop/x.mp3"
                    eq_refl eq_refl eq_refl eq_refl eq_refl)
             "/home/u/Desktop/x.mp3"
             (snd (VideoConverter.extract_audio "desktop/x.mp4" None "mp3"
                     (Demo.start Demo.w0 tt)))).
    reflexivity.
  - destruct (proj1 (proj2 (@C4_clip_not_released_on_failure Demo.World unit
                    Demo.platform "desktop/x.mp4" None "mp3"
                    (Demo.start Demo.w_unwritable tt)
                    {| clip_id := 0; clip_has_audio := true |}
                    (Demo.bump_clip Demo.w_unwritable)
                    "/home/u/Desktop/x.mp4" "/home/u/Desktop/x.mp3"
                    eq_refl eq_refl eq_refl eq_refl eq_refl))
                (Exn "OSError" "encoder failed" None)
                (Demo.bump_clip Demo.w_unwritable) eq_refl eq_refl)
      as [Hrun Hrel].
    split; [reflexivity|]. rewrite Hrun.
    split; [reflexivity|]. split; [reflexivity | exact Hrel].
  - destruct (proj2 (proj2 (@C4_clip_not_released_on_failure Demo.World unit
                    Demo.platform "desktop/x.mp4" None "mp3"
                    (Demo.start Demo.w_silent tt)
                    {| clip_id := 0; clip_has_audio := false |}
                    (Demo.bump_clip Demo.w_silent)
                    "/home/u/Desktop/x.mp4" "/home/u/Desktop/x.mp3"
                    eq_refl eq_refl eq_refl eq_refl eq_refl))
                eq_refl)
      as [Hrun Hrel].
    split; [reflexivity|]. rewrite Hrun.
    split; [reflexivity|]. split; [reflexivity | exact Hrel].
Defined.

(** A file named relative to the current directory. *)
Lemma default_output_path_example :
  fst (VideoConverter.extract_audio "clip.mp4" None
         VideoConverter.default_audio_format (Demo.start Demo.w_clip tt))
  = Return "/work/clip.mp3".
Proof. reflexivity. Qed.

(** C9, as stated, fails: the exception that comes out carries neither the
    input nor the output path, in its message or in its context. *)
Lemma C9_counterexample :
  let s := Demo.start Demo.w_unreadable tt in
  let input := "/home/u/Desktop/x.mp4" in
  let output := "/home/u/Desktop/x.mp3" in
  PathUtils.resolve_path Demo.w_unreadable "desktop/x.mp4" = Return input
  /\ target_path Demo.w_unreadable input None "mp3" = Return output
  /\ exists e,
       fst (VideoConverter.extract_audio "desktop/x.mp4" None "mp3" s) = Raise e
       /\ exn_str e = "Error during audio extraction: decoder failed"
       /\ exn_context e = Some (Exn "OSError" "decoder failed" None)
       /\ PyStr.contains input (exn_str e) = false
       /\ PyStr.contains output (exn_str e) = false
       /\ PyStr.contains "x.mp4" (exn_str e) = false
       /\ PyStr.contains "x.mp3" (exn_str e) = false.
Proof. cbv zeta. repeat split. eexists. repeat split. Qed.

Lemma C9_extraction_failure_wrapped_once_witness :
  fst (VideoConverter.extract_audio "desktop/x.mp4" None "mp3"
         (Demo.start Demo.w_unwritable tt))
  = Raise (extraction_error (Exn "OSError" "encoder failed" None)).
Proof.
  pose proof (C9_extraction_failure_wrapped_once "desktop/x.mp4" None "mp3"
                (Demo.start Demo.w_unwritable tt)
                (snd (VideoConverter.extract_audio_body "/home/u/Desktop/x.mp4"
                        "/home/u/Desktop/x.mp3"
                        (Demo.start Demo.w_unwritable tt)))
                (Exn "OSError" "encoder failed" None)
                "/home/u/Desktop/x.mp4" "/home/u/Desktop/x.mp3"
                eq_refl eq_refl eq_refl eq_refl) as [Heq _].
  rewrite Heq. reflexivity.
Defined.

Lemma C7_default_output_path_witness :
  fst (VideoConverter.extract_audio "desktop/x.mp4" None "mp3"
         (Demo.start Demo.w0 tt))
  = Return "/home/u/Desktop/x.mp3".
Proof.
  exact (proj1 (proj2 (C7_default_output_path "desktop/x.mp4" "mp3"
                         (Demo.start Demo.w0 tt) "/home/u/Desktop/x.mp4"
                         eq_refl eq_refl))
           {| clip_id := 0; clip_has_audio := true |}
           (Demo.bump_clip Demo.w0)
           (Demo.add_path "/home/u/Desktop/x.mp3" (Demo.bump_clip Demo.w0))
           (Demo.add_path "/home/u/Desktop/x.mp3" (Demo.bump_clip Demo.w0))
           eq_refl eq_refl eq_refl eq_refl).
Defined.

(** ** Batches *)



Section Batches.
Context {W : Type} `{Platform W}.


Lemma transcribe_loop_run_each (total : nat) (outdir : string)
    (lang : option string) (fmt : string) (files : list string) :
  forall (i : nat) (acc : list string) (s : State W AudioTranscriber.Self),
    AudioTranscriber.transcribe_loop files i total outdir lang fmt acc s =
    (Return (acc ++ successes
               (fst (run_each (transcribe_one total outdir lang fmt)
                       transcribe_report i files s))),
     snd (run_each (transcribe_one total outdir lang fmt)
            transcribe_report i files s)).
Proof.
  induction files as [|f rest IH]; intros i acc s.
  - cbn. now rewrite app_nil_r.
  - cbn [AudioTranscriber.transcribe_loop run_each].
    unfold bind at 1. unfold try_except.
    change (bind (print _) _ s) with
      (bind (transcribe_one total outdir lang fmt i f)
            (fun result_path => ret (acc ++ [result_path])) s).
    unfold bind at 1.
    destruct (transcribe_one total outdir lang fmt i f s) as [[r|e] s1].
    + unfold ret at 1. rewrite (IH (S i)).
      destruct (run_each _ _ (S i) rest s1) as [outs s2]. cbn.
      rewrite <- app_assoc. reflexivity.
    + unfold bind at 1, print at 1, ret at 1. cbn [world trace this].
      rewrite (IH (S i)).
      change ("❌ Failed to transcribe " ++ f ++ ": " ++ exn_str e)%string
        with (transcribe_report f e).
      match goal with |- context [run_each _ _ _ _ ?st] =>
        destruct (run_each (transcribe_one total outdir lang fmt)
                    transcribe_report (S i) rest st) as [outs s2]
      end.
      reflexivity.
Qed.


End Batches.


Lemma batch_convert_three_files_one_failure :
  let run :=
    VideoConverter.batch_convert "/in" None "mp3" (Demo.start Demo.w_videos tt) in
  fst run = Return ["/in/a.mp3"; "/in/c.mp3"]
  /\ In (EvPrint "Failed to convert /in/b.MP4: Error during audio extraction: decoder failed")
        (trace (snd run)).
Proof. cbv zeta. split; [reflexivity|]. vm_compute. tauto. Qed.

Lemma batch_transcribe_three_files_one_failure :
  let run :=
    AudioTranscriber.batch_transcribe "/in" None None "srt"
      (Demo.start Demo.w_audios Demo.base_transcriber) in
  fst run = Return ["/in/transcriptions/a_transcription.srt";
                    "/in/transcriptions/c_transcription.srt"]
  /\ In (EvPrint "❌ Failed to transcribe /in/b.wav: Error during transcription: transcription failed")
        (trace (snd run))
  /\ AudioTranscriber.model (this (snd run)) = Some {| model_id := 0 |}.
Proof. cbv zeta. split; [reflexivity|]. split; [vm_compute; tauto|reflexivity]. Qed.

(** ** Exact cases of binary64 arithmetic *)

Section BinaryFloat.
Open Scope Z_scope.

Lemma fexp64_eq (e : Z) : fexp64 e = Z.max (e - 53) (-1074).
Proof. reflexivity. Qed.

Lemma digits_log2 (p : positive) :
  Zpos (digits2_pos p) = Z.log2 (Zpos p) + 1.
Proof.
  induction p as [p IH | p IH |]; cbn [digits2_pos].
  - rewrite Pos2Z.inj_succ, IH.
    change (Z.log2 (Zpos p~1)) with (Zpos (Pos.size p)).
    clear IH. induction p; cbn; lia.
  - rewrite Pos2Z.inj_succ, IH.
    change (Z.log2 (Zpos p~0)) with (Zpos (Pos.size p)).
    clear IH. induction p; cbn; lia.
  - reflexivity.
Qed.

Lemma digits_bounds (p : positive) :
  2 ^ (Zpos (digits2_pos p) - 1) <= Zpos p < 2 ^ Zpos (digits2_pos p).
Proof.
  rewrite digits_log2.
  pose proof (Z.log2_spec (Zpos p) ltac:(lia)) as Hs.
  replace (Z.log2 (Zpos p) + 1 - 1) with (Z.log2 (Zpos p)) by lia.
  replace (Z.log2 (Zpos p) + 1) with (Z.succ (Z.log2 (Zpos p))) by lia.
  exact Hs.
Qed.

Lemma digits_unique (p : positive) (d : Z) :
  2 ^ (d - 1) <= Zpos p < 2 ^ d -> Zpos (digits2_pos p) = d.
Proof.
  intros Hd. rewrite digits_log2.
  assert (0 <= d - 1).
  { destruct (Z.le_gt_cases 0 (d - 1)) as [|Hneg]; [assumption|].
    assert (d <= 0) by lia.
    assert (2 ^ d <= 1).
    { destruct (Z.eq_dec d 0) as [->|]; [cbn; lia|].
      rewrite Z.pow_neg_r by lia. lia. }
    lia. }
  rewrite (Z.log2_unique (Zpos p) (d - 1)); [lia | assumption |].
  replace (Z.succ (d - 1)) with d by lia. exact Hd.
Qed.

Lemma digits_mul_pow2 (p q : positive) (k : Z) :
  0 <= k -> Zpos q = Zpos p * 2 ^ k ->
  Zpos (digits2_pos q) = Zpos (digits2_pos p) + k.
Proof.
  intros Hk Hq. rewrite !digits_log2, Hq.
  rewrite Z.log2_mul_pow2 by lia. lia.
Qed.

Lemma iter_xO (p : positive) (d : positive) :
  Zpos (Pos.iter xO p d) = Zpos p * 2 ^ Zpos d.
Proof.
  induction d as [|d IH] using Pos.peano_ind.
  - cbn [Pos.iter]. rewrite Pos2Z.inj_xO. lia.
  - rewrite Pos.iter_succ, Pos2Z.inj_xO, IH, Pos2Z.inj_succ.
    rewrite Z.pow_succ_r by lia. lia.
Qed.

(** Shifting right by as many places as there are low zero bits loses
    nothing. *)
Lemma iter_shr_exact (n : positive) :
  forall z, 0 < z ->
    iter_pos shr_1 n (Build_shr_record (2 ^ Zpos n * z) false false)
    = Build_shr_record z false false.
Proof.
  assert (Hstep : forall z, 0 < z ->
            shr_1 (Build_shr_record (2 * z) false false)
            = Build_shr_record z false false).
  { intros z Hz. destruct z as [|q|q]; [lia | reflexivity | lia]. }
  assert (Hpos : forall k, 0 < 2 ^ Zpos k) by (intros; apply Z.pow_pos_nonneg; lia).
  induction n as [n IH | n IH |]; intros z Hz; cbn [iter_pos].
  - assert (H2 : 2 ^ Zpos n~1 * z = 2 * (2 ^ Zpos n * (2 ^ Zpos n * z))).
    { replace (Zpos n~1) with (Zpos n + Zpos n + 1) by lia.
      rewrite !Z.pow_add_r by lia. change (2 ^ 1) with 2. ring. }
    pose proof (Hpos n).
    rewrite H2, Hstep by nia. rewrite IH by nia. now apply IH.
  - assert (H2 : 2 ^ Zpos n~0 * z = 2 ^ Zpos n * (2 ^ Zpos n * z)).
    { replace (Zpos n~0) with (Zpos n + Zpos n) by lia.
      rewrite !Z.pow_add_r by lia. ring. }
    pose proof (Hpos n).
    rewrite H2, IH by nia. now apply IH.
  - change (2 ^ 1) with 2. now apply Hstep.
Qed.

Lemma shr_zero_or_neg (mrs : shr_record) (e n : Z) :
  n <= 0 -> shr mrs e n = (mrs, e).
Proof. intros Hn. destruct n; [reflexivity | lia | reflexivity]. Qed.

(** Rounding a mantissa whose surplus low bits are all zero only drops
    them. *)
Lemma round_aux_exact (s : bool) (mz q : positive) (ez n : Z) :
  n = Z.max 0 (fexp64 (Zpos (digits2_pos mz) + ez) - ez) ->
  Zpos mz = 2 ^ n * Zpos q ->
  ez + n <= 971 ->
  binary_round_aux PyFloat.prec PyFloat.emax s (Zpos mz) ez loc_Exact
  = S754_finite s q (ez + n).
Proof.
  intros Hn Hq Hrange.
  assert (Hn0 : 0 <= n) by lia.
  assert (Hdq : Zpos (digits2_pos q) + n = Zpos (digits2_pos mz)).
  { symmetry. rewrite (digits_mul_pow2 q mz n Hn0); [reflexivity|]. lia. }
  assert (Hsecond :
    shr_fexp PyFloat.prec PyFloat.emax (Zpos q) (ez + n) loc_Exact
    = (Build_shr_record (Zpos q) false false, ez + n)).
  { unfold shr_fexp. cbn [shr_record_of_loc Zdigits2].
    apply shr_zero_or_neg.
    replace (Zpos (digits2_pos q) + (ez + n))
      with (Zpos (digits2_pos mz) + ez) by lia.
    fold fexp64. lia. }
  assert (Hfirst :
    shr_fexp PyFloat.prec PyFloat.emax (Zpos mz) ez loc_Exact
    = (Build_shr_record (Zpos q) false false, ez + n)).
  { unfold shr_fexp. cbn [shr_record_of_loc Zdigits2]. fold fexp64.
    destruct (fexp64 (Zpos (digits2_pos mz) + ez) - ez) as [|p|p] eqn:Hsh.
    - cbn in Hn. subst n. cbn [shr].
      change (2 ^ 0) with 1 in Hq.
      assert (Hmq : mz = q) by (apply Pos2Z.inj; lia).
      rewrite Z.add_0_r, Hmq. reflexivity.
    - cbn in Hn. subst n. cbn [shr].
      rewrite Hq, iter_shr_exact by lia. reflexivity.
    - cbn in Hn. subst n. cbn [shr].
      change (2 ^ 0) with 1 in Hq.
      assert (Hmq : mz = q) by (apply Pos2Z.inj; lia).
      rewrite Z.add_0_r, Hmq. reflexivity. }
  unfold binary_round_aux. rewrite Hfirst.
  cbn [shr_m loc_of_shr_record round_nearest_even]. rewrite Hsecond.
  cbn [shr_m].
  replace (ez + n <=? PyFloat.emax - PyFloat.prec) with true; [reflexivity|].
  symmetry. apply Z.leb_le. unfold PyFloat.emax, PyFloat.prec. lia.
Qed.

Lemma canonical_bounded (m : positive) (e : Z) :
  bounded PyFloat.prec PyFloat.emax m e = true <-> canonical m e.
Proof.
  unfold bounded, canonical_mantissa, canonical. fold fexp64.
  rewrite andb_true_iff, Z.eqb_eq, Z.leb_le.
  unfold PyFloat.emax, PyFloat.prec. lia.
Qed.

Lemma canonical_range (m : positive) (e : Z) :
  canonical m e -> -1074 <= e <= 971 /\ Zpos (digits2_pos m) <= 53.
Proof. unfold canonical. rewrite fexp64_eq. lia. Qed.

Lemma units_pos (m : positive) (e : Z) : -1074 <= e -> 0 < units (Zpos m) e.
Proof.
  intros He. unfold units. apply Z.mul_pos_pos; [lia|].
  apply Z.pow_pos_nonneg; lia.
Qed.

Lemma measures_nonneg (x : spec_float) (u : Z) : measures x u -> 0 <= u.
Proof.
  intros [[_ ->] | (m & e & _ & Hc & <-)]; [lia|].
  apply canonical_range in Hc. pose proof (units_pos m e). lia.
Qed.


Lemma pow2_pos (k : Z) : 0 <= k -> 0 < 2 ^ k.
Proof. intros. apply Z.pow_pos_nonneg; lia. Qed.

(** The number of digits of a mantissa, read off the value in units. *)
Lemma digits_units (m : positive) (e : Z) :
  -1074 <= e ->
  Z.log2 (units (Zpos m) e) + 1 = Zpos (digits2_pos m) + e + 1074.
Proof.
  intros He. unfold units.
  rewrite Z.log2_mul_pow2 by lia. rewrite digits_log2. lia.
Qed.

Lemma canonical_fexp_units (m : positive) (e : Z) :
  canonical m e -> fexp64 (Z.log2 (units (Zpos m) e) + 1 - 1074) = e.
Proof.
  intros Hc. pose proof (canonical_range m e Hc) as [He _].
  rewrite digits_units by lia.
  replace (Zpos (digits2_pos m) + e + 1074 - 1074)
    with (Zpos (digits2_pos m) + e) by lia.
  apply Hc.
Qed.

Lemma fexp64_mono (a b : Z) : a <= b -> fexp64 a <= fexp64 b.
Proof. rewrite !fexp64_eq. lia. Qed.

(** A smaller value calls for no larger an exponent. *)
Lemma fexp_units_le (u : Z) (m : positive) (e : Z) :
  canonical m e -> 0 < u <= units (Zpos m) e ->
  fexp64 (Z.log2 u + 1 - 1074) <= e.
Proof.
  intros Hc Hu. rewrite <- (canonical_fexp_units m e Hc).
  apply fexp64_mono. pose proof (Z.log2_le_mono u (units (Zpos m) e)). lia.
Qed.

(** Two canonical forms of one value are the same. *)
Lemma canonical_unique (m m' : positive) (e e' : Z) :
  canonical m e -> canonical m' e' ->
  units (Zpos m) e = units (Zpos m') e' -> m = m' /\ e = e'.
Proof.
  intros Hc Hc' Hu.
  pose proof (canonical_fexp_units m e Hc) as H1.
  pose proof (canonical_fexp_units m' e' Hc') as H2.
  rewrite Hu, H2 in H1. subst e'. split; [|reflexivity].
  pose proof (canonical_range m e Hc) as [He _].
  unfold units in Hu. pose proof (pow2_pos (e + 1074)).
  apply Pos2Z.inj. nia.
Qed.

(** A positive value whose low bits, below the exponent its magnitude
    calls for, are zero has a canonical form. *)
Lemma representable (u k : Z) :
  0 < u -> fexp64 (Z.log2 u + 1 - 1074) <= k -> k <= 971 ->
  (2 ^ (k + 1074) | u) ->
  exists m e, canonical m e /\ units (Zpos m) e = u /\ e <= k.
Proof.
  intros Hu Hk Hrange Hdiv.
  set (t := fexp64 (Z.log2 u + 1 - 1074)) in *.
  assert (Ht : -1074 <= t) by (subst t; rewrite fexp64_eq; lia).
  assert (Hdivt : (2 ^ (t + 1074) | u)).
  { apply Z.divide_trans with (2 ^ (k + 1074)); [|assumption].
    exists (2 ^ (k - t)). rewrite <- Z.pow_add_r by lia. f_equal. lia. }
  destruct Hdivt as [q Hq].
  pose proof (pow2_pos (t + 1074)).
  destruct q as [|p|p]; [lia | | nia].
  exists p, t. split; [|split; [unfold units; lia | assumption]].
  split; [|lia].
  assert (Hd : Z.log2 u + 1 = Zpos (digits2_pos p) + t + 1074).
  { rewrite <- digits_units by lia. unfold units. now rewrite Hq. }
  subst t. rewrite Hd at 2.
  replace (Zpos (digits2_pos p) + fexp64 (Z.log2 u + 1 - 1074) + 1074 - 1074)
    with (Zpos (digits2_pos p) + fexp64 (Z.log2 u + 1 - 1074)) by lia.
  reflexivity.
Qed.

(** Rounding a mantissa that is a canonical one shifted left gives that
    canonical form. *)
Lemma round_aux_canonical (s : bool) (mz m : positive) (ez e : Z) :
  canonical m e -> ez <= e -> Zpos mz = Zpos m * 2 ^ (e - ez) ->
  binary_round_aux PyFloat.prec PyFloat.emax s (Zpos mz) ez loc_Exact
  = S754_finite s m e.
Proof.
  intros [Hc Hrange] Hle Hm.
  assert (Hd : Zpos (digits2_pos mz) = Zpos (digits2_pos m) + (e - ez)).
  { apply digits_mul_pow2; [lia | assumption]. }
  rewrite (round_aux_exact s mz m ez (e - ez)).
  - f_equal. lia.
  - replace (Zpos (digits2_pos mz) + ez) with (Zpos (digits2_pos m) + e) by lia.
    rewrite Hc. lia.
  - lia.
  - lia.
Qed.

Lemma shl_align_fst (mx : positive) (ex ez : Z) :
  ez <= ex -> Zpos (fst (shl_align mx ex ez)) = Zpos mx * 2 ^ (ex - ez).
Proof.
  intros Hle. unfold shl_align.
  destruct (ez - ex) as [|p|p] eqn:E; cbn [fst].
  - replace (ex - ez) with 0 by lia. change (2 ^ 0) with 1. lia.
  - lia.
  - rewrite iter_xO. f_equal. f_equal. lia.
Qed.

(** [binary_round] finds the canonical form of a value that has one. *)
Lemma round_canonical (s : bool) (z m : positive) (e e' : Z) :
  -1074 <= e -> canonical m e' ->
  units (Zpos z) e = units (Zpos m) e' ->
  binary_round PyFloat.prec PyFloat.emax s z e = S754_finite s m e'.
Proof.
  intros He Hc Hu.
  pose proof (canonical_range m e' Hc) as [He' _].
  assert (Hd : Zpos (digits2_pos z) + e = Zpos (digits2_pos m) + e').
  { pose proof (digits_units z e He). pose proof (digits_units m e' ltac:(lia)).
    rewrite Hu in *. lia. }
  unfold binary_round, shl_align. fold fexp64. rewrite Hd.
  destruct Hc as [Hc Hrange]. rewrite Hc.
  unfold units in Hu.
  pose proof (pow2_pos (e + 1074)). pose proof (pow2_pos (e' + 1074)).
  destruct (e' - e) as [|p|p] eqn:E.
  - apply round_aux_canonical; [split; assumption | lia |].
    replace e' with e in * by lia. rewrite E. change (2 ^ 0) with 1. nia.
  - apply round_aux_canonical; [split; assumption | lia |].
    assert (Hs : 2 ^ (e' + 1074) = 2 ^ (e' - e) * 2 ^ (e + 1074)).
    { rewrite <- Z.pow_add_r by lia. f_equal. lia. }
    rewrite Hs in Hu. nia.
  - apply round_aux_canonical; [split; assumption | lia |].
    rewrite Z.sub_diag. change (2 ^ 0) with 1. rewrite iter_xO.
    assert (Hs : 2 ^ (e + 1074) = 2 ^ Zpos p * 2 ^ (e' + 1074)).
    { rewrite <- Z.pow_add_r by lia. f_equal. lia. }
    rewrite Hs in Hu. nia.
Qed.

(** [binary_normalize] of a non-negative value that is representable. *)
Lemma normalize_measures (z e k : Z) :
  0 <= z -> -1074 <= e ->
  (0 < z -> fexp64 (Z.log2 (units z e) + 1 - 1074) <= k /\ k <= 971
            /\ (2 ^ (k + 1074) | units z e)) ->
  measures (binary_normalize PyFloat.prec PyFloat.emax z e false) (units z e).
Proof.
  intros Hz He Hrep. destruct z as [|p|p]; [ | | lia].
  - left. split; reflexivity.
  - right. destruct (Hrep ltac:(lia)) as (Hk & Hrange & Hdiv).
    destruct (representable (units (Zpos p) e) k) as (m & e' & Hc & Hu & _);
      try assumption.
    { apply units_pos. assumption. }
    exists m, e'. split; [|split; assumption].
    cbn [binary_normalize]. apply round_canonical; [assumption.. | now symmetry].
Qed.

Lemma measures_zero (x : spec_float) : measures x 0 -> x = S754_zero false.
Proof.
  intros [[-> _] | (m & e & _ & Hc & Hu)]; [reflexivity|].
  pose proof (canonical_range m e Hc) as [He _].
  pose proof (units_pos m e). lia.
Qed.

Lemma measures_finite (x : spec_float) (u : Z) :
  measures x u -> 0 < u ->
  exists m e, x = S754_finite false m e /\ canonical m e
              /\ units (Zpos m) e = u.
Proof. intros [[_ ->] | Hx] Hu; [lia | exact Hx]. Qed.

Lemma measures_not_negative (x : spec_float) (u : Z) :
  measures x u -> PyFloat.is_negative x = false.
Proof. intros [[-> _] | (m & e & -> & _)]; reflexivity. Qed.

Lemma measures_is_zero (x : spec_float) (u : Z) :
  measures x u -> PyFloat.is_zero x = (u =? 0).
Proof.
  intros [[-> ->] | (m & e & -> & Hc & <-)]; [reflexivity|].
  pose proof (canonical_range m e Hc) as [He _].
  pose proof (units_pos m e). cbn [PyFloat.is_zero]. symmetry.
  apply Z.eqb_neq. lia.
Qed.

(** The divisor's exponent divides every multiple of the value. *)
Lemma units_divide (m : positive) (e : Z) :
  -1074 <= e -> (2 ^ (e + 1074) | units (Zpos m) e).
Proof. intros. exists (Zpos m). reflexivity. Qed.

(** [fmod] is exact. *)
Lemma fmod_exact (x : spec_float) (ux : Z) (my : positive) (ey : Z) :
  measures x ux -> canonical my ey ->
  measures (PyFloat.fmod x (S754_finite false my ey))
    (ux mod units (Zpos my) ey).
Proof.
  intros Hx Hy.
  pose proof (canonical_range my ey Hy) as [Hey _].
  pose proof (units_pos my ey ltac:(lia)) as Huy.
  destruct Hx as [[-> ->] | (mx & ex & -> & Hcx & <-)].
  { left. split; [reflexivity | now rewrite Z.mod_0_l by lia]. }
  pose proof (canonical_range mx ex Hcx) as [Hex _].
  pose proof (units_pos mx ex ltac:(lia)) as Hux.
  cbn [PyFloat.fmod cond_Zopp].
  set (e := Z.min ex ey).
  set (r := (Zpos mx * 2 ^ (ex - e)) mod (Zpos my * 2 ^ (ey - e))).
  assert (Hr : units r e = units (Zpos mx) ex mod units (Zpos my) ey).
  { unfold units, r.
    rewrite <- Z.mul_mod_distr_r.
    - f_equal; rewrite <- Z.mul_assoc, <- Z.pow_add_r by (subst e; lia);
        do 2 f_equal; lia.
    - pose proof (pow2_pos (ey - e)). subst e. nia.
    - pose proof (pow2_pos (e + 1074)). subst e. lia. }
  rewrite <- Hr.
  assert (Hr0 : 0 <= r).
  { apply Z.mod_pos_bound. pose proof (pow2_pos (ey - e)). subst e. nia. }
  apply (normalize_measures r e e); [assumption | subst e; lia |].
  intros Hpos. rewrite Hr.
  pose proof (Z.mod_pos_bound (units (Zpos mx) ex) (units (Zpos my) ey) Huy).
  pose proof (Z.mod_le (units (Zpos mx) ex) (units (Zpos my) ey)
                ltac:(lia) Huy).
  assert (0 < units (Zpos mx) ex mod units (Zpos my) ey).
  { rewrite <- Hr. unfold units. pose proof (pow2_pos (e + 1074)).
    subst e. nia. }
  split; [|split].
  - set (u := units (Zpos mx) ex mod units (Zpos my) ey) in *.
    pose proof (fexp_units_le u mx ex Hcx ltac:(lia)).
    pose proof (fexp_units_le u my ey Hy ltac:(lia)). subst e. lia.
  - subst e. lia.
  - rewrite <- Hr. exists r. reflexivity.
Qed.

(** Subtracting a smaller value that is a multiple of the last place of
    the greater is exact. *)
Lemma sub_exact (x y : spec_float) (ux uy : Z) :
  measures x ux -> measures y uy -> uy <= ux -> (ulp_units x | uy) ->
  measures (SFsub PyFloat.prec PyFloat.emax x y) (ux - uy).
Proof.
  intros Hx Hy Hle Hulp.
  pose proof (measures_nonneg y uy Hy) as Hy0.
  destruct Hx as [[-> ->] | (mx & ex & -> & Hcx & <-)].
  { assert (uy = 0) by lia. subst uy. rewrite (measures_zero y Hy).
    left. split; reflexivity. }
  pose proof (canonical_range mx ex Hcx) as [Hex _].
  destruct Hy as [[-> ->] | (my & ey & -> & Hcy & <-)].
  { rewrite Z.sub_0_r. right. exists mx, ex. repeat split; apply Hcx. }
  pose proof (canonical_range my ey Hcy) as [Hey _].
  cbn [SFsub cond_Zopp ulp_units] in *.
  set (ez := Z.min ex ey).
  rewrite !shl_align_fst by (subst ez; lia).
  set (z := Zpos mx * 2 ^ (ex - ez) - Zpos my * 2 ^ (ey - ez)).
  assert (Hz : units z ez = units (Zpos mx) ex - units (Zpos my) ey).
  { unfold units, z. rewrite Z.mul_sub_distr_r.
    f_equal; rewrite <- Z.mul_assoc, <- Z.pow_add_r by (subst ez; lia);
      do 2 f_equal; lia. }
  rewrite <- Hz.
  pose proof (pow2_pos (ez + 1074) ltac:(subst ez; lia)) as Hp.
  assert (Hz0 : 0 <= z) by (unfold units in Hz at 1; nia).
  apply (normalize_measures z ez ex); [assumption | subst ez; lia |].
  intros Hpos. rewrite Hz.
  assert (0 < units (Zpos mx) ex - units (Zpos my) ey)
    by (rewrite <- Hz; unfold units; nia).
  pose proof (units_pos my ey ltac:(lia)).
  split; [|split].
  - apply (fexp_units_le _ mx ex Hcx). lia.
  - lia.
  - apply Z.divide_sub_r; [apply units_divide; lia | exact Hulp].
Qed.

Lemma sub_self (x : spec_float) (u : Z) :
  measures x u -> SFsub PyFloat.prec PyFloat.emax x x = S754_zero false.
Proof.
  intros Hx. apply measures_zero. rewrite <- (Z.sub_diag u).
  apply sub_exact; try assumption; [lia|].
  destruct Hx as [[-> ->] | (m & e & -> & Hc & <-)].
  - apply Z.divide_0_r.
  - apply units_divide. apply (canonical_range m e Hc).
Qed.

(** [int(x)] drops the fraction. *)
Lemma to_int_exact (x : spec_float) (u : Z) :
  measures x u -> PyFloat.to_int x = Return (u / unity).
Proof.
  intros [[-> ->] | (m & e & -> & Hc & <-)]; [reflexivity|].
  pose proof (canonical_range m e Hc) as [He _].
  cbn [PyFloat.to_int cond_Zopp]. f_equal. unfold units, unity.
  destruct (Z.leb_spec 0 e).
  - rewrite Z.pow_add_r, Z.mul_assoc by lia.
    rewrite Z.div_mul; [reflexivity|]. pose proof (pow2_pos 1074). lia.
  - replace 1074 with (- e + (e + 1074)) at 2 by lia.
    rewrite (Z.pow_add_r 2 (- e) (e + 1074)) by lia.
    rewrite Z.div_mul_cancel_r; [reflexivity | |].
    + pose proof (pow2_pos (- e)). lia.
    + pose proof (pow2_pos (e + 1074)). lia.
Qed.

(** [floor] leaves whole numbers alone. *)
Lemma floor_whole (x : spec_float) (k : Z) :
  measures x (k * unity) -> PyFloat.floor x = x.
Proof.
  intros [[-> _] | (m & e & -> & Hc & Hu)]; [reflexivity|].
  pose proof (canonical_range m e Hc) as [He _].
  cbn [PyFloat.floor cond_Zopp].
  destruct (Z.leb_spec 0 e); [reflexivity|].
  assert (Hm : Zpos m = k * 2 ^ (- e)).
  { unfold units, unity in Hu.
    replace 1074 with (- e + (e + 1074)) in Hu at 2 by lia.
    rewrite (Z.pow_add_r 2 (- e) (e + 1074)) in Hu by lia.
    pose proof (pow2_pos (e + 1074)). nia. }
  rewrite Hm, Z.div_mul by (pose proof (pow2_pos (- e)); lia).
  pose proof (pow2_pos (- e)).
  destruct k as [|p|p]; [lia | | nia].
  cbn [binary_normalize]. apply round_canonical; [lia | assumption |].
  rewrite Hu. reflexivity.
Qed.

Lemma div_eucl_exact (q d : Z) : 0 < d -> Z.div_eucl (q * d) d = (q, 0).
Proof.
  intros Hd. destruct (Z.div_eucl (q * d) d) as [q0 r0] eqn:E.
  assert (Hq : q0 = q * d / d) by (unfold Z.div; now rewrite E).
  assert (Hr : r0 = (q * d) mod d) by (unfold Z.modulo; now rewrite E).
  rewrite Z.div_mul in Hq by lia. rewrite Z.mod_mul in Hr by lia.
  now subst.
Qed.

Lemma new_location_exact (d : Z) : new_location d 0 = loc_Exact.
Proof. unfold new_location. destruct (Z.even d); reflexivity. Qed.

Lemma log2_units_one (k : Z) : 0 < k -> Z.log2 (k * unity) = Z.log2 k + 1074.
Proof. intros. unfold unity. rewrite Z.log2_mul_pow2; lia. Qed.

(** Dividing a whole multiple of the divisor, the quotient below [2^53],
    is exact. *)
Lemma div_exact (x : spec_float) (my : positive) (ey k : Z) :
  canonical my ey -> 1 <= k < 2 ^ 53 ->
  measures x (k * units (Zpos my) ey) ->
  measures (SFdiv PyFloat.prec PyFloat.emax x (S754_finite false my ey))
    (k * unity).
Proof.
  intros Hcy Hk Hx.
  pose proof (canonical_range my ey Hcy) as [Hey _].
  pose proof (units_pos my ey ltac:(lia)) as Huy.
  destruct (measures_finite x _ Hx ltac:(nia)) as (mx & ex & -> & Hcx & Hux).
  pose proof (canonical_range mx ex Hcx) as [Hex _].
  (* the canonical form of the quotient *)
  assert (Hlk : Z.log2 k + 1 <= 53).
  { assert (Z.log2 k < 53) by (apply Z.log2_lt_pow2; lia). lia. }
  destruct (representable (k * unity) 0) as (m & e & Hc & Hu & He).
  { unfold unity. pose proof (pow2_pos 1074). nia. }
  { rewrite log2_units_one by lia. rewrite fexp64_eq. lia. }
  { lia. }
  { exists k. reflexivity. }
  pose proof (canonical_range m e Hc) as [Hel _].
  assert (Hefexp : e = fexp64 (Z.log2 k + 1)).
  { rewrite <- (canonical_fexp_units m e Hc), Hu, log2_units_one by lia.
    f_equal. lia. }
  (* the magnitude of the quotient *)
  set (F := Zpos (digits2_pos mx) + ex - (Zpos (digits2_pos my) + ey)).
  assert (HF : F <= Z.log2 k + 1).
  { destruct (Z.le_gt_cases F 1) as [|HF1].
    { pose proof (Z.log2_nonneg k). lia. }
    assert (2 ^ (F - 1) <= k); [|apply Z.log2_le_pow2 in H; lia].
    destruct (Z.le_gt_cases (2 ^ (F - 1)) k) as [|Hlt]; [assumption|].
    exfalso.
    pose proof (digits_bounds mx) as [Hmx _].
    pose proof (digits_bounds my) as [_ Hmy].
    assert (Hd1 : 1 <= Zpos (digits2_pos mx)) by lia.
    assert (HP : 2 ^ (F - 1) * (2 ^ Zpos (digits2_pos my) * 2 ^ (ey + 1074))
                 = 2 ^ (Zpos (digits2_pos mx) - 1) * 2 ^ (ex + 1074)).
    { rewrite <- !Z.pow_add_r by lia. f_equal. unfold F. lia. }
    unfold units in Hux, Huy.
    pose proof (pow2_pos (ey + 1074)). pose proof (pow2_pos (ex + 1074)).
    assert (k * (Zpos my * 2 ^ (ey + 1074))
            < 2 ^ (F - 1) * (2 ^ Zpos (digits2_pos my) * 2 ^ (ey + 1074))).
    { apply Z.mul_lt_mono_nonneg; [lia | lia | lia |].
      apply Z.mul_lt_mono_pos_r; lia. }
    assert (2 ^ (Zpos (digits2_pos mx) - 1) * 2 ^ (ex + 1074)
            <= Zpos mx * 2 ^ (ex + 1074))
      by (apply Z.mul_le_mono_nonneg_r; lia).
    lia. }
  cbn [SFdiv xorb]. unfold SFdiv_core_binary. cbn [Zdigits2]. fold fexp64.
  fold F. set (e' := Z.min (fexp64 F) (ex - ey)).
  assert (He' : e' <= e).
  { pose proof (fexp64_mono F (Z.log2 k + 1) HF). subst e'. lia. }
  set (s := ex - ey - e').
  assert (Hs : 0 <= s) by (subst s e'; lia).
  set (m' := match s with Z0 => Zpos mx | Zpos _ => Z.shiftl (Zpos mx) s
             | Zneg _ => 0 end).
  assert (Hm' : m' = Zpos mx * 2 ^ s).
  { subst m'. destruct s as [|p|p] eqn:Es; [|apply Z.shiftl_mul_pow2|]; lia. }
  assert (Hq : m' = k * 2 ^ (- e') * Zpos my).
  { rewrite Hm'. unfold units in Hux.
    pose proof (pow2_pos (ey + 1074)). pose proof (pow2_pos (- e')).
    assert (H1 : 2 ^ s * 2 ^ (ey + 1074) = 2 ^ (ex + 1074) * 2 ^ (- e')).
    { rewrite <- !Z.pow_add_r by lia. f_equal. subst s. lia. }
    nia. }
  rewrite Hq, div_eucl_exact, new_location_exact by lia.
  pose proof (pow2_pos (- e')).
  destruct (k * 2 ^ (- e')) as [|pq|pq] eqn:Epq; [nia | | nia].
  right. exists m, e. split; [|split; assumption].
  apply round_aux_canonical; [assumption | assumption |].
  rewrite <- Epq. unfold units, unity in Hu.
  assert (H1 : 2 ^ 1074 = 2 ^ (- e) * 2 ^ (e + 1074)).
  { rewrite <- Z.pow_add_r by lia. f_equal. lia. }
  assert (H2 : 2 ^ (- e') = 2 ^ (- e) * 2 ^ (e - e')).
  { rewrite <- Z.pow_add_r by lia. f_equal. lia. }
  pose proof (pow2_pos (e + 1074)). rewrite H1 in Hu. rewrite H2. nia.
Qed.

(** [x % y] for a positive [y] is exact. *)
Lemma rem_exact (x : spec_float) (ux : Z) (my : positive) (ey : Z) :
  measures x ux -> canonical my ey ->
  exists r, PyFloat.rem x (S754_finite false my ey) = Return r
            /\ measures r (ux mod units (Zpos my) ey).
Proof.
  intros Hx Hy. pose proof (fmod_exact x ux my ey Hx Hy) as Hmd.
  unfold PyFloat.rem. cbn [PyFloat.is_zero PyFloat.is_negative].
  rewrite (measures_is_zero _ _ Hmd), (measures_not_negative _ _ Hmd).
  destruct (Z.eqb_spec (ux mod units (Zpos my) ey) 0) as [E|E].
  - eexists. split; [reflexivity|]. left. split; [reflexivity | assumption].
  - eexists. split; [reflexivity | exact Hmd].
Qed.

Lemma zero_like_div (mx my : positive) (ex ey : Z) :
  PyFloat.zero_like
    (SFdiv PyFloat.prec PyFloat.emax (S754_finite false mx ex)
       (S754_finite false my ey))
  = S754_zero false.
Proof.
  cbn [SFdiv xorb].
  destruct (SFdiv_core_binary _ _ _ _ _ _) as [[mz ez] lz].
  unfold binary_round_aux.
  destruct (shr_fexp _ _ mz ez lz) as [mrs' e'].
  destruct (shr_fexp _ _ _ e' loc_Exact) as [mrs'' e''].
  destruct (shr_m mrs'') as [|p|p]; try reflexivity.
  destruct (e'' <=? _); reflexivity.
Qed.

Lemma half_not_below_zero :
  SFltb (PyFloat.of_ratio 1 2) (S754_zero false) = false.
Proof. reflexivity. Qed.

(** [x // y], for a positive [y] that is a multiple of the last place of
    [x] and a quotient below [2^53], is the whole quotient. *)
Lemma floordiv_exact (x : spec_float) (ux : Z) (my : positive) (ey : Z) :
  measures x ux -> canonical my ey ->
  (ulp_units x | units (Zpos my) ey) ->
  ux / units (Zpos my) ey < 2 ^ 53 ->
  exists d, PyFloat.floordiv x (S754_finite false my ey) = Return d
            /\ measures d (ux / units (Zpos my) ey * unity).
Proof.
  intros Hx Hy Hulp Hk.
  pose proof (canonical_range my ey Hy) as [Hey _].
  pose proof (units_pos my ey ltac:(lia)) as Huy.
  pose proof (measures_nonneg x ux Hx) as Hux.
  set (uy := units (Zpos my) ey) in *.
  pose proof (fmod_exact x ux my ey Hx Hy) as Hmd. fold uy in Hmd.
  pose proof (Z.mod_pos_bound ux uy Huy) as Hmod.
  pose proof (Z.div_mod ux uy ltac:(lia)) as Hdm.
  pose proof (Z.div_pos ux uy Hux Huy) as Hk0.
  assert (Hsub : measures (SFsub PyFloat.prec PyFloat.emax x
                             (PyFloat.fmod x (S754_finite false my ey)))
                   (ux / uy * uy)).
  { replace (ux / uy * uy) with (ux - ux mod uy) by lia.
    apply sub_exact; [assumption | assumption | |].
    - apply Z.mod_le; lia.
    - replace (ux mod uy) with (ux - uy * (ux / uy)) by lia.
      apply Z.divide_sub_r.
      + destruct Hx as [[-> ->] | (mx & ex & -> & Hcx & <-)].
        * apply Z.divide_0_r.
        * apply units_divide. apply (canonical_range mx ex Hcx).
      + now apply Z.divide_mul_l. }
  unfold PyFloat.floordiv. cbn [PyFloat.is_zero PyFloat.is_negative].
  rewrite (measures_not_negative _ _ Hmd). cbn [Bool.eqb negb].
  rewrite andb_false_r.
  destruct (Z.eq_dec (ux / uy) 0) as [E0 | E0].
  - rewrite E0 in *. cbn [Z.mul] in *.
    rewrite (measures_zero _ Hsub). cbn [SFdiv xorb PyFloat.is_zero].
    eexists. split; [reflexivity|]. left. split; [|reflexivity].
    destruct Hx as [[-> ->] | (mx & ex & -> & Hcx & <-)].
    + reflexivity.
    + apply zero_like_div.
  - pose proof (div_exact _ my ey (ux / uy) Hy ltac:(lia) Hsub) as Hdiv.
    rewrite (measures_is_zero _ _ Hdiv).
    assert (Hnz : ux / uy * unity <> 0).
    { unfold unity. pose proof (pow2_pos 1074). nia. }
    apply Z.eqb_neq in Hnz. rewrite Hnz.
    rewrite (floor_whole _ _ Hdiv), (sub_self _ _ Hdiv), half_not_below_zero.
    eexists. split; [reflexivity | exact Hdiv].
Qed.

Lemma shr_1_bounds (r : shr_record) :
  0 <= shr_m r -> 0 <= shr_m (shr_1 r) <= shr_m r.
Proof.
  destruct r as [m b c]. cbn [shr_m]. intros Hm.
  destruct m as [|[p|p|]|p]; cbn [shr_1 shr_m]; lia.
Qed.

Lemma iter_shr_bounds (n : positive) :
  forall r, 0 <= shr_m r -> 0 <= shr_m (iter_pos shr_1 n r) <= shr_m r.
Proof.
  induction n as [n IH | n IH |]; intros r Hr; cbn [iter_pos].
  - pose proof (shr_1_bounds r Hr).
    pose proof (IH (shr_1 r) ltac:(lia)).
    pose proof (IH (iter_pos shr_1 n (shr_1 r)) ltac:(lia)). lia.
  - pose proof (IH r Hr).
    pose proof (IH (iter_pos shr_1 n r) ltac:(lia)). lia.
  - now apply shr_1_bounds.
Qed.

Lemma shr_bounds (r : shr_record) (e n : Z) :
  0 <= shr_m r ->
  0 <= shr_m (fst (shr r e n)) <= shr_m r
  /\ snd (shr r e n) = e + Z.max 0 n.
Proof.
  intros Hr. destruct n as [|p|p]; cbn [shr fst snd].
  - split; lia.
  - split; [now apply iter_shr_bounds | lia].
  - split; lia.
Qed.

Lemma round_nearest_even_bounds (m : Z) (l : location) :
  m <= round_nearest_even m l <= m + 1.
Proof.
  destruct l as [|[]]; cbn [round_nearest_even]; try lia.
  destruct (Z.even m); lia.
Qed.

Lemma Zdigits2_bound (z k : Z) : 0 <= z < 2 ^ k -> 0 <= k -> Zdigits2 z <= k.
Proof.
  intros Hz Hk. destruct z as [|p|p]; cbn [Zdigits2]; [lia | | lia].
  rewrite digits_log2.
  assert (Z.log2 (Zpos p) < k) by (apply Z.log2_lt_pow2; lia). lia.
Qed.

(** Rounding a moderate product gives zero or a finite number, which
    [int] accepts. *)
Lemma round_aux_returns (s : bool) (p : positive) (e : Z) :
  Zpos p < 2 ^ 200 -> e <= 0 ->
  exists z,
    PyFloat.to_int
      (binary_round_aux PyFloat.prec PyFloat.emax s (Zpos p) e loc_Exact)
    = Return z.
Proof.
  intros Hp He. unfold binary_round_aux, shr_fexp. fold fexp64.
  cbn [shr_record_of_loc].
  set (r0 := Build_shr_record (Zpos p) false false).
  set (n1 := fexp64 (Zdigits2 (Zpos p) + e) - e).
  pose proof (shr_bounds r0 e n1 ltac:(cbn; lia)) as [Hm1 He1].
  destruct (shr r0 e n1) as [mrs' e']. cbn [fst snd shr_m] in Hm1, He1.
  unfold r0 in Hm1. cbn [shr_m] in Hm1.
  set (m1 := round_nearest_even (shr_m mrs') (loc_of_shr_record mrs')).
  pose proof (round_nearest_even_bounds (shr_m mrs')
                (loc_of_shr_record mrs')) as Hr. fold m1 in Hr.
  set (r1 := Build_shr_record m1 false false).
  set (n2 := fexp64 (Zdigits2 m1 + e') - e').
  pose proof (shr_bounds r1 e' n2 ltac:(cbn; lia)) as [Hm2 He2].
  destruct (shr r1 e' n2) as [mrs'' e'']. cbn [fst snd] in Hm2, He2.
  unfold r1 in Hm2. cbn [shr_m] in Hm2.
  assert (Hd0 : Zdigits2 (Zpos p) <= 200) by (apply Zdigits2_bound; lia).
  assert (Hd1 : Zdigits2 m1 <= 201).
  { apply Zdigits2_bound; [|lia].
    replace 201 with (200 + 1) by lia. rewrite Z.pow_add_r by lia.
    change (2 ^ 1) with 2. lia. }
  assert (He'' : e'' <= 971).
  { subst n1 n2. rewrite fexp64_eq in *. lia. }
  destruct (shr_m mrs'') as [|q|q]; [eexists; reflexivity | | lia].
  replace (e'' <=? PyFloat.emax - PyFloat.prec) with true.
  - eexists; reflexivity.
  - symmetry. apply Z.leb_le. unfold PyFloat.emax, PyFloat.prec. lia.
Qed.

(** [float(z)] for a whole number below [2^53]. *)
Lemma of_Z_canonical (z : Z) :
  0 < z < 2 ^ 53 ->
  exists m e, PyFloat.of_Z z = S754_finite false m e /\ canonical m e
              /\ units (Zpos m) e = z * unity.
Proof.
  intros Hz. apply measures_finite.
  - change (z * unity) with (units z 0). apply (normalize_measures z 0 0); try lia.
    intros _. change (units z 0) with (z * unity).
    rewrite log2_units_one by lia. split; [|split].
    + assert (Z.log2 z < 53) by (apply Z.log2_lt_pow2; lia).
      rewrite fexp64_eq. lia.
    + lia.
    + exists z. reflexivity.
  - unfold unity. pose proof (pow2_pos 1074). nia.
Qed.

Lemma canonical_small_exp (m : positive) (e : Z) :
  canonical m e -> units (Zpos m) e < 2 ^ 53 * unity -> e <= 0.
Proof.
  intros Hc Hu. pose proof (canonical_range m e Hc) as [He _].
  rewrite <- (canonical_fexp_units m e Hc), fexp64_eq.
  assert (Z.log2 (units (Zpos m) e) < 53 + 1074).
  { apply Z.log2_lt_pow2; [now apply units_pos|].
    rewrite Z.pow_add_r by lia. exact Hu. }
  lia.
Qed.

(** Below [2^53] the last place divides every whole number. *)
Lemma ulp_divides_whole (x : spec_float) (u k : Z) :
  measures x u -> u < 2 ^ 53 * unity -> (ulp_units x | k * unity).
Proof.
  intros [[-> ->] | (m & e & -> & Hc & <-)] Hu; cbn [ulp_units].
  - apply Z.divide_1_l.
  - pose proof (canonical_small_exp m e Hc Hu).
    pose proof (canonical_range m e Hc) as [He _].
    exists (k * 2 ^ (- e)). unfold unity. rewrite <- Z.mul_assoc.
    rewrite <- Z.pow_add_r by lia. do 2 f_equal. lia.
Qed.

Lemma mantissa_bound (m : positive) (e : Z) : canonical m e -> Zpos m < 2 ^ 53.
Proof.
  intros Hc. pose proof (canonical_range m e Hc) as [_ Hd].
  pose proof (digits_bounds m) as [_ Hm].
  assert (2 ^ Zpos (digits2_pos m) <= 2 ^ 53) by (apply Z.pow_le_mono_r; lia).
  lia.
Qed.

(** [int(r * 1000)] returns for a fraction [r]. *)
Lemma thousandths_return (r : spec_float) (u : Z) :
  measures r u -> u < unity ->
  exists ms,
    PyFloat.to_int
      (SFmul PyFloat.prec PyFloat.emax r (PyFloat.of_Z 1000)) = Return ms.
Proof.
  intros Hr Hu.
  destruct (of_Z_canonical 1000 ltac:(lia)) as (m & e & -> & Hc & Hm).
  assert (He : e <= 0).
  { apply (canonical_small_exp m e Hc). rewrite Hm. unfold unity.
    pose proof (pow2_pos 1074). nia. }
  pose proof (pow2_pos 1074) as Hone. fold unity in Hone.
  destruct Hr as [[-> ->] | (mr & er & -> & Hcr & <-)].
  - exists 0. reflexivity.
  - cbn [SFmul]. apply round_aux_returns.
    + pose proof (mantissa_bound m e Hc). pose proof (mantissa_bound mr er Hcr).
      rewrite Pos2Z.inj_mul.
      assert (Zpos mr * Zpos m < 2 ^ 53 * 2 ^ 53)
        by (apply Z.mul_lt_mono_nonneg; lia).
      rewrite <- Z.pow_add_r in H1 by lia.
      assert (2 ^ (53 + 53) <= 2 ^ 200) by (apply Z.pow_le_mono_r; lia).
      lia.
    + assert (er <= 0); [|lia].
      apply (canonical_small_exp mr er Hcr). nia.
Qed.

(** The hours, minutes and seconds of a time stamp are the whole
    quotients and remainders of the value; the thousandths come from the
    fraction [r]. *)
Lemma time_fields_parts (x : spec_float) (u : Z) :
  measures x u -> u < 2 ^ 53 * unity ->
  exists r,
    measures r (u mod unity)
    /\ AudioTranscriber.time_fields x
       = PyFloat.bind
           (PyFloat.to_int
              (SFmul PyFloat.prec PyFloat.emax r (PyFloat.of_Z 1000)))
           (fun ms => Return (u / (3600 * unity),
                              u mod (3600 * unity) / (60 * unity),
                              u mod (60 * unity) / unity,
                              ms)).
Proof.
  intros Hx Hu.
  pose proof (pow2_pos 1074 ltac:(lia)) as Hone. fold unity in Hone.
  pose proof (measures_nonneg x u Hx) as Hu0.
  destruct (of_Z_canonical 3600 ltac:(lia)) as (mh & eh & Eh & Hch & Uh).
  destruct (of_Z_canonical 60 ltac:(lia)) as (mm & em & Em & Hcm & Um).
  destruct (of_Z_canonical 1 ltac:(lia)) as (m1 & e1 & E1 & Hc1 & U1).
  rewrite Z.mul_1_l in U1.
  (* hours *)
  destruct (floordiv_exact x u mh eh Hx Hch) as (dh & Edh & Hdh).
  { rewrite Uh. now apply (ulp_divides_whole x u). }
  { rewrite Uh. apply Z.div_lt_upper_bound; nia. }
  (* minutes *)
  destruct (rem_exact x u mh eh Hx Hch) as (rh & Erh & Hrh).
  rewrite Uh in Hdh, Hrh.
  pose proof (Z.mod_pos_bound u (3600 * unity) ltac:(lia)) as Hbh.
  assert (Hrh53 : u mod (3600 * unity) < 2 ^ 53 * unity) by nia.
  destruct (floordiv_exact rh _ mm em Hrh Hcm) as (dm & Edm & Hdm).
  { rewrite Um. now apply (ulp_divides_whole rh (u mod (3600 * unity))). }
  { rewrite Um. apply Z.div_lt_upper_bound; nia. }
  rewrite Um in Hdm.
  (* seconds *)
  destruct (rem_exact x u mm em Hx Hcm) as (rm & Erm & Hrm).
  rewrite Um in Hrm.
  (* thousandths *)
  destruct (rem_exact x u m1 e1 Hx Hc1) as (r1 & Er1 & Hr1).
  rewrite U1 in Hr1.
  exists r1. split; [exact Hr1|].
  unfold AudioTranscriber.time_fields.
  rewrite Eh, Em, E1, Edh, Erh, Erm, Er1.
  cbn [PyFloat.bind]. rewrite Edm. cbn [PyFloat.bind].
  rewrite (to_int_exact _ _ Hdh), (to_int_exact _ _ Hdm),
    (to_int_exact _ _ Hrm).
  cbn [PyFloat.bind]. rewrite !Z.div_mul by lia. reflexivity.
Qed.

(** The conversion returns for every non-negative double below [2^53]. *)
Lemma time_fields_exact (x : spec_float) (u : Z) :
  measures x u -> u < 2 ^ 53 * unity ->
  exists ms,
    AudioTranscriber.time_fields x
    = Return (u / (3600 * unity),
              u mod (3600 * unity) / (60 * unity),
              u mod (60 * unity) / unity,
              ms).
Proof.
  intros Hx Hu.
  pose proof (pow2_pos 1074 ltac:(lia)) as Hone. fold unity in Hone.
  destruct (time_fields_parts x u Hx Hu) as (r & Hr & ->).
  pose proof (Z.mod_pos_bound u unity Hone) as Hb.
  destruct (thousandths_return r _ Hr ltac:(lia)) as (ms & ->).
  exists ms. reflexivity.
Qed.

End BinaryFloat.

(** ** Rounding that is not exact *)

Section Rounding.
Open Scope Z_scope.

Lemma shr_1_half (r : shr_record) :
  0 <= shr_m r -> shr_m (shr_1 r) = shr_m r / 2.
Proof.
  destruct r as [m b c]. cbn [shr_m]. intros Hm.
  destruct m as [|[p|p|]|p]; cbn [shr_1 shr_m].
  - reflexivity.
  - apply (Z.div_unique_pos _ _ _ 1); lia.
  - apply (Z.div_unique_pos _ _ _ 0); lia.
  - reflexivity.
  - lia.
Qed.

Lemma iter_shr_div (n : positive) :
  forall r, 0 <= shr_m r ->
    shr_m (iter_pos shr_1 n r) = shr_m r / 2 ^ Zpos n.
Proof.
  induction n as [n IH | n IH |]; intros r Hr; cbn [iter_pos].
  - pose proof (shr_1_bounds r Hr).
    pose proof (iter_shr_bounds n (shr_1 r) ltac:(lia)).
    rewrite IH, IH, shr_1_half by lia.
    rewrite !Z.div_div by (try apply pow2_pos; lia).
    f_equal. replace (Zpos n~1) with (1 + Zpos n + Zpos n) by lia.
    rewrite !Z.pow_add_r by lia. change (2 ^ 1) with 2. ring.
  - pose proof (iter_shr_bounds n r Hr).
    rewrite IH, IH by lia.
    rewrite !Z.div_div by (try apply pow2_pos; lia).
    f_equal. replace (Zpos n~0) with (Zpos n + Zpos n) by lia.
    rewrite !Z.pow_add_r by lia. ring.
  - rewrite shr_1_half by assumption. reflexivity.
Qed.

Lemma shr_record_of_loc_m (m : Z) (l : location) :
  shr_m (shr_record_of_loc m l) = m.
Proof. destruct l as [|[]]; reflexivity. Qed.

(** Shifting right by [n >= 0] places divides the mantissa by [2^n]. *)
Lemma shr_div (r : shr_record) (e n : Z) :
  0 <= shr_m r -> 0 <= n ->
  shr_m (fst (shr r e n)) = shr_m r / 2 ^ n /\ snd (shr r e n) = e + n.
Proof.
  intros Hr Hn. destruct n as [|p|p]; cbn [shr fst snd]; [| |lia].
  - change (2 ^ 0) with 1. rewrite Z.div_1_r. split; lia.
  - split; [now apply iter_shr_div | reflexivity].
Qed.

Lemma shr_1_round (r : shr_record) :
  0 <= shr_m r -> shr_r (shr_1 r) = Z.odd (shr_m r).
Proof.
  destruct r as [m b c]. cbn [shr_m]. intros Hm.
  destruct m as [|[p|p|]|p]; cbn [shr_1 shr_r]; try reflexivity. lia.
Qed.

(** The round bit after [n] shifts is bit [n - 1] of the mantissa. *)
Lemma iter_shr_round (n : positive) :
  forall r, 0 <= shr_m r ->
    shr_r (iter_pos shr_1 n r) = Z.odd (shr_m r / 2 ^ (Zpos n - 1)).
Proof.
  induction n as [n IH | n IH |]; intros r Hr; cbn [iter_pos].
  - pose proof (shr_1_bounds r Hr).
    pose proof (iter_shr_bounds n (shr_1 r) ltac:(lia)).
    rewrite IH by lia. rewrite iter_shr_div, shr_1_half by lia.
    rewrite !Z.div_div by (try apply pow2_pos; lia).
    do 2 f_equal.
    replace (Zpos n~1 - 1) with (1 + Zpos n + (Zpos n - 1)) by lia.
    rewrite !Z.pow_add_r by lia. change (2 ^ 1) with 2. ring.
  - pose proof (iter_shr_bounds n r Hr).
    rewrite IH by lia. rewrite iter_shr_div by lia.
    rewrite !Z.div_div by (try apply pow2_pos; lia).
    do 2 f_equal.
    replace (Zpos n~0 - 1) with (Zpos n + (Zpos n - 1)) by lia.
    rewrite !Z.pow_add_r by lia. ring.
  - rewrite shr_1_round by assumption. change (2 ^ (1 - 1)) with 1.
    now rewrite Z.div_1_r.
Qed.

(** Nothing is added to a mantissa whose dropped bits make less than half
    a place. *)
Lemma shr_round_down (m e n : Z) :
  0 <= m -> 0 <= n -> 2 * (m mod 2 ^ n) < 2 ^ n ->
  let mrs := fst (shr (Build_shr_record m false false) e n) in
  round_nearest_even (shr_m mrs) (loc_of_shr_record mrs) = shr_m mrs.
Proof.
  intros Hm Hn Hlow. destruct n as [|p|p]; [reflexivity | | lia].
  cbv zeta. cbn [shr fst].
  set (mrs := iter_pos shr_1 p (Build_shr_record m false false)).
  assert (Hr : shr_r mrs = false).
  { unfold mrs. rewrite iter_shr_round by (cbn; lia). cbn [shr_m].
    pose proof (pow2_pos (Zpos p - 1) ltac:(lia)) as Hp.
    assert (H2 : 2 ^ Zpos p = 2 * 2 ^ (Zpos p - 1)).
    { replace (Zpos p) with (1 + (Zpos p - 1)) at 1 by lia.
      rewrite Z.pow_add_r by lia. reflexivity. }
    pose proof (Z.div_mod m (2 ^ Zpos p) ltac:(lia)) as Hdm.
    pose proof (Z.mod_pos_bound m (2 ^ Zpos p) ltac:(lia)) as Hmb.
    rewrite <- (Z.div_unique_pos m (2 ^ (Zpos p - 1)) (2 * (m / 2 ^ Zpos p))
                  (m mod 2 ^ Zpos p)); [|lia|nia].
    rewrite Z.odd_mul. reflexivity. }
  destruct mrs as [m' r' s']. cbn [shr_r] in Hr. subst r'.
  destruct s'; reflexivity.
Qed.

Lemma Zdigits2_log2 (z : Z) : 0 < z -> Zdigits2 z = Z.log2 z + 1.
Proof. destruct z; try lia. intros _. apply digits_log2. Qed.


(** Rounding is faithful: the result is one of the two neighbours of the
    value on the grid of the exponent its magnitude calls for. *)
Lemma round_aux_faithful (p : positive) (e : Z) (l : location) :
  let t := fexp64 (Zpos (digits2_pos p) + e) in
  e <= t -> t <= 970 ->
  exists u,
    measures (binary_round_aux PyFloat.prec PyFloat.emax false (Zpos p) e l) u
    /\ Zpos p / 2 ^ (t - e) * 2 ^ (t + 1074) <= u
       <= (Zpos p / 2 ^ (t - e) + 1) * 2 ^ (t + 1074)
    /\ (l = loc_Exact -> 2 * (Zpos p mod 2 ^ (t - e)) < 2 ^ (t - e) ->
        u = Zpos p / 2 ^ (t - e) * 2 ^ (t + 1074)).
Proof.
  intros t Het Ht.
  assert (Ht0 : -1074 <= t) by (subst t; rewrite fexp64_eq; lia).
  assert (Htd : Zpos (digits2_pos p) + e - 53 <= t)
    by (subst t; rewrite fexp64_eq; lia).
  set (n := t - e). set (N' := Zpos p / 2 ^ n). set (g := 2 ^ (t + 1074)).
  assert (Hg : 0 < g) by (apply pow2_pos; lia).
  assert (Hn : 0 < 2 ^ n) by (apply pow2_pos; lia).
  pose proof (digits_bounds p) as [Hlo Hhi].
  assert (HN0 : 0 <= N') by (apply Z.div_pos; lia).
  assert (HN53 : N' < 2 ^ 53).
  { apply Z.div_lt_upper_bound; [assumption|].
    rewrite <- Z.pow_add_r by lia.
    assert (2 ^ Zpos (digits2_pos p) <= 2 ^ (n + 53))
      by (apply Z.pow_le_mono_r; lia).
    lia. }
  assert (Hnormal : t = -1074 \/ 2 ^ 52 <= N').
  { destruct (Z.eq_dec t (-1074)) as [|Hne]; [now left | right].
    assert (Hteq : t = Zpos (digits2_pos p) + e - 53)
      by (subst t; rewrite fexp64_eq in *; lia).
    apply Z.div_le_lower_bound; [assumption|].
    rewrite <- Z.pow_add_r by lia.
    replace (n + 52) with (Zpos (digits2_pos p) - 1) by lia. assumption. }
  unfold binary_round_aux, shr_fexp. cbn [Zdigits2]. fold fexp64. fold t n.
  pose proof (shr_div (shr_record_of_loc (Zpos p) l) e n) as Hshr.
  rewrite shr_record_of_loc_m in Hshr.
  destruct (Hshr ltac:(lia) ltac:(lia)) as [Hm' He1]. clear Hshr.
  assert (Hdown : l = loc_Exact -> 2 * (Zpos p mod 2 ^ n) < 2 ^ n ->
            let mrs := fst (shr (shr_record_of_loc (Zpos p) l) e n) in
            round_nearest_even (shr_m mrs) (loc_of_shr_record mrs) = N').
  { intros -> Hlow. cbn [shr_record_of_loc]. cbv zeta.
    rewrite (shr_round_down (Zpos p) e n) by lia.
    cbn [shr_record_of_loc] in Hm'. exact Hm'. }
  destruct (shr (shr_record_of_loc (Zpos p) l) e n) as [mrs' e1].
  cbn [fst snd] in Hm', He1, Hdown. fold N' in Hm'.
  replace e1 with t by lia. clear He1 e1.
  pose proof (round_nearest_even_bounds (shr_m mrs') (loc_of_shr_record mrs'))
    as Hm1.
  set (m1 := round_nearest_even (shr_m mrs') (loc_of_shr_record mrs')) in *.
  rewrite Hm' in Hm1. cbn [shr_record_of_loc].
  destruct (Z.eq_dec m1 (2 ^ 53)) as [Hcarry | Hnocarry].
  - (* the mantissa has grown to 54 bits *)
    rewrite Hcarry.
    replace (fexp64 (Zdigits2 (2 ^ 53) + t) - t) with 1
      by (change (Zdigits2 (2 ^ 53)) with 54; rewrite fexp64_eq; lia).
    cbn [shr iter_pos]. change (2 ^ 53) with (Zpos (xO (Z.to_pos (2 ^ 52)))).
    cbn [shr_1 orb shr_m].
    replace (t + 1 <=? PyFloat.emax - PyFloat.prec) with true
      by (symmetry; apply Z.leb_le; unfold PyFloat.emax, PyFloat.prec; lia).
    exists (m1 * g).
    split; [|split; [nia | intros Hl Hlow; now rewrite (Hdown Hl Hlow)]].
    right. exists (Z.to_pos (2 ^ 52)), (t + 1).
    split; [reflexivity|]. split.
    + split; [|lia].
      change (Zpos (digits2_pos (Z.to_pos (2 ^ 52)))) with 53.
      rewrite fexp64_eq. lia.
    + rewrite Hcarry. unfold units, g.
      replace (t + 1 + 1074) with (1 + (t + 1074)) by lia.
      rewrite Z.pow_add_r by lia.
      change (Zpos (Z.to_pos (2 ^ 52))) with (2 ^ 52).
      change (2 ^ 53) with (2 ^ 52 * 2 ^ 1). ring.
  - assert (Hm153 : m1 < 2 ^ 53) by lia.
    assert (Hd : Zdigits2 m1 <= 53) by (apply Zdigits2_bound; lia).
    rewrite shr_zero_or_neg by (rewrite fexp64_eq; lia).
    cbn [shr_m].
    exists (m1 * g).
    split; [|split; [nia | intros Hl Hlow; now rewrite (Hdown Hl Hlow)]].
    destruct m1 as [|q|q] eqn:Eq; [left; split; [reflexivity | lia] | | lia].
    replace (t <=? PyFloat.emax - PyFloat.prec) with true
      by (symmetry; apply Z.leb_le; unfold PyFloat.emax, PyFloat.prec; lia).
    right. exists q, t. split; [reflexivity|]. split; [|reflexivity].
    split; [|lia]. cbn [Zdigits2] in Hd. rewrite fexp64_eq.
    destruct Hnormal as [-> | H52]; [lia|].
    assert (Zpos (digits2_pos q) = 53); [|lia].
    apply digits_unique. change (53 - 1) with 52. lia.
Qed.

Lemma div_eucl_fst (a b : Z) : fst (Z.div_eucl a b) = a / b.
Proof. reflexivity. Qed.

(** The double nearest to [n / d] lies on the grid of exponent [t], next
    to the quotient; [t] is at most [k - 53] for a quotient below [2^k]. *)
Lemma of_ratio_faithful (n d k : Z) :
  0 < n -> 0 < d -> d <= n * 2 ^ 1021 -> n < d * 2 ^ k -> 0 <= k <= 53 ->
  exists u t,
    measures (PyFloat.of_ratio n d) u
    /\ -1074 <= t <= k - 53
    /\ n * 2 ^ (- t) / d * 2 ^ (t + 1074) <= u
       <= (n * 2 ^ (- t) / d + 1) * 2 ^ (t + 1074).
Proof.
  intros Hn Hd Hlow Hk Hk53.
  destruct n as [|pn|pn]; [lia | | lia].
  destruct d as [|pd|pd]; [lia | | lia].
  unfold PyFloat.of_ratio, SFdiv_core_binary.
  cbn [Z.abs Zdigits2 Z.ltb Z.compare xorb]. fold fexp64.
  rewrite !Z.add_0_r. change (0 - 0) with 0.
  set (F := Zpos (digits2_pos pn) - Zpos (digits2_pos pd)).
  pose proof (digits_bounds pn) as [Hnlo Hnhi].
  pose proof (digits_bounds pd) as [Hdlo Hdhi].
  assert (HFk : F <= k).
  { assert (2 ^ (Zpos (digits2_pos pn) - 1) < 2 ^ (Zpos (digits2_pos pd) + k)).
    { rewrite Z.pow_add_r by lia. pose proof (pow2_pos k). nia. }
    apply Z.pow_lt_mono_r_iff in H; lia. }
  assert (HFlow : -1021 <= F).
  { assert (2 ^ (Zpos (digits2_pos pd) - 1)
            < 2 ^ (Zpos (digits2_pos pn) + 1021)).
    { rewrite Z.pow_add_r by lia. pose proof (pow2_pos 1021). nia. }
    apply Z.pow_lt_mono_r_iff in H; lia. }
  assert (He' : Z.min (fexp64 F) 0 = F - 53) by (rewrite fexp64_eq; lia).
  rewrite He'. set (e' := F - 53). set (s := 0 - e').
  assert (Hs : 0 <= s) by (subst s e'; lia).
  replace (match s with 0 => Zpos pn | Zpos _ => Z.shiftl (Zpos pn) s
           | Zneg _ => 0 end) with (Zpos pn * 2 ^ s)
    by (destruct s; [change (2 ^ 0) with 1; lia
                    | now rewrite Z.shiftl_mul_pow2 | lia]).
  pose proof (div_eucl_fst (Zpos pn * 2 ^ s) (Zpos pd)) as Hq.
  destruct (Z.div_eucl (Zpos pn * 2 ^ s) (Zpos pd)) as [q r].
  cbn [fst] in Hq. subst q.
  set (q := Zpos pn * 2 ^ s / Zpos pd).
  pose proof (pow2_pos s ltac:(lia)) as Hps.
  assert (Hq52 : 2 ^ 52 <= q).
  { apply Z.div_le_lower_bound; [lia|].
    assert (2 ^ (Zpos (digits2_pos pd) + 52)
            = 2 ^ (Zpos (digits2_pos pn) - 1) * 2 ^ s).
    { rewrite <- Z.pow_add_r by lia. f_equal. subst s e' F. lia. }
    rewrite Z.pow_add_r in H by lia. nia. }
  assert (Hqk : q < 2 ^ (k + s)).
  { apply Z.div_lt_upper_bound; [lia|].
    rewrite Z.pow_add_r by lia. nia. }
  destruct q as [|pq|pq] eqn:Eq; [lia | | lia].
  assert (Hdq : 53 <= Zpos (digits2_pos pq) <= k + s).
  { rewrite digits_log2.
    assert (52 <= Z.log2 (Zpos pq)) by (apply Z.log2_le_pow2; lia).
    assert (Z.log2 (Zpos pq) < k + s) by (apply Z.log2_lt_pow2; lia).
    lia. }
  destruct (round_aux_faithful pq e' (new_location (Zpos pd) r))
    as (u & Hu & Hb & _).
  { rewrite fexp64_eq. lia. }
  { rewrite fexp64_eq. subst s. lia. }
  set (t := fexp64 (Zpos (digits2_pos pq) + e')) in *.
  assert (Ht : e' <= t <= k - 53) by (subst t s; rewrite fexp64_eq; lia).
  exists u, t. split; [exact Hu|]. split; [subst e'; lia|].
  assert (Hdiv : Zpos pq / 2 ^ (t - e') = Zpos pn * 2 ^ (- t) / Zpos pd).
  { rewrite <- Eq. unfold q. pose proof (pow2_pos (t - e') ltac:(lia)).
    rewrite Z.div_div by lia.
    replace (2 ^ s) with (2 ^ (- t) * 2 ^ (t - e'))
      by (rewrite <- Z.pow_add_r by lia; f_equal; subst s; lia).
    rewrite Z.mul_assoc, Z.div_mul_cancel_r by lia. reflexivity. }
  rewrite <- Hdiv. exact Hb.
Qed.

(** A product by a normal double is rounded faithfully: the result and
    the exact product lie between the same two neighbours [n * g] and
    [(n + 1) * g] of the grid. *)
Lemma mul_faithful (x : spec_float) (ux : Z) (my : positive) (ey k : Z) :
  measures x ux -> 0 < ux -> canonical my ey -> 2 ^ 52 <= Zpos my ->
  ux * units (Zpos my) ey < 2 ^ k * (unity * unity) -> 0 <= k <= 53 ->
  exists u n g,
    measures (SFmul PyFloat.prec PyFloat.emax x (S754_finite false my ey)) u
    /\ 0 < g /\ g * 2 ^ (53 - k) <= unity
    /\ n * g <= u <= (n + 1) * g
    /\ n * g * unity <= ux * units (Zpos my) ey < (n + 1) * g * unity
    /\ (2 * (ux * units (Zpos my) ey - n * g * unity) < g * unity ->
        u = n * g).
Proof.
  intros Hx Hux Hcy Hmy Hk Hkr.
  destruct (measures_finite x ux Hx Hux) as (mx & ex & -> & Hcx & Eux).
  pose proof (canonical_range mx ex Hcx) as [Hex _].
  pose proof (canonical_range my ey Hcy) as [Hey _].
  cbn [SFmul xorb].
  set (e := ex + ey).
  assert (HP : ux * units (Zpos my) ey = Zpos (mx * my) * 2 ^ (e + 2148)).
  { rewrite <- Eux. unfold units. rewrite Pos2Z.inj_mul.
    replace (e + 2148) with ((ex + 1074) + (ey + 1074)) by (subst e; lia).
    rewrite (Z.pow_add_r 2 (ex + 1074) (ey + 1074)) by lia. ring. }
  pose proof (digits_bounds (mx * my)) as [Hlo Hhi].
  pose proof (pow2_pos (e + 2148) ltac:(subst e; lia)) as Hpe.
  assert (Hd53 : 53 <= Zpos (digits2_pos (mx * my))).
  { rewrite digits_log2.
    assert (52 <= Z.log2 (Zpos (mx * my))); [|lia].
    apply Z.log2_le_pow2; [lia|]. rewrite Pos2Z.inj_mul. nia. }
  assert (Hdk : Zpos (digits2_pos (mx * my)) + e <= k).
  { assert (H : 2 ^ (Zpos (digits2_pos (mx * my)) - 1) * 2 ^ (e + 2148)
                < 2 ^ k * (unity * unity)) by nia.
    unfold unity in H. rewrite <- !Z.pow_add_r in H by lia.
    apply Z.pow_lt_mono_r_iff in H; lia. }
  destruct (round_aux_faithful (mx * my) e loc_Exact)
    as (u & Hu & Hb & Hdn).
  { rewrite fexp64_eq. lia. }
  { rewrite fexp64_eq. lia. }
  set (t := fexp64 (Zpos (digits2_pos (mx * my)) + e)) in *.
  assert (Ht : e <= t /\ -1074 <= t <= k - 53)
    by (subst t; rewrite fexp64_eq; lia).
  pose proof (pow2_pos (t - e) ltac:(lia)) as Hpt.
  pose proof (pow2_pos (t + 1074) ltac:(lia)) as Hg.
  exists u, (Zpos (mx * my) / 2 ^ (t - e)), (2 ^ (t + 1074)).
  assert (Hgu : 2 ^ (t + 1074) * unity = 2 ^ (t - e) * 2 ^ (e + 2148)).
  { unfold unity. rewrite <- !Z.pow_add_r by lia. f_equal. lia. }
  pose proof (Z.div_mod (Zpos (mx * my)) (2 ^ (t - e)) ltac:(lia)) as Hdm.
  pose proof (Z.mod_pos_bound (Zpos (mx * my)) (2 ^ (t - e)) Hpt) as Hmb.
  split; [exact Hu|]. split; [exact Hg|].
  split; [|split; [exact Hb|split]].
  - unfold unity. rewrite <- Z.pow_add_r by lia.
    apply Z.pow_le_mono_r; lia.
  - rewrite HP.
    set (N := Zpos (mx * my) / 2 ^ (t - e)) in *.
    rewrite <- !Z.mul_assoc, Hgu. nia.
  - intros Hhalf. apply Hdn; [reflexivity|].
    rewrite HP in Hhalf.
    set (N := Zpos (mx * my) / 2 ^ (t - e)) in *.
    rewrite <- !Z.mul_assoc, Hgu in Hhalf. nia.
Qed.

(** Quotients and remainders of a value by multiples of the unit are
    those of its whole part. *)
Lemma whole_part_fields (u U c b : Z) :
  0 < U -> 0 < c -> 0 < b ->
  u / (c * U) = u / U / c
  /\ u mod (c * U) / (b * U) = (u / U) mod c / b
  /\ u mod (c * U) / U = (u / U) mod c.
Proof.
  intros HU Hc Hb.
  pose proof (Z.mod_pos_bound u U HU) as Hr.
  assert (Hmod : u mod (c * U) = u mod U + U * ((u / U) mod c)).
  { rewrite (Z.mul_comm c U). apply Z.rem_mul_r; lia. }
  assert (Hdiv : (u mod U + U * ((u / U) mod c)) / U = (u / U) mod c).
  { rewrite Z.add_comm, Z.mul_comm, Z.div_add_l by lia.
    rewrite (Z.div_small (u mod U) U) by lia. lia. }
  split; [|split].
  - rewrite (Z.mul_comm c U), Z.div_div by lia. reflexivity.
  - rewrite Hmod, (Z.mul_comm b U), <- Z.div_div by lia.
    rewrite Hdiv. reflexivity.
  - rewrite Hmod. exact Hdiv.
Qed.

(** The double written [x.9996]: its whole part is [x] and its fraction
    lies between 0.9994 and 0.9998. *)
Lemma dot9996_measures (x : nat) :
  Z.of_nat x < 2 ^ 40 ->
  exists u,
    measures (dot9996 x) u
    /\ u / unity = Z.of_nat x
    /\ 9994 * unity <= 10000 * (u mod unity) <= 9998 * unity.
Proof.
  intros Hx. unfold dot9996. set (X := Z.of_nat x) in *.
  assert (HX : 0 <= X) by (subst X; lia).
  destruct (of_ratio_faithful (X * 10000 + 9996) 10000 40)
    as (u & t & Hu & Ht & Hb); try lia.
  exists u. split; [exact Hu|].
  set (n := X * 10000 + 9996) in *.
  pose proof (pow2_pos 1074 ltac:(lia)) as Hone. fold unity in Hone.
  pose proof (pow2_pos (t + 1074) ltac:(lia)) as Hg.
  pose proof (pow2_pos (- t) ltac:(lia)) as Hmt.
  assert (Hgu : 2 ^ (- t) * 2 ^ (t + 1074) = unity).
  { unfold unity. rewrite <- Z.pow_add_r by lia. f_equal. lia. }
  assert (Hg13 : 2 ^ (t + 1074) * 8192 <= unity).
  { unfold unity. change 8192 with (2 ^ 13). rewrite <- Z.pow_add_r by lia.
    apply Z.pow_le_mono_r; lia. }
  pose proof (Z.div_mod (n * 2 ^ (- t)) 10000 ltac:(lia)) as Hdm.
  pose proof (Z.mod_pos_bound (n * 2 ^ (- t)) 10000 ltac:(lia)) as Hmb.
  set (N := n * 2 ^ (- t) / 10000) in *.
  set (g := 2 ^ (t + 1074)) in *.
  assert (Hn : n * unity = 10000 * (N * g) + (n * 2 ^ (- t)) mod 10000 * g).
  { rewrite <- Hgu. fold g.
    replace (n * (2 ^ (- t) * g)) with (n * 2 ^ (- t) * g) by ring.
    rewrite Hdm at 1. ring. }
  assert (Hrg : 0 <= (n * 2 ^ (- t)) mod 10000 * g < 10000 * g) by nia.
  assert (Hlo : X * unity <= u) by (subst n; lia).
  assert (Hhi : u < (X + 1) * unity) by (subst n; lia).
  assert (Hdiv : u / unity = X).
  { symmetry. apply (Z.div_unique_pos u unity X (u - X * unity)); lia. }
  split; [exact Hdiv|].
  pose proof (Z.div_mod u unity ltac:(lia)) as Hdu. rewrite Hdiv in Hdu.
  subst n. lia.
Qed.

Lemma thousand_normal :
  exists m e,
    PyFloat.of_Z 1000 = S754_finite false m e /\ canonical m e
    /\ units (Zpos m) e = 1000 * unity /\ 2 ^ 52 <= Zpos m.
Proof.
  exists 8796093022208000%positive, (-43). repeat split; try reflexivity.
  - lia.
  - lia.
Qed.

(** The fields of [x.9996]: those of [x], and 999 thousandths. *)
Lemma dot9996_time_fields (x : nat) :
  Z.of_nat x < 2 ^ 40 ->
  AudioTranscriber.time_fields (dot9996 x)
  = Return (Z.of_nat x / 3600, Z.of_nat x mod 3600 / 60, Z.of_nat x mod 60,
            999).
Proof.
  intros Hx.
  destruct (dot9996_measures x Hx) as (u & Hu & Hdiv & Hfrac).
  pose proof (pow2_pos 1074 ltac:(lia)) as Hone. fold unity in Hone.
  pose proof (Z.div_mod u unity ltac:(lia)) as Hdm.
  pose proof (Z.mod_pos_bound u unity Hone) as Hmb.
  assert (Hu53 : u < 2 ^ 53 * unity).
  { assert (u < (Z.of_nat x + 1) * unity) by nia.
    assert ((Z.of_nat x + 1) * unity <= 2 ^ 53 * unity); [|lia].
    apply Z.mul_le_mono_nonneg_r; lia. }
  destruct (time_fields_parts (dot9996 x) u Hu Hu53) as (r & Hr & ->).
  destruct thousand_normal as (m & e & -> & Hc & Hm & Hm52).
  set (f := u mod unity) in *.
  destruct (mul_faithful r f m e 10 Hr)
    as (w & n & g & Hw & Hg & Hg43 & Hb & Hp & _);
    try lia; try assumption.
  { rewrite Hm. replace (f * (1000 * unity)) with (1000 * f * unity) by ring.
    replace (2 ^ 10 * (unity * unity)) with (1024 * unity * unity)
      by (change (2 ^ 10) with 1024; ring).
    apply Z.mul_lt_mono_pos_r; lia. }
  rewrite Hm in Hp. change (2 ^ (53 - 10)) with 8796093022208 in Hg43.
  replace (f * (1000 * unity)) with (1000 * f * unity) in Hp by ring.
  assert (Hlo : n * g <= 1000 * f)
    by (apply (Z.mul_le_mono_pos_r _ _ unity); lia).
  assert (Hhi : 1000 * f < (n + 1) * g)
    by (apply (Z.mul_lt_mono_pos_r unity); lia).
  rewrite (to_int_exact _ _ Hw).
  assert (Hms : w / unity = 999).
  { symmetry. apply (Z.div_unique_pos w unity 999 (w - 999 * unity)); [|lia].
    set (ng := n * g) in *.
    replace ((n + 1) * g) with (ng + g) in * by (subst ng; ring).
    lia. }
  rewrite Hms. cbn [PyFloat.bind].
  destruct (whole_part_fields u unity 3600 60) as (-> & -> & _); try lia.
  destruct (whole_part_fields u unity 60 1) as (_ & _ & ->); try lia.
  rewrite Hdiv. reflexivity.
Qed.

Lemma hms_fields (x : nat) (sep : string) :
  AudioTranscriber.format_time sep
    (Z.of_nat x / 3600, Z.of_nat x mod 3600 / 60, Z.of_nat x mod 60, 999)
  = (hms x ++ sep ++ "999")%string.
Proof.
  unfold AudioTranscriber.format_time, hms.
  rewrite !Nat2Z.inj_div, !Nat2Z.inj_mod.
  change (Z.of_nat 3600) with 3600. change (Z.of_nat 60) with 60.
  change (PyStr.format_0d 3 999) with "999"%string.
  rewrite !append_assoc. reflexivity.
Qed.

(** [x.9996] shows as [x] seconds and 999 thousandths in both formats,
    for every whole [x] below [2^40]. *)
Lemma dot9996_truncates (x : nat) :
  Z.of_nat x < 2 ^ 40 ->
  AudioTranscriber._seconds_to_srt_time (dot9996 x)
  = Return (hms x ++ ",999")%string
  /\ AudioTranscriber._seconds_to_vtt_time (dot9996 x)
     = Return (hms x ++ ".999")%string.
Proof.
  intros Hx.
  unfold AudioTranscriber._seconds_to_srt_time,
    AudioTranscriber._seconds_to_vtt_time.
  rewrite (dot9996_time_fields x Hx). cbn [PyFloat.bind].
  rewrite !hms_fields. split; reflexivity.
Qed.

(** The thousandths never reach 1000: the product of a fraction by 1000
    is rounded to a double below 1000. *)
Lemma thousandths_below (r : spec_float) (f : Z) :
  measures r f -> f < unity ->
  exists ms,
    PyFloat.to_int (SFmul PyFloat.prec PyFloat.emax r (PyFloat.of_Z 1000))
    = Return ms
    /\ 0 <= ms <= 999.
Proof.
  intros Hr Hf.
  pose proof (pow2_pos 1074 ltac:(lia)) as Hone. fold unity in Hone.
  pose proof (measures_nonneg r f Hr) as Hf0.
  destruct thousand_normal as (m & e & -> & Hc & Hm & Hm52).
  destruct (Z.eq_dec f 0) as [-> | Hfpos].
  { rewrite (measures_zero r Hr). exists 0. split; [reflexivity | lia]. }
  destruct (mul_faithful r f m e 10 Hr)
    as (w & n & g & Hw & Hg & Hg43 & Hb & Hp & Hdn);
    try lia; try assumption.
  { rewrite Hm. replace (f * (1000 * unity)) with (1000 * f * unity) by ring.
    replace (2 ^ 10 * (unity * unity)) with (1024 * unity * unity)
      by (change (2 ^ 10) with 1024; ring).
    apply Z.mul_lt_mono_pos_r; lia. }
  rewrite Hm in Hp, Hdn. change (2 ^ (53 - 10)) with 8796093022208 in Hg43.
  replace (f * (1000 * unity)) with (1000 * f * unity) in Hp, Hdn by ring.
  assert (Hlo : n * g <= 1000 * f)
    by (apply (Z.mul_le_mono_pos_r _ _ unity); lia).
  assert (Hhi : 1000 * f < (n + 1) * g)
    by (apply (Z.mul_lt_mono_pos_r unity); lia).
  pose proof (measures_nonneg _ _ Hw) as Hw0.
  rewrite (to_int_exact _ _ Hw). exists (w / unity). split; [reflexivity|].
  assert (Hw1000 : w < 1000 * unity).
  { set (ng := n * g) in *.
    replace ((n + 1) * g) with (ng + g) in * by (subst ng; ring).
    destruct (Z.lt_ge_cases (ng + g) (1000 * unity)) as [Hin | Htop]; [lia|].
    (* the top place below 1000: the fraction is at least a half, so it
       is a multiple of 2^-53 *)
    destruct (measures_finite r f Hr ltac:(lia)) as (mf & ef & _ & Hcf & Euf).
    assert (Hef : ef = -53).
    { rewrite <- (canonical_fexp_units mf ef Hcf), Euf.
      rewrite (Z.log2_unique f 1073); [reflexivity | lia |].
      change (Z.succ 1073) with 1074. fold unity.
      change (2 ^ 1073) with (unity / 2).
      assert (unity = 2 * (unity / 2)) by reflexivity. lia. }
    subst ef. unfold units in Euf. change (-53 + 1074) with 1021 in Euf.
    assert (Hu : unity = 2 ^ 53 * 2 ^ 1021) by reflexivity.
    pose proof (pow2_pos 1021 ltac:(lia)) as Hc1021.
    set (c := 2 ^ 1021) in *. change (2 ^ 53) with 9007199254740992 in Hu.
    assert (Hmf : Zpos mf <= 9007199254740991) by nia.
    assert (Hfle : f <= unity - c) by nia.
    rewrite (Hdn ltac:(nia)). lia. }
  split.
  - apply Z.div_pos; lia.
  - assert (w / unity < 1000); [|lia].
    apply Z.div_lt_upper_bound; lia.
Qed.

(** For every non-negative double below [2^53], with whole part [n]: the
    time stamp shows [n / 3600] hours, [n mod 3600 / 60] minutes,
    [n mod 60] seconds and at most 999 thousandths. *)
Lemma time_fields_whole (x : spec_float) (u : Z) :
  measures x u -> u < 2 ^ 53 * unity ->
  exists n ms,
    PyFloat.to_int x = Return n /\ n = u / unity /\ 0 <= ms <= 999
    /\ AudioTranscriber.time_fields x
       = Return (n / 3600, n mod 3600 / 60, n mod 60, ms).
Proof.
  intros Hx Hu.
  pose proof (pow2_pos 1074 ltac:(lia)) as Hone. fold unity in Hone.
  destruct (time_fields_parts x u Hx Hu) as (r & Hr & ->).
  pose proof (Z.mod_pos_bound u unity Hone) as Hb.
  destruct (thousandths_below r _ Hr ltac:(lia)) as (ms & -> & Hms).
  exists (u / unity), ms. split; [now apply to_int_exact|].
  split; [reflexivity|]. split; [exact Hms|]. cbn [PyFloat.bind].
  destruct (whole_part_fields u unity 3600 60) as (-> & -> & _); try lia.
  destruct (whole_part_fields u unity 60 1) as (_ & _ & ->); try lia.
  reflexivity.
Qed.

End Rounding.

(** ** Time stamps *)

Lemma float_bind_return {A B} (o : outcome A) (k : A -> outcome B) (b : B) :
  PyFloat.bind o k = Return b -> exists a, o = Return a /\ k a = Return b.
Proof. destruct o as [a|e]; cbn; [eauto | discriminate]. Qed.

(** How the four fields are obtained: float floor division and modulo,
    then [int], which truncates; nothing is added before truncating. *)
Lemma time_fields_inv (seconds : spec_float) (hours minutes secs millisecs : Z) :
  AudioTranscriber.time_fields seconds = Return (hours, minutes, secs, millisecs) ->
  exists q r3600 q60 r60 r1,
    PyFloat.floordiv seconds (PyFloat.of_Z 3600) = Return q
    /\ PyFloat.to_int q = Return hours
    /\ PyFloat.rem seconds (PyFloat.of_Z 3600) = Return r3600
    /\ PyFloat.floordiv r3600 (PyFloat.of_Z 60) = Return q60
    /\ PyFloat.to_int q60 = Return minutes
    /\ PyFloat.rem seconds (PyFloat.of_Z 60) = Return r60
    /\ PyFloat.to_int r60 = Return secs
    /\ PyFloat.rem seconds (PyFloat.of_Z 1) = Return r1
    /\ PyFloat.to_int (SFmul PyFloat.prec PyFloat.emax r1 (PyFloat.of_Z 1000))
       = Return millisecs.
Proof.
  unfold AudioTranscriber.time_fields. intros Hf.
  apply float_bind_return in Hf as (h & Hh & Hf).
  apply float_bind_return in Hh as (q & Hq & Hh).
  apply float_bind_return in Hf as (m & Hm & Hf).
  apply float_bind_return in Hm as (q60 & Hq60 & Hm).
  apply float_bind_return in Hq60 as (r3600 & Hr3600 & Hq60).
  apply float_bind_return in Hf as (sc & Hs & Hf).
  apply float_bind_return in Hs as (r60 & Hr60 & Hs).
  apply float_bind_return in Hf as (ms & Hms & Hf).
  apply float_bind_return in Hms as (r1 & Hr1 & Hms).
  injection Hf as -> -> -> ->.
  exists q, r3600, q60, r60, r1. repeat split; assumption.
Qed.

Lemma to_int_truncates (s : bool) (m : positive) (e : Z) :
  PyFloat.to_int (S754_finite s m e)
  = Return (if s then - (if (0 <=? e)%Z then Zpos m * 2 ^ e
                         else Zpos m / 2 ^ (- e))
            else (if (0 <=? e)%Z then Zpos m * 2 ^ e
                  else Zpos m / 2 ^ (- e)))%Z.
Proof. destruct s; reflexivity. Qed.

(** [int] of a finite non-negative float is its integer part: never the
    next integer up. *)
Lemma to_int_integer_part (m : positive) (e : Z) :
  exists z,
    PyFloat.to_int (S754_finite false m e) = Return z
    /\ ((0 <= e -> z = Zpos m * 2 ^ e)
        /\ (e < 0 -> z * 2 ^ (- e) <= Zpos m < (z + 1) * 2 ^ (- e)))%Z.
Proof.
  eexists. split; [reflexivity|]. cbn [cond_Zopp].
  destruct (0 <=? e)%Z eqn:He.
  - apply Z.leb_le in He. split; [reflexivity | lia].
  - apply Z.leb_gt in He. split; [lia|]. intros _.
    assert (Hp : (0 < 2 ^ (- e))%Z) by (apply Z.pow_pos_nonneg; lia).
    pose proof (Z.div_mod (Zpos m) (2 ^ (- e)) ltac:(lia)) as Hdm.
    pose proof (Z.mod_pos_bound (Zpos m) (2 ^ (- e)) Hp) as Hb.
    nia.
Qed.

(** C3: the fields of a time stamp are [int] of the results of float floor
    division and modulo, formatted as they are, and [int] of a non-negative
    float is its integer part, never the next integer up. For every
    non-negative double below [2^53] the hours, minutes and seconds are the
    whole quotients and remainders of its integer part, with nothing
    added, and the milliseconds never reach 1000. So
    3599.9999 shows as 00:59:59,999, and X.9996 shows X seconds and 999
    milliseconds, for every whole X below [2^40]. *)
Theorem C3_timestamps_truncate :
  (forall seconds t,
      AudioTranscriber._seconds_to_srt_time seconds = Return t
      \/ AudioTranscriber._seconds_to_vtt_time seconds = Return t ->
      exists hours minutes secs millisecs q r3600 q60 r60 r1 sep,
        PyFloat.floordiv seconds (PyFloat.of_Z 3600) = Return q
        /\ PyFloat.to_int q = Return hours
        /\ PyFloat.rem seconds (PyFloat.of_Z 3600) = Return r3600
        /\ PyFloat.floordiv r3600 (PyFloat.of_Z 60) = Return q60
        /\ PyFloat.to_int q60 = Return minutes
        /\ PyFloat.rem seconds (PyFloat.of_Z 60) = Return r60
        /\ PyFloat.to_int r60 = Return secs
        /\ PyFloat.rem seconds (PyFloat.of_Z 1) = Return r1
        /\ PyFloat.to_int
             (SFmul PyFloat.prec PyFloat.emax r1 (PyFloat.of_Z 1000))
           = Return millisecs
        /\ t = (PyStr.format_0d 2 hours ++ ":" ++ PyStr.format_0d 2 minutes
                ++ ":" ++ PyStr.format_0d 2 secs ++ sep
                ++ PyStr.format_0d 3 millisecs)%string)
  /\ (forall (m : positive) (e : Z),
        exists z,
          PyFloat.to_int (S754_finite false m e) = Return z
          /\ ((0 <= e -> z = Zpos m * 2 ^ e)
              /\ (e < 0 -> z * 2 ^ (- e) <= Zpos m < (z + 1) * 2 ^ (- e)))%Z)
  /\ (forall (seconds : spec_float) (u : Z),
        measures seconds u -> (u < 2 ^ 53 * unity)%Z ->
        exists n millisecs,
          PyFloat.to_int seconds = Return n /\ n = (u / unity)%Z
          /\ (0 <= millisecs <= 999)%Z
          /\ AudioTranscriber.time_fields seconds
             = Return (n / 3600, n mod 3600 / 60, n mod 60, millisecs)%Z)
  /\ AudioTranscriber._seconds_to_srt_time (PyFloat.of_ratio 35999999 10000)
     = Return "00:59:59,999"
  /\ AudioTranscriber._seconds_to_vtt_time (PyFloat.of_ratio 35999999 10000)
     = Return "00:59:59.999"
  /\ (forall x : nat,
        (Z.of_nat x < 2 ^ 40)%Z ->
        AudioTranscriber._seconds_to_srt_time (dot9996 x)
        = Return (hms x ++ ",999")%string
        /\ AudioTranscriber._seconds_to_vtt_time (dot9996 x)
           = Return (hms x ++ ".999")%string).
Proof.
  split; [|split; [exact to_int_integer_part|split; [|split; [|split]]]].
  - intros seconds t [Ht | Ht];
      [unfold AudioTranscriber._seconds_to_srt_time in Ht
      |unfold AudioTranscriber._seconds_to_vtt_time in Ht];
      apply float_bind_return in Ht as ([[[h m] sc] ms] & Hf & Ht);
      injection Ht as <-;
      destruct (time_fields_inv _ _ _ _ _ Hf)
        as (q & r3600 & q60 & r60 & r1 & Hx);
      [exists h, m, sc, ms, q, r3600, q60, r60, r1, ","
      |exists h, m, sc, ms, q, r3600, q60, r60, r1, "."];
      repeat (split; [apply Hx|]); reflexivity.
  - exact time_fields_whole.
  - vm_compute. reflexivity.
  - vm_compute. reflexivity.
  - exact dot9996_truncates.
Qed.

Lemma C3_timestamps_truncate_witness :
  (exists millisecs,
      AudioTranscriber.time_fields (PyFloat.of_Z 90)
      = Return (0, 1, 30, millisecs)%Z)
  /\ AudioTranscriber._seconds_to_srt_time (dot9996 59) = Return "00:00:59,999"
  /\ AudioTranscriber._seconds_to_vtt_time (dot9996 59) = Return "00:00:59.999".
Proof.
  split.
  - assert (Hm : measures (PyFloat.of_Z 90) (90 * unity)).
    { right. exists 6333186975989760%positive, (-46)%Z.
      split; [reflexivity|].
      split; [split; [reflexivity | lia] | reflexivity]. }
    destruct (proj1 (proj2 (proj2 C3_timestamps_truncate))
                (PyFloat.of_Z 90) (90 * unity)%Z Hm eq_refl)
      as (n & millisecs & _ & Hn & _ & Hf).
    exists millisecs. rewrite Hf, Hn. reflexivity.
  - apply (proj2 (proj2 (proj2 (proj2 (proj2 C3_timestamps_truncate)))) 59).
    reflexivity.
Defined.

(** The examples of the specification: a segment from 0 to 1.5 seconds. *)
Lemma timestamp_examples :
  AudioTranscriber._seconds_to_srt_time (PyFloat.of_Z 0) = Return "00:00:00,000"
  /\ AudioTranscriber._seconds_to_srt_time (PyFloat.of_ratio 3 2)
     = Return "00:00:01,500"
  /\ AudioTranscriber._seconds_to_vtt_time (PyFloat.of_ratio 3 2)
     = Return "00:00:01.500"
  /\ AudioTranscriber._seconds_to_srt_time (PyFloat.of_ratio 35999999 10000)
     <> Return "01:00:00,000".
Proof. repeat split; try (vm_compute; reflexivity). vm_compute. discriminate. Qed.

(** At the edges: both zeros show as zero, and an infinite value cannot be
    converted ([inf // 3600] is NaN, which [int] refuses). *)
Lemma time_fields_at_the_edges :
  (forall s, AudioTranscriber.time_fields (S754_zero s)
             = Return (0, 0, 0, 0)%Z)
  /\ AudioTranscriber.time_fields (S754_infinity false)
     = Raise (Exn "ValueError" "cannot convert float NaN to integer" None).
Proof. split; [intros []|]; vm_compute; reflexivity. Qed.

(** ** Transcription *)

Section Transcription.
Context {W : Type} `{Platform W}.

Lemma transcribe_audio_not_found (p : string) (lang : option string)
    (fmt : string) (s : State W AudioTranscriber.Self) :
  os_path_exists (world s) p = false ->
  AudioTranscriber.transcribe_audio p lang fmt s =
  (Raise (FileNotFoundError ("Audio file not found: " ++ p)), s).
Proof.
  intros Hex. unfold AudioTranscriber.transcribe_audio. monad_unfold.
  rewrite Hex. reflexivity.
Qed.

(** What [_load_model] does: nothing with a model at hand; otherwise one
    call of the loader, whose error comes out as it is. *)
Lemma load_model_cases (s : State W AudioTranscriber.Self) :
  AudioTranscriber._load_model s =
  match AudioTranscriber.model (this s) with
  | Some _ => (Return tt, s)
  | None =>
      let size := AudioTranscriber.model_size (this s) in
      let t0 :=
        trace s ++ [EvPrint ("Loading Whisper '" ++ size
                             ++ "' model... (this may take a moment)");
                    EvLoadModel size] in
      match load_model (world s) size with
      | (Raise e, w1) => (Raise e, mkState w1 t0 (this s))
      | (Return m, w1) =>
          (Return tt,
           mkState w1 (t0 ++ [EvPrint "✅ Model loaded successfully!"])
             {| AudioTranscriber.model_size := size;
                AudioTranscriber.model := Some m |})
      end
  end.
Proof.
  unfold AudioTranscriber._load_model. monad_unfold.
  destruct (AudioTranscriber.model (this s)); [reflexivity|].
  cbn. destruct (load_model (world s) _) as [[m|e] w1]; cbn;
    repeat rewrite <- app_assoc; reflexivity.
Qed.

Lemma transcribe_audio_found (p : string) (lang : option string)
    (fmt : string) (s : State W AudioTranscriber.Self) :
  os_path_exists (world s) p = true ->
  AudioTranscriber.transcribe_audio p lang fmt s =
  match AudioTranscriber._load_model s with
  | (Raise e, s1) => (Raise e, s1)
  | (Return _, s1) =>
      match AudioTranscriber.transcribe_audio_body p lang s1 with
      | (Return r, s2) => (Return r, s2)
      | (Raise e0, s2) => (Raise (transcription_error e0), s2)
      end
  end.
Proof.
  intros Hex. unfold AudioTranscriber.transcribe_audio.
  unfold bind at 1, reads at 1. rewrite Hex. cbn [negb].
  unfold bind at 1.
  destruct (AudioTranscriber._load_model s) as [[[]|e] s1]; reflexivity.
Qed.


End Transcription.



(** ** Saving a transcription *)

Lemma file_text_app (p : string) (a b : list event) (acc : string) :
  file_text p (a ++ b) acc = file_text p b (file_text p a acc).
Proof.
  revert acc. induction a as [|ev a IH]; intros acc; [reflexivity|].
  destruct ev; cbn [app file_text]; apply IH.
Qed.

Lemma in_set_cons_false (x y : string) (l : list string) :
  in_set x (y :: l) = false -> String.eqb x y = false /\ in_set x l = false.
Proof. unfold in_set. cbn [existsb]. apply orb_false_iff. Qed.

Section Saving.
Context {W Obj : Type} `{Platform W}.

Lemma write_format_unknown (r : Result) (p fmt : string) :
  in_set (PyStr.lower fmt) known_formats = false ->
  AudioTranscriber.write_format (Obj := Obj) r p fmt = ret tt.
Proof.
  unfold known_formats. intros Hfmt.
  apply in_set_cons_false in Hfmt as [Htxt Hfmt].
  apply in_set_cons_false in Hfmt as [Hjson Hfmt].
  apply in_set_cons_false in Hfmt as [Hsrt Hfmt].
  apply in_set_cons_false in Hfmt as [Hvtt _].
  unfold AudioTranscriber.write_format. cbv zeta.
  now rewrite Htxt, Hjson, Hsrt, Hvtt.
Qed.

Lemma save_transcription_cases (r : Result) (p fmt : string)
    (s : State W Obj) :
  AudioTranscriber.save_transcription r p fmt s =
  let dir := PosixPath.str (PosixPath.parent (PosixPath.Path p)) in
  match makedirs (world s) dir with
  | (Raise e, w1) => (Raise e, mkState w1 (trace s ++ [EvMakedirs dir]) (this s))
  | (Return _, w1) =>
      let s1 := mkState w1 (trace s ++ [EvMakedirs dir]) (this s) in
      match AudioTranscriber.write_format r p fmt s1 with
      | (Raise e0, s2) => (Raise (saving_error e0), s2)
      | (Return _, s2) =>
          (Return tt,
           mkState (world s2)
             (trace s2 ++ [EvPrint ("💾 Transcription saved to: " ++ p)])
             (this s2))
      end
  end.
Proof.
  unfold AudioTranscriber.save_transcription. cbv zeta.
  unfold bind at 1, call at 1.
  destruct (makedirs (world s) _) as [[[]|e] w1]; [|reflexivity].
  unfold try_except, bind at 1.
  destruct (AudioTranscriber.write_format r p fmt _) as [[[]|e0] s2];
    reflexivity.
Qed.

(** C10: with a format outside txt, json, srt and vtt (after lowering),
    [save_transcription] creates the parent directory of the output path,
    prints that the transcription was saved and returns: it opens and
    writes no file, and raises nothing unless creating the directory did. *)
Theorem C10_unknown_format_writes_nothing (r : Result) (p fmt : string)
    (s : State W Obj) :
  in_set (PyStr.lower fmt) known_formats = false ->
  let dir := PosixPath.str (PosixPath.parent (PosixPath.Path p)) in
  let run := AudioTranscriber.save_transcription r p fmt s in
  (forall w1,
      makedirs (world s) dir = (Return tt, w1) ->
      run = (Return tt,
             mkState w1
               (trace s ++ [EvMakedirs dir;
                            EvPrint ("💾 Transcription saved to: " ++ p)])
               (this s)))
  /\ (forall e w1,
        makedirs (world s) dir = (Raise e, w1) ->
        run = (Raise e, mkState w1 (trace s ++ [EvMakedirs dir]) (this s)))
  /\ count is_file_output (trace (snd run)) = count is_file_output (trace s).
Proof.
  intros Hfmt dir run. subst run.
  rewrite save_transcription_cases. cbv zeta. fold dir.
  rewrite (write_format_unknown r p fmt Hfmt). unfold ret.
  cbn [world trace this].
  repeat split.
  - intros w1 ->. rewrite <- app_assoc. reflexivity.
  - intros e w1 ->. reflexivity.
  - destruct (makedirs (world s) dir) as [[[]|e] w1]; cbn [snd trace];
      rewrite !count_app; cbn; lia.
Qed.

End Saving.

Lemma C10_unknown_format_writes_nothing_witness :
  AudioTranscriber.save_transcription Demo.hello "/out/talk.docx" "DOCX"
    (Demo.start Demo.w0 tt)
  = (Return tt,
     mkState (Demo.add_path "/out" Demo.w0)
       [EvMakedirs "/out"; EvPrint "💾 Transcription saved to: /out/talk.docx"]
       tt).
Proof.
  exact (proj1 (C10_unknown_format_writes_nothing Demo.hello "/out/talk.docx"
                  "DOCX" (Demo.start Demo.w0 tt) eq_refl)
           (Demo.add_path "/out" Demo.w0) eq_refl).
Defined.

(** ** Subtitle files *)

Lemma srt_time_convertible (x : spec_float) (t : Z * Z * Z * Z) :
  AudioTranscriber.time_fields x = Return t ->
  AudioTranscriber._seconds_to_srt_time x = Return (subtitle_time "," x)
  /\ AudioTranscriber._seconds_to_vtt_time x = Return (subtitle_time "." x).
Proof.
  intros Ht.
  unfold AudioTranscriber._seconds_to_srt_time,
    AudioTranscriber._seconds_to_vtt_time, subtitle_time.
  rewrite Ht. split; reflexivity.
Qed.

(** A segment whose ends are non-negative doubles below [2^53]
    converts. *)
Lemma measured_convertible (seg : Segment) (a b : Z) :
  measures (seg_start seg) a -> (a < 2 ^ 53 * unity)%Z ->
  measures (seg_end seg) b -> (b < 2 ^ 53 * unity)%Z ->
  convertible seg.
Proof.
  intros Ha Ha53 Hb Hb53. split.
  - destruct (time_fields_exact _ _ Ha Ha53) as [ms ->]. eexists; reflexivity.
  - destruct (time_fields_exact _ _ Hb Hb53) as [ms ->]. eexists; reflexivity.
Qed.

Lemma two_digits (z : Z) :
  (0 <= z < 100)%Z -> digits 2 (PyStr.format_0d 2 z) = true.
Proof.
  intros Hz.
  assert (Hall : forallb (fun k => digits 2 (PyStr.format_0d 2 (Z.of_nat k)))
                   (seq 0 100) = true) by (vm_compute; reflexivity).
  rewrite forallb_forall in Hall. specialize (Hall (Z.to_nat z)).
  rewrite Z2Nat.id in Hall by lia. apply Hall. apply in_seq. lia.
Qed.

Lemma three_digits (z : Z) :
  (0 <= z < 1000)%Z -> digits 3 (PyStr.format_0d 3 z) = true.
Proof.
  intros Hz.
  assert (Hall : forallb (fun k => digits 3 (PyStr.format_0d 3 (Z.of_nat k)))
                   (seq 0 1000) = true) by (vm_compute; reflexivity).
  rewrite forallb_forall in Hall. specialize (Hall (Z.to_nat z)).
  rewrite Z2Nat.id in Hall by lia. apply Hall. apply in_seq. lia.
Qed.

(** Below a hundred hours a time stamp is two digits each of hours,
    minutes and seconds, the separator, and three digits. *)
Lemma stamps_shaped (x : spec_float) (u : Z) (sep : string) :
  measures x u -> (u < 360000 * unity)%Z ->
  stamp_shaped sep (subtitle_time sep x).
Proof.
  intros Hx Hu.
  assert (Hone : (0 < unity)%Z) by (apply pow2_pos; lia).
  pose proof (measures_nonneg x u Hx) as Hu0.
  destruct (time_fields_whole x u Hx) as (n & ms & _ & Hn & Hms & Hf).
  { assert (360000 * unity <= 2 ^ 53 * unity)%Z
      by (apply Z.mul_le_mono_nonneg_r; lia).
    lia. }
  assert (Hn0 : (0 <= n < 360000)%Z).
  { subst n. split; [apply Z.div_pos; lia|].
    apply Z.div_lt_upper_bound; lia. }
  unfold subtitle_time. rewrite Hf. unfold AudioTranscriber.format_time.
  pose proof (Z.mod_pos_bound n 3600 ltac:(lia)).
  pose proof (Z.mod_pos_bound n 60 ltac:(lia)).
  eexists _, _, _, _. split; [reflexivity|].
  repeat split.
  - apply two_digits. split; [apply Z.div_pos; lia|].
    apply Z.div_lt_upper_bound; lia.
  - apply two_digits. split; [apply Z.div_pos; lia|].
    apply Z.div_lt_upper_bound; lia.
  - apply two_digits. lia.
  - apply three_digits. lia.
Qed.

Section ReliableOutput.
Context {W Obj : Type} `{Platform W}.

(** Creating directories, opening and writing succeed. *)
Hypothesis makedirs_ok : forall w d, fst (makedirs w d) = Return tt.
Hypothesis open_ok : forall w p, fst (open_w w p) = Return tt.
Hypothesis write_ok : forall w p c, fst (write w p c) = Return tt.

Lemma appends_refl (p : string) (s : State W Obj) : appends p "" s s.
Proof.
  split; [reflexivity|]. exists []. split.
  - now rewrite app_nil_r.
  - intros acc. cbn. now rewrite append_nil_r.
Qed.

Lemma appends_trans (p a b : string) (s1 s2 s3 : State W Obj) :
  appends p a s1 s2 -> appends p b s2 s3 -> appends p (a ++ b) s1 s3.
Proof.
  intros (Ht1 & e1 & He1 & Hf1) (Ht2 & e2 & He2 & Hf2). split.
  - congruence.
  - exists (e1 ++ e2). split.
    + rewrite He2, He1. now rewrite app_assoc.
    + intros acc. rewrite file_text_app, Hf1, Hf2. apply append_assoc.
Qed.

Lemma fwrite_appends (p c : string) (s : State W Obj) :
  exists s', AudioTranscriber.fwrite p c s = (Return tt, s')
             /\ appends p c s s'.
Proof.
  unfold AudioTranscriber.fwrite, call.
  pose proof (write_ok (world s) p c) as Hw.
  destruct (write (world s) p c) as [o w1]. cbn in Hw. subst o.
  eexists. split; [reflexivity|]. split; [reflexivity|].
  exists [EvWrite p c]. split; [reflexivity|].
  intros acc. cbn. now rewrite String.eqb_refl.
Qed.

Lemma bind_fwrite {B} (p c : string) (k : unit -> M W Obj B)
    (s : State W Obj) :
  exists s', appends p c s s'
             /\ bind (AudioTranscriber.fwrite p c) k s = k tt s'.
Proof.
  destruct (fwrite_appends p c s) as (s' & Hw & Happ).
  exists s'. split; [assumption|]. unfold bind. now rewrite Hw.
Qed.

Lemma srt_loop_appends (p : string) (segs : list Segment) :
  Forall convertible segs ->
  forall (i : nat) (s : State W Obj),
  exists s', AudioTranscriber.srt_loop p i segs s = (Return tt, s')
             /\ appends p (srt_blocks i segs) s s'.
Proof.
  induction 1 as [|seg rest [[a Ha] [b Hb]] _ IH]; intros i s.
  - exists s. split; [reflexivity|]. apply appends_refl.
  - cbn [AudioTranscriber.srt_loop srt_blocks].
    rewrite (proj1 (srt_time_convertible _ _ Ha)).
    rewrite (proj1 (srt_time_convertible _ _ Hb)).
    unfold bind at 1, lift_outcome at 1. unfold bind at 1, lift_outcome at 1.
    destruct (bind_fwrite p (PyStr.of_nat i ++ PyStr.LF)
                (fun _ =>
                   bind (AudioTranscriber.fwrite p
                           (subtitle_time "," (seg_start seg) ++ " --> "
                            ++ subtitle_time "," (seg_end seg) ++ PyStr.LF))
                     (fun _ =>
                        bind (AudioTranscriber.fwrite p
                                (PyStr.strip (seg_text seg) ++ PyStr.LF
                                 ++ PyStr.LF))
                          (fun _ => AudioTranscriber.srt_loop p (S i) rest)))
                s) as (s1 & A1 & ->).
    destruct (bind_fwrite p
                (subtitle_time "," (seg_start seg) ++ " --> "
                 ++ subtitle_time "," (seg_end seg) ++ PyStr.LF)
                (fun _ =>
                   bind (AudioTranscriber.fwrite p
                           (PyStr.strip (seg_text seg) ++ PyStr.LF
                            ++ PyStr.LF))
                     (fun _ => AudioTranscriber.srt_loop p (S i) rest))
                s1) as (s2 & A2 & ->).
    destruct (bind_fwrite p
                (PyStr.strip (seg_text seg) ++ PyStr.LF ++ PyStr.LF)
                (fun _ => AudioTranscriber.srt_loop p (S i) rest)
                s2) as (s3 & A3 & ->).
    destruct (IH (S i) s3) as (s4 & -> & A4).
    exists s4. split; [reflexivity|].
    pose proof (appends_trans _ _ _ _ _ _
                  (appends_trans _ _ _ _ _ _
                     (appends_trans _ _ _ _ _ _ A1 A2) A3) A4) as A.
    unfold subtitle_block.
    repeat rewrite append_assoc in A. repeat rewrite append_assoc.
    exact A.
Qed.

Lemma vtt_loop_appends (p : string) (segs : list Segment) :
  Forall convertible segs ->
  forall (s : State W Obj),
  exists s', AudioTranscriber.vtt_loop p segs s = (Return tt, s')
             /\ appends p (vtt_blocks segs) s s'.
Proof.
  induction 1 as [|seg rest [[a Ha] [b Hb]] _ IH]; intros s.
  - exists s. split; [reflexivity|]. apply appends_refl.
  - cbn [AudioTranscriber.vtt_loop vtt_blocks].
    rewrite (proj2 (srt_time_convertible _ _ Ha)).
    rewrite (proj2 (srt_time_convertible _ _ Hb)).
    unfold bind at 1, lift_outcome at 1. unfold bind at 1, lift_outcome at 1.
    destruct (bind_fwrite p
                (subtitle_time "." (seg_start seg) ++ " --> "
                 ++ subtitle_time "." (seg_end seg) ++ PyStr.LF)
                (fun _ =>
                   bind (AudioTranscriber.fwrite p
                           (PyStr.strip (seg_text seg) ++ PyStr.LF
                            ++ PyStr.LF))
                     (fun _ => AudioTranscriber.vtt_loop p rest))
                s) as (s2 & A2 & ->).
    destruct (bind_fwrite p
                (PyStr.strip (seg_text seg) ++ PyStr.LF ++ PyStr.LF)
                (fun _ => AudioTranscriber.vtt_loop p rest)
                s2) as (s3 & A3 & ->).
    destruct (IH s3) as (s4 & -> & A4).
    exists s4. split; [reflexivity|].
    pose proof (appends_trans _ _ _ _ _ _
                  (appends_trans _ _ _ _ _ _ A2 A3) A4) as A.
    unfold subtitle_block.
    repeat rewrite append_assoc in A. repeat rewrite append_assoc.
    exact A.
Qed.

(** After [open(p, "w")], what a run appends is all there is in [p]. *)
Lemma opened_then_appended (p txt : string) (s s1 s' : State W Obj)
    (before : list event) :
  trace s1 = before ++ [EvOpen p] ->
  appends p txt s1 s' ->
  forall acc, file_text p (trace s') acc = txt.
Proof.
  intros Hs1 (_ & evs & Hev & Hf) acc.
  rewrite Hev, Hs1. rewrite !file_text_app. cbn.
  rewrite String.eqb_refl. apply Hf.
Qed.

Lemma save_subtitles (r : Result) (p fmt : string) (s : State W Obj)
    (body : M W Obj unit) (txt : string) :
  AudioTranscriber.write_format r p fmt
  = bind (AudioTranscriber.fopen p) (fun _ => body) ->
  (forall s1, exists s2, body s1 = (Return tt, s2) /\ appends p txt s1 s2) ->
  fst (AudioTranscriber.save_transcription r p fmt s) = Return tt
  /\ forall acc,
       file_text p (trace (snd (AudioTranscriber.save_transcription r p fmt s)))
         acc = txt.
Proof.
  intros Hfmt Hbody.
  assert (exists s3,
             AudioTranscriber.save_transcription r p fmt s = (Return tt, s3)
             /\ forall acc, file_text p (trace s3) acc = txt)
    as (s3 & -> & Hfile).
  { rewrite save_transcription_cases. cbv zeta.
    pose proof (makedirs_ok (world s)
                  (PosixPath.str (PosixPath.parent (PosixPath.Path p)))) as Hm.
    destruct (makedirs (world s) _) as [o w1]. cbn in Hm. subst o.
    rewrite Hfmt. unfold bind at 1, AudioTranscriber.fopen, call.
    cbn [world trace this].
    pose proof (open_ok w1 p) as Ho.
    destruct (open_w w1 p) as [o w2]. cbn in Ho. subst o.
    cbv beta iota.
    match goal with |- context [body ?st] =>
      destruct (Hbody st) as (s2 & -> & Happ);
      pose proof (opened_then_appended p txt st st s2 _ eq_refl Happ) as Hfile
    end.
    eexists. split; [reflexivity|].
    intros acc. cbn [trace]. rewrite file_text_app. cbn. apply Hfile. }
  split; [reflexivity | exact Hfile].
Qed.

(** C6, as amended: for a result whose time stamps convert, saving as
    srt puts in the file one block per segment, in order: the index counted from 1, the
    line [start --> end] with a comma before the milliseconds, the
    stripped text and an empty line. Saving as vtt puts the WEBVTT header
    and an empty line, then the same blocks without the index line and
    with a dot in place of the comma. The time stamps of a segment convert
    whenever its ends are non-negative doubles below [2^53], and below a
    hundred hours each is [HH:MM:SS], the separator and [mmm], all
    digits. *)
Theorem C6_srt_and_vtt_files (r : Result) (p fmt : string) (s : State W Obj) :
  Forall convertible (segments r) ->
  (PyStr.lower fmt = "srt" ->
     fst (AudioTranscriber.save_transcription r p fmt s) = Return tt
     /\ forall acc,
          file_text p
            (trace (snd (AudioTranscriber.save_transcription r p fmt s))) acc
          = srt_text r)
  /\ (PyStr.lower fmt = "vtt" ->
        fst (AudioTranscriber.save_transcription r p fmt s) = Return tt
        /\ forall acc,
             file_text p
               (trace (snd (AudioTranscriber.save_transcription r p fmt s)))
               acc
             = vtt_text r)
  /\ (forall i seg rest,
        srt_blocks i (seg :: rest)
        = (PyStr.of_nat i ++ PyStr.LF
           ++ subtitle_time "," (seg_start seg) ++ " --> "
           ++ subtitle_time "," (seg_end seg) ++ PyStr.LF
           ++ PyStr.strip (seg_text seg) ++ PyStr.LF ++ PyStr.LF
           ++ srt_blocks (S i) rest)%string
        /\ vtt_blocks (seg :: rest)
           = (subtitle_time "." (seg_start seg) ++ " --> "
              ++ subtitle_time "." (seg_end seg) ++ PyStr.LF
              ++ PyStr.strip (seg_text seg) ++ PyStr.LF ++ PyStr.LF
              ++ vtt_blocks rest)%string)
  /\ (forall x hours minutes secs millisecs,
        AudioTranscriber.time_fields x
        = Return (hours, minutes, secs, millisecs) ->
        forall sep,
          subtitle_time sep x
          = (PyStr.format_0d 2 hours ++ ":" ++ PyStr.format_0d 2 minutes
             ++ ":" ++ PyStr.format_0d 2 secs ++ sep
             ++ PyStr.format_0d 3 millisecs)%string)
  /\ (forall seg a b,
        measures (seg_start seg) a -> (a < 2 ^ 53 * unity)%Z ->
        measures (seg_end seg) b -> (b < 2 ^ 53 * unity)%Z ->
        convertible seg)
  /\ (forall x u sep,
        measures x u -> (u < 360000 * unity)%Z ->
        stamp_shaped sep (subtitle_time sep x)).
Proof.
  intros Hconv. split; [|split; [|split; [|split; [|split]]]].
  - intros Hfmt.
    apply (save_subtitles r p fmt s
             (AudioTranscriber.srt_loop p 1 (segments r))).
    + unfold AudioTranscriber.write_format. cbv zeta. rewrite Hfmt.
      reflexivity.
    + intros s1. apply (srt_loop_appends p _ Hconv 1 s1).
  - intros Hfmt.
    apply (save_subtitles r p fmt s
             (bind (AudioTranscriber.fwrite p
                      ("WEBVTT" ++ PyStr.LF ++ PyStr.LF))
                (fun _ => AudioTranscriber.vtt_loop p (segments r)))).
    + unfold AudioTranscriber.write_format. cbv zeta. rewrite Hfmt.
      reflexivity.
    + intros s1.
      destruct (bind_fwrite p ("WEBVTT" ++ PyStr.LF ++ PyStr.LF)
                  (fun _ => AudioTranscriber.vtt_loop p (segments r)) s1)
        as (s2 & A1 & ->).
      destruct (vtt_loop_appends p _ Hconv s2) as (s3 & -> & A2).
      exists s3. split; [reflexivity|].
      apply (appends_trans _ _ _ _ _ _ A1 A2).
  - intros i seg rest. cbn [srt_blocks vtt_blocks]. unfold subtitle_block.
    repeat rewrite append_assoc. split; reflexivity.
  - intros x hours minutes secs millisecs Hx sep.
    unfold subtitle_time. rewrite Hx. reflexivity.
  - exact measured_convertible.
  - exact stamps_shaped.
Qed.

End ReliableOutput.

Lemma C6_srt_and_vtt_files_witness :
  fst (AudioTranscriber.save_transcription Demo.hello "/out/talk.srt" "SRT"
         (Demo.start Demo.w0 tt)) = Return tt
  /\ forall acc,
       file_text "/out/talk.srt"
         (trace (snd (AudioTranscriber.save_transcription Demo.hello
                        "/out/talk.srt" "SRT" (Demo.start Demo.w0 tt))))
         acc
       = srt_text Demo.hello.
Proof.
  apply (proj1 (@C6_srt_and_vtt_files Demo.World unit Demo.platform
                  (fun _ _ => eq_refl) (fun _ _ => eq_refl)
                  (fun _ _ _ => eq_refl)
                  Demo.hello "/out/talk.srt" "SRT" (Demo.start Demo.w0 tt)
                  ltac:(repeat constructor; eexists; vm_compute; reflexivity))).
  reflexivity.
Defined.

(** C6, as stated, fails in two ways. The text of a segment is stripped
    before it is written: whisper's segments begin with a blank, and the
    file has ["Hello world."] where the segment has [" Hello world."], so
    the file is not the layout with the segment text itself. And the layout
    is not that of every result: with a time stamp that is not a number,
    saving raises and the file has no block at all. *)
Lemma C6_counterexample :
  let run fmt p :=
    AudioTranscriber.save_transcription Demo.hello p fmt
      (Demo.start Demo.w0 tt) in
  let broken :=
    {| text := " Goodbye.";
       segments := [ {| seg_start := S754_nan; seg_end := PyFloat.of_Z 2;
                        seg_text := " Goodbye." |} ];
       language := None; metadata := None |} in
  let failed :=
    AudioTranscriber.save_transcription broken "/out/talk.srt" "srt"
      (Demo.start Demo.w0 tt) in
  (fst (run "srt" "/out/talk.srt") = Return tt
   /\ file_text "/out/talk.srt" (trace (snd (run "srt" "/out/talk.srt"))) "stale"
      = srt_text Demo.hello
   /\ srt_text Demo.hello <> claimed_srt_text Demo.hello
   /\ claimed_srt_text Demo.hello
      = PyStr.join PyStr.LF
          [ "1"; "00:00:00,000 --> 00:00:01,500"; " Hello world."; "";
            "2"; "00:00:01,500 --> 00:59:59,999"; " Goodbye."; ""; "" ])
  /\ (fst (run "vtt" "/out/talk.vtt") = Return tt
      /\ file_text "/out/talk.vtt" (trace (snd (run "vtt" "/out/talk.vtt")))
           "stale"
         = vtt_text Demo.hello
      /\ vtt_text Demo.hello <> claimed_vtt_text Demo.hello)
  /\ (fst failed
      = Raise (saving_error
                 (Exn "ValueError" "cannot convert float NaN to integer" None))
      /\ file_text "/out/talk.srt" (trace (snd failed)) "stale" = "").
Proof.
  cbv zeta. repeat split; try (vm_compute; reflexivity);
    vm_compute; discriminate.
Qed.

(** The two files for a transcription of two segments. *)
Lemma subtitle_files_example :
  srt_text Demo.hello
  = PyStr.join PyStr.LF
      [ "1"; "00:00:00,000 --> 00:00:01,500"; "Hello world."; "";
        "2"; "00:00:01,500 --> 00:59:59,999"; "Goodbye."; ""; "" ]
  /\ vtt_text Demo.hello
     = PyStr.join PyStr.LF
         [ "WEBVTT"; "";
           "00:00:00.000 --> 00:00:01.500"; "Hello world."; "";
           "00:00:01.500 --> 00:59:59.999"; "Goodbye."; ""; "" ].
Proof. split; vm_compute; reflexivity. Qed.

(** ** Stripping, once more *)

Lemma startswith_prefix (s p : string) :
  PyStr.startswith s p = true -> exists r, s = (p ++ r)%string.
Proof.
  revert s. induction p as [|a p IH]; intros s Hs.
  - now exists s.
  - destruct s as [|b s]; [discriminate|]. cbn in Hs.
    apply andb_true_iff in Hs as [Hab Hs]. apply Ascii.eqb_eq in Hab. subst b.
    destruct (IH _ Hs) as [r ->]. now exists r.
Qed.

Lemma startswith_app (s p x : string) :
  PyStr.startswith s p = true -> PyStr.startswith (s ++ x) p = true.
Proof.
  intros Hs. destruct (startswith_prefix _ _ Hs) as [r ->].
  rewrite append_assoc. clear Hs. induction p as [|a p IH]; [reflexivity|].
  cbn. now rewrite Ascii.eqb_refl, IH.
Qed.

Lemma startswith_empty (p : string) :
  p <> "" -> PyStr.startswith "" p = false.
Proof. destruct p; [congruence | reflexivity]. Qed.

Lemma strrev_app (a b : string) :
  PyStr.rev (a ++ b) = (PyStr.rev b ++ PyStr.rev a)%string.
Proof.
  induction a as [|c a IH]; cbn [append].
  - now rewrite append_nil_r.
  - now rewrite !rev_cons, IH, append_assoc.
Qed.

Lemma strrev_involutive (s : string) : PyStr.rev (PyStr.rev s) = s.
Proof.
  induction s as [|c s IH]; [reflexivity|].
  now rewrite rev_cons, rev_snoc, IH.
Qed.

Lemma strrev_length (s : string) : String.length (PyStr.rev s) = String.length s.
Proof.
  induction s as [|c s IH]; [reflexivity|].
  rewrite rev_cons, length_append, IH. cbn. lia.
Qed.

Lemma strip_one_split (table : list string) (s r : string) :
  PyStr.strip_one table s = Some r ->
  exists p, In p table /\ s = (p ++ r)%string.
Proof.
  induction table as [|p table IH]; cbn; [discriminate|].
  destruct (PyStr.startswith s p) eqn:Hp.
  - intros [= <-]. destruct (startswith_prefix _ _ Hp) as [r ->].
    exists p. split; [now left|]. now rewrite drop_app.
  - intros Hr. destruct (IH Hr) as (q & Hq & ->). exists q. split; [now right | reflexivity].
Qed.

Lemma strip_one_empty (table : list string) :
  Forall (fun p => p <> "") table -> PyStr.strip_one table "" = None.
Proof.
  induction 1 as [|p table Hp _ IH]; [reflexivity|].
  cbn [PyStr.strip_one]. now rewrite (startswith_empty _ Hp).
Qed.

Lemma strip_one_prefix (table : list string) (a b : string) :
  PyStr.strip_one table (a ++ b) = None -> PyStr.strip_one table a = None.
Proof.
  induction table as [|p table IH]; [reflexivity|]. cbn [PyStr.strip_one].
  destruct (PyStr.startswith a p) eqn:Hp.
  - now rewrite (startswith_app _ _ b Hp).
  - destruct (PyStr.startswith (a ++ b) p); [discriminate | exact IH].
Qed.

Lemma strip_many_fixed (table : list string) (n : nat) (s : string) :
  PyStr.strip_one table s = None -> PyStr.strip_many table n s = s.
Proof. intros Hs. destruct n; cbn; [reflexivity | now rewrite Hs]. Qed.

Lemma strip_many_done (table : list string) :
  Forall (fun p => p <> "") table ->
  forall (n : nat) (s : string),
    String.length s <= n ->
    PyStr.strip_one table (PyStr.strip_many table n s) = None.
Proof.
  intros Htable. induction n as [|n IH]; intros s Hlen.
  - destruct s; [|cbn in Hlen; lia]. now apply strip_one_empty.
  - cbn [PyStr.strip_many]. destruct (PyStr.strip_one table s) as [r|] eqn:Hs; [|exact Hs].
    apply IH. destruct (strip_one_split _ _ _ Hs) as (p & Hp & ->).
    rewrite length_append in Hlen.
    assert (p <> "") as Hne by (rewrite Forall_forall in Htable; now apply Htable).
    destruct p; [congruence|]. cbn in Hlen. lia.
Qed.

Lemma strip_many_split (table : list string) (n : nat) (s : string) :
  exists pre, s = (pre ++ PyStr.strip_many table n s)%string.
Proof.
  revert s. induction n as [|n IH]; intros s; [now exists ""|].
  cbn [PyStr.strip_many]. destruct (PyStr.strip_one table s) as [r|] eqn:Hs; [|now exists ""].
  destruct (strip_one_split _ _ _ Hs) as (p & _ & ->).
  destruct (IH r) as [pre Hpre]. exists (p ++ pre)%string.
  now rewrite append_assoc, <- Hpre.
Qed.

Lemma whitespace_nonempty : Forall (fun p => p <> "") PyStr.whitespace.
Proof. repeat constructor; discriminate. Qed.

Lemma rev_whitespace_nonempty :
  Forall (fun p => p <> "") (map PyStr.rev PyStr.whitespace).
Proof. repeat constructor; discriminate. Qed.

Lemma lstrip_done (s : string) :
  PyStr.strip_one PyStr.whitespace (PyStr.lstrip s) = None.
Proof. apply strip_many_done; [apply whitespace_nonempty | lia]. Qed.

Lemma rstrip_done (s : string) :
  PyStr.strip_one (map PyStr.rev PyStr.whitespace) (PyStr.rev (PyStr.rstrip s))
  = None.
Proof.
  unfold PyStr.rstrip. rewrite strrev_involutive.
  apply strip_many_done; [apply rev_whitespace_nonempty | rewrite strrev_length; lia].
Qed.

Lemma rstrip_split (s : string) :
  exists suf, s = (PyStr.rstrip s ++ suf)%string.
Proof.
  unfold PyStr.rstrip.
  destruct (strip_many_split (map PyStr.rev PyStr.whitespace)
              (String.length s) (PyStr.rev s)) as [pre Hpre].
  exists (PyStr.rev pre).
  rewrite <- strrev_app, <- Hpre. now rewrite strrev_involutive.
Qed.

(** [strip] leaves a stripped string as it is. *)
Lemma strip_strip (t : string) : PyStr.strip (PyStr.strip t) = PyStr.strip t.
Proof.
  unfold PyStr.strip. set (u := PyStr.lstrip t).
  assert (PyStr.lstrip (PyStr.rstrip u) = PyStr.rstrip u) as ->.
  { unfold PyStr.lstrip at 1. apply strip_many_fixed.
    destruct (rstrip_split u) as [suf Hsuf].
    apply (strip_one_prefix _ _ suf). rewrite <- Hsuf. apply lstrip_done. }
  unfold PyStr.rstrip at 1. rewrite strip_many_fixed by apply rstrip_done.
  apply strrev_involutive.
Qed.

(** ** Absolute paths stay absolute *)

Lemma isabs_join (a b : string) :
  PosixPath.isabs a = true -> PosixPath.isabs (PosixPath.join a b) = true.
Proof.
  intros Ha. unfold PosixPath.join.
  destruct (PyStr.startswith b "/") eqn:Hb; [exact Hb|].
  destruct (String.eqb a "" || PyStr.endswith a "/"); now apply startswith_app.
Qed.

Lemma isabs_Path (s : string) :
  PosixPath.isabs s = true ->
  PosixPath.isabs (PosixPath.str (PosixPath.Path s)) = true.
Proof.
  intros Hs. destruct (isabs_inv _ Hs) as [r ->].
  unfold PosixPath.Path, PosixPath.splitroot.
  replace (PyStr.startswith (String "/" r) "/") with true by reflexivity.
  cbn [negb].
  destruct (negb (PyStr.startswith (PyStr.drop 1 (String "/" r)) "/")
            || PyStr.startswith (PyStr.drop 2 (String "/" r)) "/");
    reflexivity.
Qed.

Lemma isabs_joinpath (p : PurePath) (x : string) :
  PosixPath.isabs (PosixPath.str p) = true ->
  PosixPath.isabs (PosixPath.str (p // x)) = true.
Proof. intros Hp. unfold PosixPath.joinpath. now apply isabs_Path, isabs_join. Qed.

Lemma is_absolute_isabs (p : PurePath) :
  normal p -> PosixPath.is_absolute p = true ->
  PosixPath.isabs (PosixPath.str p) = true.
Proof.
  intros [Hroot _]. unfold PosixPath.is_absolute, PosixPath.str.
  destruct Hroot as [-> | [-> | ->]]; [discriminate | reflexivity | reflexivity].
Qed.

Section Resolution.
Context {W : Type} `{Platform W}.

Lemma path_absolute_isabs (w : W) (q : PurePath) :
  normal q -> PosixPath.isabs (getcwd w) = true ->
  PosixPath.isabs (PosixPath.str (path_absolute w q)) = true.
Proof.
  intros Hq Hcwd. unfold path_absolute.
  destruct (PosixPath.is_absolute q) eqn:Habs.
  - now apply is_absolute_isabs.
  - now apply isabs_joinpath, isabs_Path.
Qed.

Lemma common_folders_absolute (w : W) :
  PosixPath.isabs (home w) = true ->
  Forall (fun f => PosixPath.isabs (PosixPath.str f) = true)
    (map snd (PathUtils.get_common_folders w)).
Proof.
  intros Hhome. unfold PathUtils.get_common_folders. cbn [map snd].
  repeat constructor; repeat apply isabs_joinpath; now apply isabs_Path.
Qed.

Lemma shortcut_loop_isabs (w : W) (p r : string)
    (items : list (string * PurePath)) :
  Forall (fun f => PosixPath.isabs (PosixPath.str f) = true) (map snd items) ->
  PathUtils.shortcut_loop w p items = Return (Some r) ->
  PosixPath.isabs r = true.
Proof.
  induction items as [|[k f] items IH]; cbn [PathUtils.shortcut_loop map snd];
    [discriminate|].
  intros Hall Hr. inversion Hall as [|? ? Hf Hrest]; subst.
  destruct (PyStr.startswith p (k ++ "/") || PyStr.startswith p (k ++ "\"));
    [|now apply IH].
  destruct (path_exists w _) as [[|]|e]; [| now apply IH | discriminate].
  injection Hr as <-. now apply isabs_joinpath.
Qed.

Lemma filename_loop_isabs (w : W) (p r : string) (values : list PurePath) :
  Forall (fun f => PosixPath.isabs (PosixPath.str f) = true) values ->
  PathUtils.filename_loop w p values = Return (Some r) ->
  PosixPath.isabs r = true.
Proof.
  induction values as [|f values IH]; cbn [PathUtils.filename_loop];
    [discriminate|].
  intros Hall Hr. inversion Hall as [|? ? Hf Hrest]; subst.
  destruct (path_exists w _) as [[|]|e]; [| now apply IH | discriminate].
  injection Hr as <-. now apply isabs_joinpath.
Qed.

(** What a loop returns was seen to exist; what it raises was raised by a
    probe. *)
Lemma shortcut_loop_found (w : W) (p r : string)
    (items : list (string * PurePath)) :
  PathUtils.shortcut_loop w p items = Return (Some r) ->
  exists q, path_exists w q = Return true /\ r = PosixPath.str q.
Proof.
  induction items as [|[k f] items IH]; cbn [PathUtils.shortcut_loop];
    [discriminate|].
  destruct (PyStr.startswith p (k ++ "/") || PyStr.startswith p (k ++ "\"));
    [|exact IH].
  destruct (path_exists w _) as [[|]|e] eqn:Hex; [| exact IH | discriminate].
  intros [= <-]. eexists. split; [exact Hex | reflexivity].
Qed.

Lemma shortcut_loop_raised (w : W) (p : string)
    (items : list (string * PurePath)) (e : exn) :
  PathUtils.shortcut_loop w p items = Raise e ->
  exists q, path_exists w q = Raise e.
Proof.
  induction items as [|[k f] items IH]; cbn [PathUtils.shortcut_loop];
    [discriminate|].
  destruct (PyStr.startswith p (k ++ "/") || PyStr.startswith p (k ++ "\"));
    [|exact IH].
  destruct (path_exists w _) as [[|]|e1] eqn:Hex; [discriminate | exact IH |].
  intros [= <-]. eexists. exact Hex.
Qed.

Lemma filename_loop_found (w : W) (p r : string) (values : list PurePath) :
  PathUtils.filename_loop w p values = Return (Some r) ->
  exists q, path_exists w q = Return true /\ r = PosixPath.str q.
Proof.
  induction values as [|f values IH]; cbn [PathUtils.filename_loop];
    [discriminate|].
  destruct (path_exists w _) as [[|]|e] eqn:Hex; [| exact IH | discriminate].
  intros [= <-]. eexists. split; [exact Hex | reflexivity].
Qed.

Lemma filename_loop_raised (w : W) (p : string) (values : list PurePath)
    (e : exn) :
  PathUtils.filename_loop w p values = Raise e ->
  exists q, path_exists w q = Raise e.
Proof.
  induction values as [|f values IH]; cbn [PathUtils.filename_loop];
    [discriminate|].
  destruct (path_exists w _) as [[|]|e1] eqn:Hex; [discriminate | exact IH |].
  intros [= <-]. eexists. exact Hex.
Qed.

(** The ways through [resolve_path]. *)
Lemma resolve_path_cases (w : W) (token : string) :
  let p := PyStr.strip token in
  let folders := PathUtils.get_common_folders w in
  let o := PathUtils.resolve_path w token in
  PosixPath.isabs p = true /\ o = Return p
  \/ PosixPath.isabs p = false
     /\ ((exists x, PathUtils.shortcut_loop w p folders = Return (Some x)
                    /\ o = Return x)
         \/ (exists e, PathUtils.shortcut_loop w p folders = Raise e
                       /\ o = Raise e)
         \/ PathUtils.shortcut_loop w p folders = Return None
            /\ ((exists x, PathUtils.is_bare_filename p = true
                           /\ PathUtils.filename_loop w p (map snd folders)
                              = Return (Some x)
                           /\ o = Return x)
                \/ (exists e, PathUtils.is_bare_filename p = true
                              /\ PathUtils.filename_loop w p (map snd folders)
                                 = Raise e
                              /\ o = Raise e)
                \/ (PathUtils.is_bare_filename p = true ->
                    PathUtils.filename_loop w p (map snd folders)
                    = Return None)
                   /\ o = PathUtils.resolve_relative w p)).
Proof.
  intros p folders o. subst o. unfold PathUtils.resolve_path.
  fold p. fold folders.
  destruct (PosixPath.isabs p); [now left|]. right. split; [reflexivity|].
  destruct (PathUtils.shortcut_loop w p folders) as [[x|]|e];
    [left; now exists x | | right; left; now exists e].
  right. right. split; [reflexivity|].
  destruct (PathUtils.is_bare_filename p).
  - destruct (PathUtils.filename_loop w p _) as [[x|]|e];
      [left; now exists x | | right; left; now exists e].
    right. right. now split.
  - right. right. split; [discriminate | reflexivity].
Qed.

(** X1: with an absolute home and working directory, what [resolve_path]
    returns is either an absolute path or the stripped input itself; for a
    relative input, getting the input back means that every probe answered
    no, and any other result is the absolute path of something that was
    seen to exist. When [resolve_path] raises instead, the input is
    relative and the error is the one a probe raised, which is no
    [FileNotFoundError]. *)
Theorem resolve_path_absolute_or_unchanged (w : W) (token : string) :
  PosixPath.isabs (home w) = true ->
  PosixPath.isabs (getcwd w) = true ->
  let p := PyStr.strip token in
  (forall r,
      PathUtils.resolve_path w token = Return r ->
      (PosixPath.isabs r = true \/ r = p)
      /\ (PosixPath.isabs p = false -> r = p ->
          PathUtils.shortcut_loop w p (PathUtils.get_common_folders w)
          = Return None
          /\ (PathUtils.is_bare_filename p = true ->
              PathUtils.filename_loop w p
                (map snd (PathUtils.get_common_folders w)) = Return None)
          /\ path_exists w (PosixPath.Path p) = Return false)
      /\ (r <> p ->
          PosixPath.isabs r = true
          /\ exists q, path_exists w q = Return true
                       /\ (r = PosixPath.str q
                           \/ r = PosixPath.str (path_absolute w q))))
  /\ (forall e,
         PathUtils.resolve_path w token = Raise e ->
         PosixPath.isabs p = false
         /\ is_FileNotFoundError e = false
         /\ exists q, path_exists w q = Raise e).
Proof.
  intros Hhome Hcwd p.
  pose proof (common_folders_absolute w Hhome) as Hfolders.
  assert (forall x, PosixPath.isabs x = true -> PosixPath.isabs p = false ->
                    x <> p) as Hneq by (intros x Hx Hp ->; congruence).
  assert (forall r, PosixPath.isabs r = true -> PosixPath.isabs p = false ->
                    (exists q, path_exists w q = Return true
                               /\ (r = PosixPath.str q
                                   \/ r = PosixPath.str (path_absolute w q))) ->
                    (PosixPath.isabs r = true \/ r = p)
                    /\ (PosixPath.isabs p = false -> r = p ->
                        PathUtils.shortcut_loop w p
                          (PathUtils.get_common_folders w) = Return None
                        /\ (PathUtils.is_bare_filename p = true ->
                            PathUtils.filename_loop w p
                              (map snd (PathUtils.get_common_folders w))
                            = Return None)
                        /\ path_exists w (PosixPath.Path p) = Return false)
                    /\ (r <> p ->
                        PosixPath.isabs r = true
                        /\ exists q, path_exists w q = Return true
                                     /\ (r = PosixPath.str q
                                         \/ r = PosixPath.str
                                                  (path_absolute w q))))
    as Hseen.
  { intros r Habs Hp Hq. split; [now left|].
    split; [intros _ Hrp; now destruct (Hneq r Habs Hp)|].
    intros _. now split. }
  destruct (resolve_path_cases w token)
    as [[Hp Hr] | [Hp [(x & Hx & Hr) | [(e1 & Hx & Hr)
                       | [Hnone [(x & Hb & Hx & Hr) | [(e1 & Hb & Hx & Hr)
                                                      | [Hfn Hr]]]]]]]];
    fold p in Hp; fold p in Hr; try fold p in Hx; try fold p in Hnone;
    try fold p in Hfn; try fold p in Hb.
  - split.
    + intros r Heq. rewrite Hr in Heq. injection Heq as <-.
      split; [now right|]. split; [congruence|]. intros Hne. now destruct Hne.
    + intros e Heq. rewrite Hr in Heq. discriminate.
  - split.
    + intros r Heq. rewrite Hr in Heq. injection Heq as <-.
      apply Hseen; [exact (shortcut_loop_isabs _ _ _ _ Hfolders Hx) | exact Hp |].
      destruct (shortcut_loop_found _ _ _ _ Hx) as (q & Hq & ->).
      exists q. split; [exact Hq | now left].
    + intros e Heq. rewrite Hr in Heq. discriminate.
  - split.
    + intros r Heq. rewrite Hr in Heq. discriminate.
    + intros e Heq. rewrite Hr in Heq. injection Heq as <-.
      split; [exact Hp|].
      split; [exact (shortcut_loop_error_class _ _ _ _ Hx)
             | exact (shortcut_loop_raised _ _ _ _ Hx)].
  - split.
    + intros r Heq. rewrite Hr in Heq. injection Heq as <-.
      apply Hseen; [exact (filename_loop_isabs _ _ _ _ Hfolders Hx) | exact Hp |].
      destruct (filename_loop_found _ _ _ _ Hx) as (q & Hq & ->).
      exists q. split; [exact Hq | now left].
    + intros e Heq. rewrite Hr in Heq. discriminate.
  - split.
    + intros r Heq. rewrite Hr in Heq. discriminate.
    + intros e Heq. rewrite Hr in Heq. injection Heq as <-.
      split; [exact Hp|].
      split; [exact (filename_loop_error_class _ _ _ _ Hx)
             | exact (filename_loop_raised _ _ _ _ Hx)].
  - unfold PathUtils.resolve_relative in Hr.
    destruct (path_exists w (PosixPath.Path p)) as [[|]|e1] eqn:Hex.
    + split; [|intros e Heq; rewrite Hr in Heq; discriminate].
      intros r Heq. rewrite Hr in Heq. injection Heq as <-.
      apply Hseen;
        [apply path_absolute_isabs; [apply Path_normal | exact Hcwd]
        | exact Hp |].
      exists (PosixPath.Path p). split; [exact Hex | now right].
    + split; [|intros e Heq; rewrite Hr in Heq; discriminate].
      intros r Heq. rewrite Hr in Heq. injection Heq as <-.
      split; [now right|]. split; [intros _ _; now repeat split|].
      intros Hne. now destruct Hne.
    + split; [intros r Heq; rewrite Hr in Heq; discriminate|].
      intros e Heq. rewrite Hr in Heq. injection Heq as <-.
      split; [exact Hp|]. split; [|now exists (PosixPath.Path p)].
      unfold path_exists in Hex.
      destruct (stat w _) as [| |e'] eqn:Hstat; try discriminate.
      injection Hex as <-. exact (stat_error_kept _ _ _ Hstat).
Qed.

(** X2: resolving a resolved path again only strips it: the second call
    finds nothing new. *)
Theorem resolve_path_twice (w : W) (token r : string) :
  PosixPath.isabs (home w) = true ->
  PosixPath.isabs (getcwd w) = true ->
  PathUtils.resolve_path w token = Return r ->
  PathUtils.resolve_path w r = Return (PyStr.strip r)
  /\ (PyStr.strip r = r -> PathUtils.resolve_path w r = Return r).
Proof.
  intros Hhome Hcwd Hres.
  assert (PathUtils.resolve_path w r = Return (PyStr.strip r)) as Hr.
  { assert (PosixPath.isabs r = true \/ r = PyStr.strip token)
      as [Habs | Hsame].
    { pose proof (common_folders_absolute w Hhome) as Hfolders.
      destruct (resolve_path_cases w token)
        as [[Hp Ho] | [Hp [(x & Hx & Ho) | [(e1 & Hx & Ho)
                           | [Hnone [(x & Hb & Hx & Ho) | [(e1 & Hb & Hx & Ho)
                                                          | [Hfn Ho]]]]]]]];
        rewrite Hres in Ho; try discriminate.
      - injection Ho as ->. now right.
      - injection Ho as ->. left.
        exact (shortcut_loop_isabs _ _ _ _ Hfolders Hx).
      - injection Ho as ->. left.
        exact (filename_loop_isabs _ _ _ _ Hfolders Hx).
      - unfold PathUtils.resolve_relative in Ho.
        destruct (path_exists w _) as [[|]|e1]; [| | discriminate];
          injection Ho as ->; [left | now right].
        apply path_absolute_isabs; [apply Path_normal | exact Hcwd]. }
    - apply resolve_path_absolute. now apply isabs_strip.
    - assert (PathUtils.resolve_path w (PyStr.strip token) = Return r)
        as Hagain.
      { rewrite <- Hres. unfold PathUtils.resolve_path.
        now rewrite strip_strip. }
      rewrite Hsame at 1. rewrite Hagain. f_equal.
      rewrite Hsame at 2. now rewrite strip_strip. }
  split; [exact Hr|]. intros Hs. now rewrite Hr, Hs.
Qed.

End Resolution.

Lemma resolve_path_absolute_or_unchanged_witness :
  PathUtils.resolve_path Demo.w0 "downloads/x.mp4" = Return "downloads/x.mp4"
  /\ path_exists Demo.w0 (PosixPath.Path "downloads/x.mp4") = Return false
  /\ PathUtils.resolve_path Demo.w0 " x.mp4" = Return "/home/u/Desktop/x.mp4"
  /\ PosixPath.isabs "/home/u/Desktop/x.mp4" = true.
Proof.
  pose proof (proj1 (resolve_path_absolute_or_unchanged Demo.w0
                       "downloads/x.mp4" eq_refl eq_refl)
                "downloads/x.mp4" eq_refl) as (_ & Hsame & _).
  pose proof (proj1 (resolve_path_absolute_or_unchanged Demo.w0 " x.mp4"
                       eq_refl eq_refl)
                "/home/u/Desktop/x.mp4" eq_refl) as (_ & _ & Hfound).
  split; [reflexivity|]. split; [|split; [reflexivity|]].
  - apply Hsame; reflexivity.
  - apply Hfound. discriminate.
Defined.

Lemma resolve_path_twice_witness :
  PathUtils.resolve_path Demo.w0 "/home/u/Desktop/x.mp4"
  = Return "/home/u/Desktop/x.mp4".
Proof.
  exact (proj1 (resolve_path_twice Demo.w0 " desktop/x.mp4"
                  "/home/u/Desktop/x.mp4" eq_refl eq_refl eq_refl)).
Defined.

(** ** File names without a directory *)





Section BareNames.
Context {W : Type} `{Platform W}.







End BareNames.


(** ** The empty path *)

Section BlankInput.
Context {W : Type} `{Platform W}.



End BlankInput.


(** ** Output paths and directory scans *)

Section Outputs.
Context {W : Type} `{Platform W}.

Lemma resolve_path_nothing_found (w : W) (token : string) :
  PosixPath.isabs (PyStr.strip token) = false ->
  PathUtils.shortcut_loop w (PyStr.strip token) (PathUtils.get_common_folders w)
  = Return None ->
  (PathUtils.is_bare_filename (PyStr.strip token) = true ->
   PathUtils.filename_loop w (PyStr.strip token)
     (map snd (PathUtils.get_common_folders w)) = Return None) ->
  path_exists w (PosixPath.Path (PyStr.strip token)) = Return false ->
  PathUtils.resolve_path w token = Return (PyStr.strip token).
Proof.
  intros Habs Hshort Hbare Hrel. unfold PathUtils.resolve_path.
  rewrite Habs, Hshort. unfold PathUtils.resolve_relative. rewrite Hrel.
  destruct (PathUtils.is_bare_filename (PyStr.strip token));
    [now rewrite Hbare | reflexivity].
Qed.

(** X5: an explicit output path goes through the same resolver as the
    input, in the world as it is before the video is opened. When the
    resolver returns, the audio is written to the resolved path and that
    path is returned, whatever [audio_format] says; when one of its probes
    raises, [extract_audio] raises that error before anything is printed
    or opened. A shortcut therefore places a new file in its folder only
    if the file is already there: when the folder does not have it and the
    current directory does not either, the audio goes to the relative path
    as typed, and when the probe in the folder raises, so does the
    resolution. *)
Theorem explicit_output_is_resolved (Obj : Type) (v a : string)
    (s : State W Obj) (r : string) :
  PathUtils.resolve_path (world s) v = Return r ->
  os_path_exists (world s) r = true ->
  (forall out video w1 w2 w3,
      PathUtils.resolve_path (world s) a = Return out ->
      VideoFileClip (world s) r = (Return video, w1) ->
      clip_has_audio video = true ->
      write_audiofile w1 video out = (Return tt, w2) ->
      clip_close w2 video = (Return tt, w3) ->
      forall fmt,
        VideoConverter.extract_audio v (Some a) fmt s
        = (Return out,
           mkState w3
             (trace s ++ [ EvPrint ("Loading video: " ++ r); EvVideoFileClip r;
                           EvPrint ("Extracting audio to: " ++ out);
                           EvWriteAudiofile video out; EvClose video;
                           EvPrint "Audio extraction completed successfully!" ])
             (this s)))
  /\ (forall e,
         PathUtils.resolve_path (world s) a = Raise e ->
         forall fmt,
           VideoConverter.extract_audio v (Some a) fmt s = (Raise e, s))
  /\ (forall shortcut folder sep rest,
        In (shortcut, folder) (PathUtils.get_common_folders (world s)) ->
        separator sep ->
        PyStr.strip a = (shortcut ++ sep ++ rest)%string ->
        (path_exists (world s) (folder // rest) = Return false ->
         path_exists (world s) (PosixPath.Path (PyStr.strip a)) = Return false ->
         PathUtils.resolve_path (world s) a = Return (PyStr.strip a))
        /\ (forall e,
               path_exists (world s) (folder // rest) = Raise e ->
               PathUtils.resolve_path (world s) a = Raise e)).
Proof.
  intros Hres Hex. split; [|split].
  - intros out video w1 w2 w3 Hout Hopen Haudio Hwrite Hclose fmt.
    rewrite (extract_audio_found v (Some a) fmt s r out Hres Hex Hout).
    rewrite extract_audio_body_cases. cbv zeta.
    rewrite Hopen, Haudio, Hwrite, Hclose.
    rewrite <- !app_assoc. reflexivity.
  - intros e Hout fmt.
    exact (extract_audio_unresolved_output v (Some a) fmt s r e Hres Hex Hout).
  - intros shortcut folder sep rest Hin Hsep Hstrip.
    destruct (shortcut_token (world s) shortcut sep rest folder Hin Hsep)
      as (Habs & Hbare & Hloop).
    cbv zeta in Habs, Hbare, Hloop. rewrite <- Hstrip in Habs, Hbare, Hloop.
    split.
    + intros Hfolder Hrel. rewrite Hfolder in Hloop.
      apply resolve_path_nothing_found; try assumption.
      intros Hb. congruence.
    + intros e Hfolder. rewrite Hfolder in Hloop.
      unfold PathUtils.resolve_path. now rewrite Habs, Hloop.
Qed.

End Outputs.

Lemma explicit_output_is_resolved_witness :
  let long := PyStr.repeat "a" 300 in
  fst (VideoConverter.extract_audio "desktop/x.mp4" (Some "desktop/new.mp3")
         "wav" (Demo.start Demo.w0 tt))
  = Return "desktop/new.mp3"
  /\ VideoConverter.extract_audio "desktop/x.mp4" (Some ("desktop/" ++ long)%string)
       "mp3" (Demo.start Demo.w0 tt)
     = (Raise (Demo.name_too_long ("/home/u/Desktop/" ++ long)),
        Demo.start Demo.w0 tt).
Proof.
  intros long.
  pose proof (explicit_output_is_resolved unit "desktop/x.mp4"
                "desktop/new.mp3" (Demo.start Demo.w0 tt)
                "/home/u/Desktop/x.mp4" eq_refl eq_refl) as [Hrun _].
  pose proof (explicit_output_is_resolved unit "desktop/x.mp4"
                ("desktop/" ++ long)%string (Demo.start Demo.w0 tt)
                "/home/u/Desktop/x.mp4" eq_refl eq_refl) as (_ & Hraise & _).
  split.
  - now rewrite (Hrun "desktop/new.mp3"
                   {| clip_id := 0; clip_has_audio := true |}
                   (Demo.bump_clip Demo.w0)
                   (Demo.add_path "desktop/new.mp3" (Demo.bump_clip Demo.w0))
                   (Demo.add_path "desktop/new.mp3" (Demo.bump_clip Demo.w0))
                   eq_refl eq_refl eq_refl eq_refl eq_refl "wav").
  - apply Hraise. vm_compute. reflexivity.
Defined.

Section Scans.
Context {W : Type} `{Platform W}.

(** X6: what the two batch functions do before the first file. The
    directory is taken as given, without shortcut resolution: when
    [os.path.exists] fails on it, also for the empty string, both raise
    [FileNotFoundError] and nothing else happens. A failure to create the
    output directory or to list the input directory comes out as it is,
    not wrapped, and no file is processed. *)
Theorem batch_setup_errors :
  (forall (Obj : Type) (d : string) (od : option string) (fmt : string)
          (s : State W Obj),
      os_path_exists (world s) d = false ->
      VideoConverter.batch_convert d od fmt s
      = (Raise (FileNotFoundError ("Directory not found: " ++ d)), s))
  /\ (forall (d : string) (od lang : option string) (fmt : string)
             (s : State W AudioTranscriber.Self),
        os_path_exists (world s) d = false ->
        AudioTranscriber.batch_transcribe d od lang fmt s
        = (Raise (FileNotFoundError ("Directory not found: " ++ d)), s))
  /\ (forall (w : W), os_path_exists w "" = false)
  /\ (forall (Obj : Type) (d o fmt : string) (s : State W Obj) (e : exn)
             (w1 : W),
        os_path_exists (world s) d = true ->
        makedirs (world s) o = (Raise e, w1) ->
        VideoConverter.batch_convert d (Some o) fmt s
        = (Raise e, mkState w1 (trace s ++ [EvMakedirs o]) (this s)))
  /\ (forall (d : string) (od lang : option string) (fmt : string)
             (s : State W AudioTranscriber.Self) (e : exn) (w1 : W),
        os_path_exists (world s) d = true ->
        let outdir :=
          match od with
          | Some o => o
          | None => PosixPath.join d "transcriptions"
          end in
        makedirs (world s) outdir = (Raise e, w1) ->
        AudioTranscriber.batch_transcribe d od lang fmt s
        = (Raise e, mkState w1 (trace s ++ [EvMakedirs outdir]) (this s)))
  /\ (forall (Obj : Type) (d fmt : string) (s : State W Obj) (e : exn),
        os_path_exists (world s) d = true ->
        listdir (world s) d = Raise e ->
        VideoConverter.batch_convert d None fmt s = (Raise e, s))
  /\ (forall (d : string) (od lang : option string) (fmt : string)
             (s : State W AudioTranscriber.Self) (e : exn) (w1 : W),
        os_path_exists (world s) d = true ->
        let outdir :=
          match od with
          | Some o => o
          | None => PosixPath.join d "transcriptions"
          end in
        makedirs (world s) outdir = (Return tt, w1) ->
        listdir w1 d = Raise e ->
        AudioTranscriber.batch_transcribe d od lang fmt s
        = (Raise e, mkState w1 (trace s ++ [EvMakedirs outdir]) (this s))).
Proof.
  repeat apply conj.
  - intros Obj d od fmt s Hd. unfold VideoConverter.batch_convert.
    monad_unfold. now rewrite Hd.
  - intros d od lang fmt s Hd. unfold AudioTranscriber.batch_transcribe.
    monad_unfold. now rewrite Hd.
  - reflexivity.
  - intros Obj d o fmt s e w1 Hd Hmk. unfold VideoConverter.batch_convert.
    monad_unfold. rewrite Hd. cbn [negb]. now rewrite Hmk.
  - intros d od lang fmt s e w1 Hd outdir Hmk.
    unfold AudioTranscriber.batch_transcribe. monad_unfold. fold outdir.
    rewrite Hd. cbn [negb]. now rewrite Hmk.
  - intros Obj d fmt s e Hd Hls. unfold VideoConverter.batch_convert.
    monad_unfold. rewrite Hd. cbn [negb]. now rewrite Hls.
  - intros d od lang fmt s e w1 Hd outdir Hmk Hls.
    unfold AudioTranscriber.batch_transcribe. monad_unfold. fold outdir.
    rewrite Hd. cbn [negb]. rewrite Hmk. cbn [world]. now rewrite Hls.
Qed.

(** X7: a directory without any file of a known extension. Both batch
    functions return the empty list without opening a video or loading
    the model; [batch_convert] with an output directory and
    [batch_transcribe] in every case have created the output directory
    all the same, and [batch_transcribe] reports 0 of 0 files. *)
Theorem batch_with_nothing_to_do :
  (forall (Obj : Type) (d fmt : string) (s : State W Obj)
          (names : list string),
      os_path_exists (world s) d = true ->
      listdir (world s) d = Return names ->
      matching_files d VideoConverter.video_extensions names = [] ->
      VideoConverter.batch_convert d None fmt s = (Return [], s))
  /\ (forall (Obj : Type) (d o fmt : string) (s : State W Obj)
             (names : list string) (w1 : W),
        os_path_exists (world s) d = true ->
        makedirs (world s) o = (Return tt, w1) ->
        listdir w1 d = Return names ->
        matching_files d VideoConverter.video_extensions names = [] ->
        VideoConverter.batch_convert d (Some o) fmt s
        = (Return [], mkState w1 (trace s ++ [EvMakedirs o]) (this s)))
  /\ (forall (d : string) (od lang : option string) (fmt : string)
             (s : State W AudioTranscriber.Self) (names : list string)
             (w1 : W),
        os_path_exists (world s) d = true ->
        let outdir :=
          match od with
          | Some o => o
          | None => PosixPath.join d "transcriptions"
          end in
        makedirs (world s) outdir = (Return tt, w1) ->
        listdir w1 d = Return names ->
        matching_files d AudioTranscriber.audio_extensions names = [] ->
        AudioTranscriber.batch_transcribe d od lang fmt s
        = (Return [],
           mkState w1
             (trace s
              ++ [ EvMakedirs outdir;
                   EvPrint "🎵 Found 0 audio files to transcribe";
                   EvPrint (PyStr.LF
                            ++ "🎉 Batch transcription completed! 0/0 files processed") ])
             (this s))).
Proof.
  repeat apply conj.
  - intros Obj d fmt s names Hd Hls Hnone.
    unfold VideoConverter.batch_convert. monad_unfold.
    rewrite Hd. cbn [negb]. rewrite Hls. now rewrite Hnone.
  - intros Obj d o fmt s names w1 Hd Hmk Hls Hnone.
    unfold VideoConverter.batch_convert. monad_unfold.
    rewrite Hd. cbn [negb]. rewrite Hmk. cbn [world]. rewrite Hls. now rewrite Hnone.
  - intros d od lang fmt s names w1 Hd outdir Hmk Hls Hnone.
    unfold AudioTranscriber.batch_transcribe. monad_unfold. fold outdir.
    rewrite Hd. cbn [negb]. rewrite Hmk. cbn [world]. rewrite Hls, Hnone.
    cbn [AudioTranscriber.transcribe_loop List.length]. monad_unfold.
    rewrite <- !app_assoc. reflexivity.
Qed.

End Scans.

(** ** Which files a batch takes, and what it calls their outputs *)

Lemma Path_component (x : string) :
  component x -> PosixPath.Path x = PosixPath.mkPath "" [x].
Proof.
  intros Hx.
  assert (normal (PosixPath.mkPath "" [x])) as Hn
    by (split; [now left | constructor; [exact Hx | constructor]]).
  now rewrite <- (Path_str _ Hn) at 1.
Qed.

Lemma dotted_name_component (base e : string) :
  base <> "" ->
  PyStr.contains_char "/" base = false ->
  PyStr.contains_char "/" e = false ->
  component (base ++ "." ++ e)%string.
Proof. intros. now apply replaced_name_component. Qed.

Lemma suffix_of_dotted_name (p : PurePath) (base e : string) :
  PosixPath.name p = (base ++ "." ++ e)%string ->
  base <> "" -> e <> "" -> PyStr.contains_char "." e = false ->
  PosixPath.suffix p = ("." ++ e)%string /\ PosixPath.stem p = base.
Proof.
  intros Hname Hbase He Hdot. unfold PosixPath.suffix, PosixPath.stem.
  rewrite Hname, (suffix_index_replaced base e Hbase He Hdot).
  now rewrite drop_app, take_app.
Qed.

Lemma suffix_of_plain_name (p : PurePath) :
  PyStr.contains_char "." (PosixPath.name p) = false ->
  PosixPath.suffix p = "".
Proof.
  intros Hdot. unfold PosixPath.suffix, PosixPath.suffix_index.
  now rewrite (rfind_none "." _ Hdot).
Qed.

Lemma suffix_of_hidden_name (p : PurePath) (e : string) :
  PosixPath.name p = ("." ++ e)%string ->
  PyStr.contains_char "." e = false ->
  PosixPath.suffix p = "".
Proof.
  intros Hname Hdot. unfold PosixPath.suffix, PosixPath.suffix_index.
  rewrite Hname. change ("." ++ e)%string with ("" ++ String "." e)%string.
  now rewrite (rfind_app "." "" e Hdot).
Qed.

Lemma matching_files_app (d : string) (exts l1 l2 : list string) :
  matching_files d exts (l1 ++ l2)
  = matching_files d exts l1 ++ matching_files d exts l2.
Proof. unfold matching_files. now rewrite filter_app, map_app. Qed.

(** X8: which directory entries a batch takes. An entry [base.EXT] is
    taken exactly when [.EXT], in lower case, is in the extension set;
    only the part after the last dot counts. An entry that is nothing but
    a dot and an extension, like [.mp4], and an entry without a dot are
    never taken. The entries taken keep the order of the listing. *)
Theorem files_are_selected_by_last_extension (d : string)
    (exts l1 l2 : list string) (base e : string) :
  base <> "" ->
  PyStr.contains_char "/" base = false ->
  e <> "" ->
  PyStr.contains_char "." e = false ->
  PyStr.contains_char "/" e = false ->
  in_set "" exts = false ->
  matching_files d exts (l1 ++ (base ++ "." ++ e)%string :: l2)
  = matching_files d exts l1
    ++ (if in_set (PyStr.lower ("." ++ e)) exts
        then [PosixPath.join d (base ++ "." ++ e)] else [])
    ++ matching_files d exts l2
  /\ matching_files d exts (l1 ++ ("." ++ e)%string :: l2)
     = matching_files d exts l1 ++ matching_files d exts l2
  /\ (PyStr.contains_char "." base = false ->
      matching_files d exts (l1 ++ base :: l2)
      = matching_files d exts l1 ++ matching_files d exts l2).
Proof.
  intros Hbase Hslash He Hdot Heslash Hexts.
  assert (forall n, matching_files d exts (l1 ++ n :: l2)
                    = matching_files d exts l1
                      ++ matching_files d exts [n]
                      ++ matching_files d exts l2) as Hcut.
  { intros n. change (n :: l2) with ([n] ++ l2).
    now rewrite !matching_files_app. }
  assert (forall n, component n ->
                    matching_files d exts [n]
                    = if in_set (PyStr.lower
                                   (PosixPath.suffix (PosixPath.mkPath "" [n])))
                           exts
                      then [PosixPath.join d n] else []) as Hone.
  { intros n Hn. unfold matching_files. cbn [filter].
    rewrite (Path_component n Hn).
    destruct (in_set (PyStr.lower _) exts); reflexivity. }
  split; [|split].
  - rewrite Hcut, Hone by now apply dotted_name_component.
    now rewrite (proj1 (suffix_of_dotted_name (PosixPath.mkPath "" [_]) base e
                          eq_refl Hbase He Hdot)).
  - rewrite Hcut, Hone.
    + rewrite (suffix_of_hidden_name (PosixPath.mkPath "" [_]) e eq_refl Hdot).
      change (PyStr.lower "") with "". now rewrite Hexts.
    + repeat split; [discriminate | | exact Heslash].
      destruct e; [congruence | discriminate].
  - intros Hplain. rewrite Hcut, Hone.
    + rewrite (suffix_of_plain_name (PosixPath.mkPath "" [base]) Hplain).
      change (PyStr.lower "") with "". now rewrite Hexts.
    + repeat split; [exact Hbase | | exact Hslash].
      intros ->. discriminate.
Qed.

Lemma files_are_selected_by_last_extension_witness :
  matching_files "/in" VideoConverter.video_extensions
    (["a.mp4"; "notes.txt"] ++ "holiday.2024.MP4" :: [".mp4"; "mp4"])
  = ["/in/a.mp4"; "/in/holiday.2024.MP4"].
Proof.
  exact (proj1 (files_are_selected_by_last_extension "/in"
                  VideoConverter.video_extensions ["a.mp4"; "notes.txt"]
                  [".mp4"; "mp4"] "holiday.2024" "MP4"
                  ltac:(discriminate) eq_refl ltac:(discriminate)
                  eq_refl eq_refl eq_refl)).
Defined.

Lemma endswith_inv (s : string) :
  PyStr.endswith s "/" = true -> exists a, s = (a ++ "/")%string.
Proof.
  unfold PyStr.endswith. intros Hs.
  destruct (startswith_prefix _ _ Hs) as [r Hr].
  exists (PyStr.rev r). rewrite <- (strrev_involutive s), Hr.
  change (PyStr.rev "/" ++ r)%string with (String "/" r).
  apply rev_cons.
Qed.

Lemma split_last_piece (n a : string) :
  PyStr.contains_char "/" n = false ->
  exists h l, PyStr.split "/" (a ++ String "/" n) = h :: l ++ [n].
Proof.
  intros Hn. induction a as [|c a (h & l & IH)]; cbn [append PyStr.split].
  - exists "", []. cbn [Ascii.eqb Bool.eqb]. now rewrite (split_free "/" n Hn).
  - rewrite IH. destruct (Ascii.eqb c "/").
    + exists "", (h :: l). reflexivity.
    + exists (String c h), l. reflexivity.
Qed.

Lemma splitroot_rest (n a : string) :
  PyStr.startswith n "/" = false ->
  exists rt rel,
    PosixPath.splitroot (a ++ String "/" n) = (rt, rel)
    /\ (rel = n \/ exists a', rel = (a' ++ String "/" n)%string).
Proof.
  intros Hn. unfold PosixPath.splitroot.
  destruct a as [|c a]; cbn [append].
  - change (PyStr.startswith (String "/" n) "/") with true.
    cbn [negb PyStr.drop]. rewrite Hn. cbn [negb orb].
    eexists _, _. split; [reflexivity | now left].
  - destruct (PyStr.startswith (String c (a ++ String "/" n)) "/") eqn:Hc;
      cbn [negb].
    + cbn [PyStr.drop].
      destruct (negb (PyStr.startswith (a ++ String "/" n) "/") || _).
      * eexists _, _. split; [reflexivity|]. right. now exists a.
      * eexists _, _. split; [reflexivity|].
        destruct a as [|c' a]; cbn [append PyStr.drop].
        -- now left.
        -- right. now exists a.
    + eexists _, _. split; [reflexivity|]. right. now exists (String c a).
Qed.

Lemma name_of_pieces (rt : string) (h : string) (l : list string) (n : string) :
  component n ->
  PosixPath.name
    (PosixPath.mkPath rt (filter PosixPath.is_component (h :: l ++ [n]))) = n.
Proof.
  intros (H1 & H2 & _). unfold PosixPath.name. cbn [PosixPath.tail].
  assert (PosixPath.is_component n = true) as Hn.
  { unfold PosixPath.is_component. apply String.eqb_neq in H1, H2.
    now rewrite H1, H2. }
  change (h :: l ++ [n]) with ((h :: l) ++ [n]). rewrite filter_app.
  replace (filter PosixPath.is_component [n]) with [n]
    by (cbn [filter]; now rewrite Hn).
  apply last_last.
Qed.

(** The last component of [os.path.join(d, n)] is [n]. *)
Lemma name_of_join (d n : string) :
  component n -> PosixPath.name (PosixPath.Path (PosixPath.join d n)) = n.
Proof.
  intros Hn. pose proof (component_not_rooted n Hn) as Hrooted.
  pose proof Hn as (_ & _ & Hfree).
  assert (PosixPath.join d n = n
          \/ exists a, PosixPath.join d n = (a ++ String "/" n)%string)
    as [-> | [a ->]].
  { unfold PosixPath.join. rewrite Hrooted.
    destruct (String.eqb d "") eqn:Hd.
    - apply String.eqb_eq in Hd. subst d. now left.
    - cbn [orb]. destruct (PyStr.endswith d "/") eqn:Hend.
      + destruct (endswith_inv d Hend) as [a ->]. right. exists a.
        now rewrite append_assoc.
      + right. now exists d. }
  - now rewrite (Path_component n Hn).
  - destruct (splitroot_rest n a Hrooted) as (rt & rel & Hsplit & Hrel).
    unfold PosixPath.Path. rewrite Hsplit.
    destruct Hrel as [-> | [a' ->]].
    + rewrite (split_free "/" n Hfree).
      unfold PosixPath.name. cbn [PosixPath.tail filter].
      destruct Hn as (H1 & H2 & _). unfold PosixPath.is_component.
      apply String.eqb_neq in H1, H2. now rewrite H1, H2.
    + destruct (split_last_piece n a' Hfree) as (h & l & ->).
      now apply name_of_pieces.
Qed.

Section Names.
Context {W : Type} `{Platform W}.

(** X9: what a batch calls its outputs. For the entry [base.EXT] of the
    input directory, whatever the directory is called, the stem is
    [base]: [batch_convert] asks for [base.<format>] and
    [batch_transcribe] for [base_transcription.<format>], both joined to
    the output directory. Only the last extension is replaced, and two
    entries that differ only in it are given the same output. *)
Theorem batch_output_names (d outdir base e fmt : string) :
  base <> "" ->
  PyStr.contains_char "/" base = false ->
  e <> "" ->
  PyStr.contains_char "." e = false ->
  PyStr.contains_char "/" e = false ->
  let file := PosixPath.join d (base ++ "." ++ e) in
  PosixPath.stem (PosixPath.Path file) = base
  /\ (forall (Obj : Type) (i : nat),
        convert_one (Obj := Obj) outdir fmt i file
        = VideoConverter.extract_audio file
            (Some (PosixPath.join outdir (base ++ "." ++ fmt))) fmt)
  /\ (forall (total i : nat) (lang : option string),
        transcribe_one total outdir lang fmt i file
        = (print (PyStr.LF ++ "📝 Processing file " ++ PyStr.of_nat i ++ "/"
                  ++ PyStr.of_nat total) ;;
           AudioTranscriber.transcribe_and_save file
             (Some (PosixPath.join outdir
                      (base ++ "_transcription." ++ fmt)))
             lang fmt)%py).
Proof.
  intros Hbase Hslash He Hdot Heslash file.
  assert (PosixPath.stem (PosixPath.Path file) = base) as Hstem.
  { apply (suffix_of_dotted_name _ base e); try assumption.
    apply name_of_join. now apply dotted_name_component. }
  split; [exact Hstem|]. split.
  - intros Obj i. unfold convert_one. now rewrite Hstem.
  - intros total i lang. unfold transcribe_one. now rewrite Hstem.
Qed.

End Names.

Lemma batch_output_names_witness :
  PosixPath.stem (PosixPath.Path (PosixPath.join "/in/" "talk.final.mkv"))
  = "talk.final"
  /\ PosixPath.stem (PosixPath.Path (PosixPath.join "in" "talk.final.avi"))
     = "talk.final".
Proof.
  split.
  - exact (proj1 (batch_output_names (W := Demo.World) "/in/" "/out"
                    "talk.final" "mkv" "mp3"
                    ltac:(discriminate) eq_refl ltac:(discriminate)
                    eq_refl eq_refl)).
  - exact (proj1 (batch_output_names (W := Demo.World) "in" "/out"
                    "talk.final" "avi" "mp3"
                    ltac:(discriminate) eq_refl ltac:(discriminate)
                    eq_refl eq_refl)).
Defined.

(** ** The transcriber object *)

Section Transcriber.
Context {W : Type} `{Platform W}.

(** X10: the constructor takes exactly the five model names, spelled in
    lower case. For one of them it prints two lines and returns an object
    without a model: nothing is loaded yet. For anything else it raises
    [ValueError] and does nothing. *)
Theorem init_accepts_the_five_sizes (Obj : Type) (size : string)
    (s : State W Obj) :
  (In size ["tiny"; "base"; "small"; "medium"; "large"] ->
   exists info,
     In (size, info) AudioTranscriber.MODELS
     /\ AudioTranscriber.__init__ size s
        = (Return {| AudioTranscriber.model_size := size;
                     AudioTranscriber.model := None |},
           mkState (world s)
             (trace s
              ++ [ EvPrint ("Initializing Whisper with '" ++ size
                            ++ "' model...");
                   EvPrint ("Model info: " ++ info) ])
             (this s)))
  /\ (~ In size ["tiny"; "base"; "small"; "medium"; "large"] ->
      AudioTranscriber.__init__ size s
      = (Raise (Exn "ValueError"
                  "Invalid model size. Choose from: ['tiny', 'base', 'small', 'medium', 'large']"
                  None), s)).
Proof.
  split.
  - intros Hin. cbn in Hin.
    repeat (destruct Hin as [<- | Hin];
            [eexists; split;
             [|unfold AudioTranscriber.__init__; cbn [AudioTranscriber.lookup
                 AudioTranscriber.MODELS String.eqb Ascii.eqb Bool.eqb];
               monad_unfold; rewrite <- app_assoc; reflexivity];
             cbn; tauto|]).
    destruct Hin.
  - intros Hout. unfold AudioTranscriber.__init__.
    assert (AudioTranscriber.lookup size AudioTranscriber.MODELS = None) as ->;
      [|reflexivity].
    cbn [AudioTranscriber.lookup AudioTranscriber.MODELS].
    repeat match goal with
           | |- context [String.eqb size ?k] =>
               destruct (String.eqb_spec size k) as [Heq | _];
               [exfalso; apply Hout; rewrite Heq; cbn; tauto|]
           end.
    reflexivity.
Qed.

Lemma transcribe_audio_body_cases (p : string) (lang : option string)
    (s : State W AudioTranscriber.Self) :
  AudioTranscriber.transcribe_audio_body p lang s =
  let hint := language_argument lang in
  let t0 :=
    trace s
    ++ [ EvPrint ("🎵 Transcribing: " ++ p);
         EvPrint (match hint with
                  | Some l => "🌍 Using language: " ++ l
                  | None => "🌍 Auto-detecting language..."
                  end) ] in
  match AudioTranscriber.model (this s) with
  | None =>
      (Raise (Exn "AttributeError"
                "'NoneType' object has no attribute 'transcribe'" None),
       mkState (world s) t0 (this s))
  | Some m =>
      match model_transcribe (world s) m p hint with
      | (Raise e, w1) =>
          (Raise e, mkState w1 (t0 ++ [EvTranscribe p hint]) (this s))
      | (Return r0, w1) =>
          let r :=
            transcript r0 p (AudioTranscriber.model_size (this s))
              (now_isoformat w1) in
          (Return r,
           mkState w1
             (t0 ++ [ EvTranscribe p hint;
                      EvPrint "✅ Transcription completed!";
                      EvPrint ("📝 Detected language: "
                               ++ match language r0 with
                                  | Some l => l
                                  | None => "unknown"
                                  end);
                      EvPrint ("📊 Text length: "
                               ++ PyStr.of_nat (PyStr.len (text r0))
                               ++ " characters") ])
             (this s))
      end
  end.
Proof.
  unfold AudioTranscriber.transcribe_audio_body,
    AudioTranscriber.self_model_transcribe, AudioTranscriber.with_metadata,
    transcript, language_argument.
  destruct lang as [l|]; [destruct (String.eqb l "")|];
    monad_unfold; cbv beta iota;
    (destruct (AudioTranscriber.model (this s)) as [m|];
     cbn [world trace this];
     [destruct (model_transcribe (world s) m p _) as [[r0|e] w1]|];
     cbn [world trace this]; rewrite <- ?app_assoc; reflexivity).
Qed.

Lemma count_snoc_other (f : event -> bool) (t evs : list event) :
  forallb (fun ev => negb (f ev)) evs = true ->
  count f (t ++ evs) = count f t.
Proof.
  intros Hevs. rewrite count_app.
  assert (count f evs = 0) as ->; [|lia].
  unfold count. induction evs as [|ev evs IH]; [reflexivity|].
  cbn [forallb] in Hevs. apply andb_true_iff in Hevs as [Hev Hevs].
  apply negb_true_iff in Hev. cbn [filter]. rewrite Hev. now apply IH.
Qed.

(** What one call of [transcribe_audio] on an existing file leaves
    behind. *)
Lemma transcribe_audio_effects (p : string) (lang : option string)
    (fmt : string) (s : State W AudioTranscriber.Self) :
  os_path_exists (world s) p = true ->
  let run := AudioTranscriber.transcribe_audio p lang fmt s in
  AudioTranscriber.model_size (this (snd run))
  = AudioTranscriber.model_size (this s)
  /\ count touches_disk (trace (snd run)) = count touches_disk (trace s)
  /\ match AudioTranscriber.model (this s) with
     | Some m =>
         this (snd run) = this s
         /\ count is_model_load (trace (snd run))
            = count is_model_load (trace s)
     | None =>
         count is_model_load (trace (snd run))
         = count is_model_load (trace s) + 1
         /\ match load_model (world s) (AudioTranscriber.model_size (this s))
            with
            | (Return m, _) =>
                this (snd run)
                = {| AudioTranscriber.model_size :=
                       AudioTranscriber.model_size (this s);
                     AudioTranscriber.model := Some m |}
            | (Raise e, _) => this (snd run) = this s /\ fst run = Raise e
            end
     end.
Proof.
  intros Hex run. subst run.
  rewrite (transcribe_audio_found p lang fmt s Hex), load_model_cases.
  destruct (this s) as [size [m|]] eqn:Hthis; cbn [AudioTranscriber.model
    AudioTranscriber.model_size].
  - rewrite transcribe_audio_body_cases. cbv zeta. rewrite ?Hthis.
    cbn [AudioTranscriber.model AudioTranscriber.model_size].
    destruct (model_transcribe (world s) m p _) as [[r0|e] w1];
      cbn [snd fst this trace]; rewrite ?Hthis;
      repeat split; try reflexivity;
      rewrite <- ?app_assoc; now apply count_snoc_other.
  - cbv zeta. destruct (load_model (world s) size) as [[m|e] w1].
    + rewrite transcribe_audio_body_cases. cbv zeta.
      cbn [this world trace AudioTranscriber.model AudioTranscriber.model_size].
      destruct (model_transcribe w1 m p _) as [[r0|e] w2];
        cbn [snd fst this trace AudioTranscriber.model_size];
        repeat split; try reflexivity;
        rewrite <- ?app_assoc; rewrite ?count_app; cbn; lia.
    + cbn [snd fst this trace]. rewrite ?Hthis.
      repeat split; try reflexivity.
      * now apply count_snoc_other.
      * rewrite count_app. cbn. lia.
Qed.

(** X11: the model is loaded at the first transcription of a file that
    exists, and once only: a model that is there is used again, and the
    object is left alone. A model that has been loaded stays on the
    object also when the transcription itself then fails; a loader that
    fails leaves the object without a model and its error comes out
    as it is. *)
Theorem model_is_loaded_lazily (p : string) (lang : option string)
    (fmt : string) (s : State W AudioTranscriber.Self) :
  os_path_exists (world s) p = true ->
  let run := AudioTranscriber.transcribe_audio p lang fmt s in
  AudioTranscriber.model_size (this (snd run))
  = AudioTranscriber.model_size (this s)
  /\ (forall m,
        AudioTranscriber.model (this s) = Some m ->
        this (snd run) = this s
        /\ count is_model_load (trace (snd run))
           = count is_model_load (trace s))
  /\ (AudioTranscriber.model (this s) = None ->
      count is_model_load (trace (snd run))
      = count is_model_load (trace s) + 1
      /\ (forall m w1,
            load_model (world s) (AudioTranscriber.model_size (this s))
            = (Return m, w1) ->
            AudioTranscriber.model (this (snd run)) = Some m)
      /\ (forall e w1,
            load_model (world s) (AudioTranscriber.model_size (this s))
            = (Raise e, w1) ->
            AudioTranscriber.model (this (snd run)) = None
            /\ fst run = Raise e)).
Proof.
  intros Hex run.
  destruct (transcribe_audio_effects p lang fmt s Hex) as (Hsize & _ & Hmodel).
  fold run in Hsize, Hmodel. split; [exact Hsize|]. split.
  - intros m Hm. now rewrite Hm in Hmodel.
  - intros Hnone. rewrite Hnone in Hmodel. destruct Hmodel as [Hcount Hload].
    split; [exact Hcount|]. split.
    + intros m w1 Hm. rewrite Hm in Hload. now rewrite Hload.
    + intros e w1 He. rewrite He in Hload. destruct Hload as [Hthis Hfst].
      now rewrite Hthis.
Qed.

(** X12: what a transcription returns, on a fresh object as on one that
    has its model. The model is the one at hand, or else the one that
    [whisper.load_model] gives now; whisper is called once, on the path as
    given, with the language only when one was given and is not empty; its
    text, segments and language come back unchanged, with a metadata entry
    holding the path as given, the model size, the time read after the
    call, and the detected language or [unknown]. Conversely, a result
    that comes back was made in this way. The [output_format] argument
    plays no part. *)
Theorem transcription_result (p : string) (lang : option string)
    (fmt : string) (s : State W AudioTranscriber.Self) :
  let run := AudioTranscriber.transcribe_audio p lang fmt s in
  let size := AudioTranscriber.model_size (this s) in
  let in_use (m : Model) (w0 : W) : Prop :=
    match AudioTranscriber.model (this s) with
    | Some m' => m' = m /\ w0 = world s
    | None => load_model (world s) size = (Return m, w0)
    end in
  let loading :=
    match AudioTranscriber.model (this s) with
    | Some _ => []
    | None => [EvLoadModel size]
    end in
  (forall m w0 r0 w1,
      os_path_exists (world s) p = true ->
      in_use m w0 ->
      model_transcribe w0 m p (language_argument lang) = (Return r0, w1) ->
      let r := transcript r0 p size (now_isoformat w1) in
      text r = text r0 /\ segments r = segments r0 /\ language r = language r0
      /\ fst run = Return r
      /\ world (snd run) = w1
      /\ AudioTranscriber.model (this (snd run)) = Some m
      /\ filter is_engine_call (trace (snd run))
         = filter is_engine_call (trace s)
           ++ loading ++ [EvTranscribe p (language_argument lang)])
  /\ (forall r,
         fst run = Return r ->
         os_path_exists (world s) p = true
         /\ exists m w0 r0,
              in_use m w0
              /\ model_transcribe w0 m p (language_argument lang)
                 = (Return r0, world (snd run))
              /\ r = transcript r0 p size (now_isoformat (world (snd run)))).
Proof.
  intros run size in_use loading. subst run in_use loading size. split.
  - intros m w0 r0 w1 Hex Hmodel Hcall r.
    rewrite (transcribe_audio_found p lang fmt s Hex), load_model_cases.
    destruct (AudioTranscriber.model (this s)) as [m'|] eqn:Hm.
    + destruct Hmodel as [-> ->].
      rewrite transcribe_audio_body_cases. cbv zeta. rewrite Hm, Hcall.
      cbn [fst snd world this trace]. repeat split; try exact Hm.
      rewrite <- !app_assoc, filter_app. reflexivity.
    + cbv zeta. rewrite Hmodel. rewrite transcribe_audio_body_cases.
      cbv zeta.
      cbn [this world trace AudioTranscriber.model AudioTranscriber.model_size].
      rewrite Hcall. cbn [fst snd world this trace AudioTranscriber.model].
      repeat split.
      rewrite <- !app_assoc, !filter_app. reflexivity.
  - intros r.
    destruct (os_path_exists (world s) p) eqn:Hex;
      [|now rewrite (transcribe_audio_not_found p lang fmt s Hex)].
    rewrite (transcribe_audio_found p lang fmt s Hex), load_model_cases.
    destruct (AudioTranscriber.model (this s)) as [m|] eqn:Hm.
    + rewrite transcribe_audio_body_cases. cbv zeta. rewrite Hm.
      destruct (model_transcribe (world s) m p (language_argument lang))
        as [[r0|e] w1] eqn:Hcall; cbn [fst snd world]; [|discriminate].
      intros [= <-]. split; [reflexivity|].
      exists m, (world s), r0. now repeat split.
    + cbv zeta.
      destruct (load_model (world s) (AudioTranscriber.model_size (this s)))
        as [[m|e] w0] eqn:Hload; [|discriminate].
      rewrite transcribe_audio_body_cases. cbv zeta.
      cbn [this world trace AudioTranscriber.model AudioTranscriber.model_size].
      destruct (model_transcribe w0 m p (language_argument lang))
        as [[r0|e] w1] eqn:Hcall; cbn [fst snd world]; [|discriminate].
      intros [= <-]. split; [reflexivity|].
      exists m, w0, r0. now repeat split.
Qed.

End Transcriber.

Lemma model_is_loaded_lazily_witness :
  let s := Demo.start Demo.w0 Demo.base_transcriber in
  let first :=
    AudioTranscriber.transcribe_audio "/home/u/Desktop/x.mp4" None "txt" s in
  let second :=
    AudioTranscriber.transcribe_audio "/home/u/Desktop/x.mp4" None "txt"
      (snd first) in
  count is_model_load (trace (snd first)) = 1
  /\ count is_model_load (trace (snd second)) = 1.
Proof.
  intros s first second.
  pose proof (model_is_loaded_lazily "/home/u/Desktop/x.mp4" None "txt" s
                eq_refl) as (_ & _ & Hfirst).
  pose proof (model_is_loaded_lazily "/home/u/Desktop/x.mp4" None "txt"
                (snd first) eq_refl) as (_ & Hsecond & _).
  split.
  - exact (proj1 (Hfirst eq_refl)).
  - exact (eq_trans (proj2 (Hsecond {| model_id := 0 |} eq_refl))
             (proj1 (Hfirst eq_refl))).
Defined.

Lemma transcription_result_witness :
  let s := Demo.start Demo.w0 Demo.base_transcriber in
  let run :=
    AudioTranscriber.transcribe_audio "/home/u/Desktop/x.mp4" (Some "") "srt"
      s in
  AudioTranscriber.model (this s) = None
  /\ fst run
     = Return (transcript Demo.hello "/home/u/Desktop/x.mp4" "base"
                 "2025-09-21T13:33:26")
  /\ filter is_engine_call (trace (snd run))
     = [EvLoadModel "base"; EvTranscribe "/home/u/Desktop/x.mp4" None].
Proof.
  intros s run.
  pose proof (proj1 (transcription_result "/home/u/Desktop/x.mp4" (Some "")
                       "srt" s)
                {| model_id := 0 |} Demo.w0 Demo.hello Demo.w0
                eq_refl eq_refl eq_refl) as (_ & _ & _ & Hrun & _ & _ & Hcalls).
  split; [reflexivity|]. split; [exact Hrun | exact Hcalls].
Defined.

(** ** What ends up in the text file *)

Ltac write_step Hw :=
  match goal with
  | |- context [bind (AudioTranscriber.fwrite ?p ?c) ?k ?s] =>
      let s' := fresh "s" in
      let A := fresh "A" in
      destruct (bind_fwrite Hw p c k s) as (s' & A & ->); cbv beta
  end.

Ltac join_appends :=
  repeat match goal with
         | H1 : appends ?p ?a ?x ?y, H2 : appends ?p ?b ?y ?z |- _ =>
             pose proof (appends_trans p a b x y z H1 H2); clear H1 H2
         end.

Section ReliableText.
Context {W Obj : Type} `{Platform W}.
Hypothesis makedirs_ok : forall w d, fst (makedirs w d) = Return tt.
Hypothesis open_ok : forall w p, fst (open_w w p) = Return tt.
Hypothesis write_ok : forall w p c, fst (write w p c) = Return tt.

(** As [save_subtitles], for a body that raises after it has written
    [txt]. *)
Lemma save_interrupted (r : Result) (p fmt : string) (s : State W Obj)
    (body : M W Obj unit) (txt : string) (e : exn) :
  AudioTranscriber.write_format r p fmt
  = bind (AudioTranscriber.fopen p) (fun _ => body) ->
  (forall s1, exists s2, body s1 = (Raise e, s2) /\ appends p txt s1 s2) ->
  fst (AudioTranscriber.save_transcription r p fmt s) = Raise (saving_error e)
  /\ forall acc,
       file_text p (trace (snd (AudioTranscriber.save_transcription r p fmt s)))
         acc = txt.
Proof.
  intros Hfmt Hbody.
  assert (exists s3,
             AudioTranscriber.save_transcription r p fmt s
             = (Raise (saving_error e), s3)
             /\ forall acc, file_text p (trace s3) acc = txt)
    as (s3 & -> & Hfile).
  { rewrite save_transcription_cases. cbv zeta.
    pose proof (makedirs_ok (world s)
                  (PosixPath.str (PosixPath.parent (PosixPath.Path p)))) as Hm.
    destruct (makedirs (world s) _) as [o w1]. cbn in Hm. subst o.
    rewrite Hfmt. unfold bind at 1, AudioTranscriber.fopen, call.
    cbn [world trace this].
    pose proof (open_ok w1 p) as Ho.
    destruct (open_w w1 p) as [o w2]. cbn in Ho. subst o.
    cbv beta iota.
    match goal with |- context [body ?st] =>
      destruct (Hbody st) as (s2 & -> & Happ);
      pose proof (opened_then_appended p txt st st s2 _ eq_refl Happ) as Hfile
    end.
    eexists. split; [reflexivity | exact Hfile]. }
  split; [reflexivity | exact Hfile].
Qed.

Lemma write_format_txt (r : Result) (p fmt : string) :
  PyStr.lower fmt = "txt" ->
  AudioTranscriber.write_format (Obj := Obj) r p fmt
  = AudioTranscriber.write_txt r p.
Proof. intros Hfmt. unfold AudioTranscriber.write_format. now rewrite Hfmt. Qed.

(** X13: the text format. With directory creation, opening and writing
    all succeeding, saving a result that has its metadata as [txt]
    (in any letter case) returns, and the file then holds these lines,
    each ended by a line feed: a rule of 50 equals signs, the title, a
    rule, an empty line, the four metadata lines, an empty line, a rule of
    50 dashes, [TRANSCRIPTION:], a rule, an empty line, the text exactly
    as whisper gave it, an empty line and a closing rule. Whatever the
    file held before is gone. *)
Theorem txt_file_contents (r : Result) (m : Metadata) (p fmt : string)
    (s : State W Obj) :
  PyStr.lower fmt = "txt" ->
  metadata r = Some m ->
  fst (AudioTranscriber.save_transcription r p fmt s) = Return tt
  /\ forall acc,
       file_text p
         (trace (snd (AudioTranscriber.save_transcription r p fmt s))) acc
       = txt_text (text r) m.
Proof.
  intros Hfmt Hm.
  apply (save_subtitles makedirs_ok open_ok r p fmt s
           (AudioTranscriber.fwrite p (PyStr.repeat "=" 50 ++ PyStr.LF) ;;
            AudioTranscriber.fwrite p ("AUDIO TRANSCRIPTION" ++ PyStr.LF) ;;
            AudioTranscriber.fwrite p
              (PyStr.repeat "=" 50 ++ PyStr.LF ++ PyStr.LF) ;;
            m <- AudioTranscriber.get_metadata r ;;
            AudioTranscriber.fwrite p ("Audio File: " ++ audio_file m ++ PyStr.LF) ;;
            AudioTranscriber.fwrite p ("Model: " ++ model_used m ++ PyStr.LF) ;;
            AudioTranscriber.fwrite p
              ("Language: " ++ detected_language m ++ PyStr.LF) ;;
            AudioTranscriber.fwrite p
              ("Date: " ++ transcription_date m ++ PyStr.LF) ;;
            AudioTranscriber.fwrite p
              (PyStr.LF ++ PyStr.repeat "-" 50 ++ PyStr.LF) ;;
            AudioTranscriber.fwrite p ("TRANSCRIPTION:" ++ PyStr.LF) ;;
            AudioTranscriber.fwrite p
              (PyStr.repeat "-" 50 ++ PyStr.LF ++ PyStr.LF) ;;
            AudioTranscriber.fwrite p (text r) ;;
            AudioTranscriber.fwrite p
              (PyStr.LF ++ PyStr.LF ++ PyStr.repeat "=" 50 ++ PyStr.LF))%py).
  - now rewrite write_format_txt.
  - intros s1. do 3 write_step write_ok.
    unfold AudioTranscriber.get_metadata at 1. rewrite Hm.
    unfold bind at 1, ret at 1. do 8 write_step write_ok.
    match goal with
    | |- context [AudioTranscriber.fwrite ?p ?c ?st] =>
        destruct (fwrite_appends write_ok p c st) as (s' & -> & A')
    end.
    exists s'. split; [reflexivity|]. join_appends.
    match goal with
    | A : appends p ?t s1 s' |- appends p ?t' s1 s' =>
        replace t' with t; [exact A|]
    end.
    unfold txt_text, txt_lines, rule. cbn [PyStr.join].
    rewrite !append_assoc. reflexivity.
Qed.

(** X14: a result without its metadata, like the dictionary whisper
    returns before [transcribe_audio] has completed it, cannot be saved as
    text: the lookup fails after the banner has been written, the
    [KeyError] comes out wrapped, and the file is left holding the banner
    alone. *)
Theorem txt_without_metadata (r : Result) (p fmt : string) (s : State W Obj) :
  PyStr.lower fmt = "txt" ->
  metadata r = None ->
  fst (AudioTranscriber.save_transcription r p fmt s)
  = Raise (saving_error (Exn "KeyError" "'metadata'" None))
  /\ forall acc,
       file_text p
         (trace (snd (AudioTranscriber.save_transcription r p fmt s))) acc
       = txt_banner.
Proof.
  intros Hfmt Hm.
  apply (save_interrupted r p fmt s
           (AudioTranscriber.fwrite p (PyStr.repeat "=" 50 ++ PyStr.LF) ;;
            AudioTranscriber.fwrite p ("AUDIO TRANSCRIPTION" ++ PyStr.LF) ;;
            AudioTranscriber.fwrite p
              (PyStr.repeat "=" 50 ++ PyStr.LF ++ PyStr.LF) ;;
            m <- AudioTranscriber.get_metadata r ;;
            AudioTranscriber.fwrite p ("Audio File: " ++ audio_file m ++ PyStr.LF) ;;
            AudioTranscriber.fwrite p ("Model: " ++ model_used m ++ PyStr.LF) ;;
            AudioTranscriber.fwrite p
              ("Language: " ++ detected_language m ++ PyStr.LF) ;;
            AudioTranscriber.fwrite p
              ("Date: " ++ transcription_date m ++ PyStr.LF) ;;
            AudioTranscriber.fwrite p
              (PyStr.LF ++ PyStr.repeat "-" 50 ++ PyStr.LF) ;;
            AudioTranscriber.fwrite p ("TRANSCRIPTION:" ++ PyStr.LF) ;;
            AudioTranscriber.fwrite p
              (PyStr.repeat "-" 50 ++ PyStr.LF ++ PyStr.LF) ;;
            AudioTranscriber.fwrite p (text r) ;;
            AudioTranscriber.fwrite p
              (PyStr.LF ++ PyStr.LF ++ PyStr.repeat "=" 50 ++ PyStr.LF))%py).
  - now rewrite write_format_txt.
  - intros s1. do 3 write_step write_ok.
    unfold AudioTranscriber.get_metadata at 1. rewrite Hm.
    unfold bind at 1, raise at 1.
    eexists. split; [reflexivity|]. join_appends.
    match goal with
    | A : appends p ?t s1 _ |- appends p ?t' s1 _ =>
        replace t' with t; [exact A|]
    end.
    unfold txt_banner, rule. cbn [PyStr.join].
    rewrite !append_assoc. reflexivity.
Qed.

End ReliableText.

Lemma txt_file_contents_witness :
  let r := transcript Demo.hello "talk.mp3" "base" "2025-09-21T13:33:26" in
  fst (AudioTranscriber.save_transcription r "/out/talk.txt" "TXT"
         (Demo.start Demo.w0 tt)) = Return tt
  /\ forall acc,
    file_text "/out/talk.txt"
      (trace (snd (AudioTranscriber.save_transcription r "/out/talk.txt" "TXT"
                     (Demo.start Demo.w0 tt))))
      acc
    = PyStr.join PyStr.LF
        [ "=================================================="; 
          "AUDIO TRANSCRIPTION";
          "==================================================";
          "";
          "Audio File: talk.mp3";
          "Model: base";
          "Language: en";
          "Date: 2025-09-21T13:33:26";
          "";
          "--------------------------------------------------";
          "TRANSCRIPTION:";
          "--------------------------------------------------";
          "";
          " Hello world. Goodbye.";
          "";
          "==================================================";
          "" ].
Proof.
  intros r.
  exact (@txt_file_contents Demo.World unit Demo.platform
                  (fun _ _ => eq_refl) (fun _ _ => eq_refl)
                  (fun _ _ _ => eq_refl)
                  r _ "/out/talk.txt" "TXT" (Demo.start Demo.w0 tt)
                  eq_refl eq_refl).
Defined.

Lemma txt_without_metadata_witness :
  fst (AudioTranscriber.save_transcription Demo.hello "/out/talk.txt" "txt"
         (Demo.start Demo.w0 tt))
  = Raise (saving_error (Exn "KeyError" "'metadata'" None)).
Proof.
  exact (proj1 (@txt_without_metadata Demo.World unit Demo.platform
                  (fun _ _ => eq_refl) (fun _ _ => eq_refl)
                  (fun _ _ _ => eq_refl)
                  Demo.hello "/out/talk.txt" "txt" (Demo.start Demo.w0 tt)
                  eq_refl eq_refl)).
Defined.

(** ** Subtitles that stop half way *)

Lemma stamp_error_start (seg : Segment) (e : exn) :
  AudioTranscriber.time_fields (seg_start seg) = Raise e ->
  AudioTranscriber._seconds_to_srt_time (seg_start seg) = Raise e
  /\ AudioTranscriber._seconds_to_vtt_time (seg_start seg) = Raise e.
Proof.
  intros He. unfold AudioTranscriber._seconds_to_srt_time,
    AudioTranscriber._seconds_to_vtt_time. now rewrite He.
Qed.

Section InterruptedOutput.
Context {W Obj : Type} `{Platform W}.
Hypothesis makedirs_ok : forall w d, fst (makedirs w d) = Return tt.
Hypothesis open_ok : forall w p, fst (open_w w p) = Return tt.
Hypothesis write_ok : forall w p c, fst (write w p c) = Return tt.

Lemma srt_block_fails (p : string) (i : nat) (bad : Segment)
    (rest : list Segment) (e : exn) (s : State W Obj) :
  stamp_error bad = Some e ->
  AudioTranscriber.srt_loop p i (bad :: rest) s = (Raise e, s).
Proof.
  unfold stamp_error. intros Hbad. cbn [AudioTranscriber.srt_loop].
  unfold AudioTranscriber._seconds_to_srt_time.
  destruct (AudioTranscriber.time_fields (seg_start bad)) as [a|e1].
  - destruct (AudioTranscriber.time_fields (seg_end bad)) as [b|e2];
      [discriminate|]. injection Hbad as <-. reflexivity.
  - injection Hbad as <-. reflexivity.
Qed.

Lemma vtt_block_fails (p : string) (bad : Segment) (rest : list Segment)
    (e : exn) (s : State W Obj) :
  stamp_error bad = Some e ->
  AudioTranscriber.vtt_loop p (bad :: rest) s = (Raise e, s).
Proof.
  unfold stamp_error. intros Hbad. cbn [AudioTranscriber.vtt_loop].
  unfold AudioTranscriber._seconds_to_vtt_time.
  destruct (AudioTranscriber.time_fields (seg_start bad)) as [a|e1].
  - destruct (AudioTranscriber.time_fields (seg_end bad)) as [b|e2];
      [discriminate|]. injection Hbad as <-. reflexivity.
  - injection Hbad as <-. reflexivity.
Qed.

Lemma srt_loop_interrupted (p : string) (good : list Segment) (bad : Segment)
    (rest : list Segment) (e : exn) :
  Forall convertible good ->
  stamp_error bad = Some e ->
  forall (i : nat) (s : State W Obj),
  exists s', AudioTranscriber.srt_loop p i (good ++ bad :: rest) s
             = (Raise e, s')
             /\ appends p (srt_blocks i good) s s'.
Proof.
  intros Hgood Hbad.
  induction Hgood as [|seg good [[a Ha] [b Hb]] _ IH]; intros i s.
  - exists s. split; [now apply srt_block_fails | apply appends_refl].
  - cbn [app AudioTranscriber.srt_loop srt_blocks].
    rewrite (proj1 (srt_time_convertible _ _ Ha)).
    rewrite (proj1 (srt_time_convertible _ _ Hb)).
    unfold bind at 1, lift_outcome at 1. unfold bind at 1, lift_outcome at 1.
    do 3 write_step write_ok.
    destruct (IH (S i) s2) as (s4 & -> & A4).
    exists s4. split; [reflexivity|]. join_appends.
    match goal with
    | A : appends p ?t s s4 |- appends p ?t' s s4 =>
        replace t' with t; [exact A|]
    end.
    unfold subtitle_block. now rewrite !append_assoc.
Qed.

Lemma vtt_loop_interrupted (p : string) (good : list Segment) (bad : Segment)
    (rest : list Segment) (e : exn) :
  Forall convertible good ->
  stamp_error bad = Some e ->
  forall (s : State W Obj),
  exists s', AudioTranscriber.vtt_loop p (good ++ bad :: rest) s
             = (Raise e, s')
             /\ appends p (vtt_blocks good) s s'.
Proof.
  intros Hgood Hbad.
  induction Hgood as [|seg good [[a Ha] [b Hb]] _ IH]; intros s.
  - exists s. split; [now apply vtt_block_fails | apply appends_refl].
  - cbn [app AudioTranscriber.vtt_loop vtt_blocks].
    rewrite (proj2 (srt_time_convertible _ _ Ha)).
    rewrite (proj2 (srt_time_convertible _ _ Hb)).
    unfold bind at 1, lift_outcome at 1. unfold bind at 1, lift_outcome at 1.
    do 2 write_step write_ok.
    destruct (IH s1) as (s4 & -> & A4).
    exists s4. split; [reflexivity|]. join_appends.
    match goal with
    | A : appends p ?t s s4 |- appends p ?t' s s4 =>
        replace t' with t; [exact A|]
    end.
    unfold subtitle_block. rewrite !append_assoc. reflexivity.
Qed.

(** X15: a subtitle file is written block by block, and both time
    stamps of a block are converted before anything of it is written. So
    when a segment has a start or an end that cannot be converted, the
    error of the conversion comes out wrapped and the file is left with
    the complete blocks of the segments before it, and for vtt the header:
    never with half a block. *)
Theorem subtitles_stop_at_a_bad_time_stamp (r : Result) (p fmt : string)
    (s : State W Obj) (good : list Segment) (bad : Segment)
    (rest : list Segment) (e : exn) :
  segments r = good ++ bad :: rest ->
  Forall convertible good ->
  stamp_error bad = Some e ->
  let run := AudioTranscriber.save_transcription r p fmt s in
  (PyStr.lower fmt = "srt" ->
     fst run = Raise (saving_error e)
     /\ forall acc, file_text p (trace (snd run)) acc = srt_blocks 1 good)
  /\ (PyStr.lower fmt = "vtt" ->
        fst run = Raise (saving_error e)
        /\ forall acc,
             file_text p (trace (snd run)) acc
             = ("WEBVTT" ++ PyStr.LF ++ PyStr.LF ++ vtt_blocks good)%string).
Proof.
  intros Hsegs Hgood Hbad run. subst run. split; intros Hfmt.
  - apply (save_interrupted makedirs_ok open_ok r p fmt s
             (AudioTranscriber.srt_loop p 1 (segments r))).
    + unfold AudioTranscriber.write_format. now rewrite Hfmt.
    + intros s1. rewrite Hsegs. now apply srt_loop_interrupted.
  - apply (save_interrupted makedirs_ok open_ok r p fmt s
             (AudioTranscriber.fwrite p ("WEBVTT" ++ PyStr.LF ++ PyStr.LF) ;;
              AudioTranscriber.vtt_loop p (segments r))%py).
    + unfold AudioTranscriber.write_format. now rewrite Hfmt.
    + intros s1. rewrite Hsegs. write_step write_ok.
      destruct (vtt_loop_interrupted p good bad rest e Hgood Hbad s0)
        as (s2 & -> & A2).
      exists s2. split; [reflexivity|]. join_appends.
      match goal with
      | A : appends p ?t s1 s2 |- appends p ?t' s1 s2 =>
          replace t' with t; [exact A|]
      end.
      now rewrite !append_assoc.
Qed.

End InterruptedOutput.

Lemma subtitles_stop_at_a_bad_time_stamp_witness :
  let first :=
    {| seg_start := PyFloat.of_Z 0; seg_end := PyFloat.of_ratio 3 2;
       seg_text := " Hello world." |} in
  let broken :=
    {| seg_start := S754_nan; seg_end := PyFloat.of_Z 2;
       seg_text := " Goodbye." |} in
  let r :=
    {| text := ""; segments := [first; broken; first]; language := None;
       metadata := None |} in
  let run :=
    AudioTranscriber.save_transcription r "/out/talk.srt" "srt"
      (Demo.start Demo.w0 tt) in
  fst run
  = Raise (saving_error
             (Exn "ValueError" "cannot convert float NaN to integer" None))
  /\ forall acc,
       file_text "/out/talk.srt" (trace (snd run)) acc
       = PyStr.join PyStr.LF
           ["1"; "00:00:00,000 --> 00:00:01,500"; "Hello world."; ""; ""].
Proof.
  intros first broken r run.
  exact (proj1 (@subtitles_stop_at_a_bad_time_stamp Demo.World unit
                  Demo.platform
                  (fun _ _ => eq_refl) (fun _ _ => eq_refl)
                  (fun _ _ _ => eq_refl)
                  r "/out/talk.srt" "srt" (Demo.start Demo.w0 tt)
                  [first] broken [first]
                  (Exn "ValueError" "cannot convert float NaN to integer" None)
                  eq_refl
                  ltac:(repeat constructor; eexists; vm_compute; reflexivity)
                  eq_refl)
               eq_refl).
Defined.

(** ** Errors of saving, and the order of the two steps *)

Section SavingSteps.
Context {W : Type} `{Platform W}.

(** X16: the two ways saving can fail before anything is written. A
    failure to create the parent directory comes out as it is, and the
    file is not opened. A failure to open the file, for one of the four
    formats, comes out wrapped as [Error saving transcription: ...], with
    nothing written and no confirmation printed. *)
Theorem saving_fails_before_writing (Obj : Type) (r : Result)
    (p fmt : string) (s : State W Obj) :
  let dir := PosixPath.str (PosixPath.parent (PosixPath.Path p)) in
  (forall e w1,
      makedirs (world s) dir = (Raise e, w1) ->
      AudioTranscriber.save_transcription r p fmt s
      = (Raise e, mkState w1 (trace s ++ [EvMakedirs dir]) (this s)))
  /\ (forall e w1 w2,
        in_set (PyStr.lower fmt) known_formats = true ->
        makedirs (world s) dir = (Return tt, w1) ->
        open_w w1 p = (Raise e, w2) ->
        AudioTranscriber.save_transcription r p fmt s
        = (Raise (saving_error e),
           mkState w2 (trace s ++ [EvMakedirs dir; EvOpen p]) (this s))).
Proof.
  intros dir. split.
  - intros e w1 Hmk. rewrite save_transcription_cases. cbv zeta. fold dir.
    now rewrite Hmk.
  - intros e w1 w2 Hfmt Hmk Hopen. rewrite save_transcription_cases.
    cbv zeta. fold dir. rewrite Hmk.
    assert (exists body,
               AudioTranscriber.write_format (Obj := Obj) r p fmt
               = bind (AudioTranscriber.fopen p) (fun _ => body))
      as [body ->].
    { unfold AudioTranscriber.write_format, known_formats, in_set in *.
      cbn [existsb] in Hfmt.
      destruct (String.eqb (PyStr.lower fmt) "txt");
        [eexists; reflexivity|].
      destruct (String.eqb (PyStr.lower fmt) "json");
        [eexists; reflexivity|].
      destruct (String.eqb (PyStr.lower fmt) "srt");
        [eexists; reflexivity|].
      destruct (String.eqb (PyStr.lower fmt) "vtt");
        [eexists; reflexivity | discriminate]. }
    unfold bind at 1, AudioTranscriber.fopen, call. cbn [world trace this].
    rewrite Hopen. rewrite <- app_assoc. reflexivity.
Qed.

Lemma transcribe_audio_keeps_disk (a : string) (lang : option string)
    (fmt : string) (s : State W AudioTranscriber.Self) :
  count touches_disk
    (trace (snd (AudioTranscriber.transcribe_audio a lang fmt s)))
  = count touches_disk (trace s).
Proof.
  destruct (os_path_exists (world s) a) eqn:Hex.
  - exact (proj1 (proj2 (transcribe_audio_effects a lang fmt s Hex))).
  - now rewrite (transcribe_audio_not_found a lang fmt s Hex).
Qed.

Lemma transcribe_and_save_cases (a : string) (op lang : option string)
    (fmt : string) (s : State W AudioTranscriber.Self) :
  AudioTranscriber.transcribe_and_save a op lang fmt s
  = let out :=
      match op with
      | Some p => p
      | None =>
          PosixPath.str
            (PosixPath.parent (PosixPath.Path a)
               // (PosixPath.stem (PosixPath.Path a) ++ "_transcription."
                   ++ fmt))
      end in
    match AudioTranscriber.transcribe_audio a lang fmt s with
    | (Return r, s1) =>
        match AudioTranscriber.save_transcription r out fmt s1 with
        | (Return _, s2) => (Return out, s2)
        | (Raise e, s2) => (Raise e, s2)
        end
    | (Raise e, s1) => (Raise e, s1)
    end.
Proof.
  unfold AudioTranscriber.transcribe_and_save. unfold bind at 1.
  destruct (AudioTranscriber.transcribe_audio a lang fmt s) as [[r|e] s1];
    [|reflexivity].
  unfold bind, ret. cbv zeta.
  now destruct (AudioTranscriber.save_transcription r _ fmt s1) as [[[]|e] s2].
Qed.

Lemma transcription_comes_before_saving_aux (a : string)
    (op lang : option string) (fmt : string)
    (s : State W AudioTranscriber.Self) (res : string) :
  fst (AudioTranscriber.transcribe_and_save a op lang fmt s) = Return res ->
  res = match op with
        | Some p => p
        | None =>
            PosixPath.str
              (PosixPath.parent (PosixPath.Path a)
                 // (PosixPath.stem (PosixPath.Path a) ++ "_transcription."
                     ++ fmt))
        end.
Proof.
  unfold AudioTranscriber.transcribe_and_save. unfold bind at 1.
  destruct (AudioTranscriber.transcribe_audio a lang fmt s) as [[r|e] s1];
    [|discriminate].
  unfold bind, ret.
  destruct (AudioTranscriber.save_transcription r _ fmt s1) as [[[]|e] s2];
    cbn [fst]; [now intros [= <-] | discriminate].
Qed.

(** X17: [transcribe_and_save] transcribes first and saves afterwards.
    Until the transcription has returned, no directory is created and no
    file is opened or written, so a failed transcription leaves the disk
    as it was and its error comes out unchanged. When the whole call
    returns, it returns the output path exactly as it was given, or the
    derived one. *)
Theorem transcription_comes_before_saving (a : string)
    (op lang : option string) (fmt : string)
    (s : State W AudioTranscriber.Self) :
  let out :=
    match op with
    | Some p => p
    | None =>
        PosixPath.str
          (PosixPath.parent (PosixPath.Path a)
             // (PosixPath.stem (PosixPath.Path a) ++ "_transcription." ++ fmt))
    end in
  let first := AudioTranscriber.transcribe_audio a lang fmt s in
  let run := AudioTranscriber.transcribe_and_save a op lang fmt s in
  count touches_disk (trace (snd first)) = count touches_disk (trace s)
  /\ (forall e, fst first = Raise e -> run = (Raise e, snd first))
  /\ (forall r,
        fst first = Return r ->
        run = match AudioTranscriber.save_transcription r out fmt (snd first)
              with
              | (Return _, s2) => (Return out, s2)
              | (Raise e, s2) => (Raise e, s2)
              end)
  /\ (forall res, fst run = Return res -> res = out).
Proof.
  intros out first run.
  assert (run = match first with
                | (Return r, s1) =>
                    match AudioTranscriber.save_transcription r out fmt s1 with
                    | (Return _, s2) => (Return out, s2)
                    | (Raise e, s2) => (Raise e, s2)
                    end
                | (Raise e, s1) => (Raise e, s1)
                end) as Hrun.
  { subst run first out. unfold AudioTranscriber.transcribe_and_save.
    unfold bind at 1.
    destruct (AudioTranscriber.transcribe_audio a lang fmt s) as [[r|e] s1];
      [|reflexivity].
    unfold bind, ret.
    now destruct (AudioTranscriber.save_transcription r _ fmt s1) as [[[]|e] s2]. }
  split; [apply transcribe_audio_keeps_disk|].
  rewrite Hrun. destruct first as [[r|e] s1]; cbn [fst snd].
  - split; [discriminate|]. split; [now intros ? [= <-]|].
    destruct (AudioTranscriber.save_transcription r out fmt s1) as [[[]|e] s2];
      cbn [fst]; [now intros ? [= <-] | discriminate].
  - split; [now intros ? [= <-]|]. split; discriminate.
Qed.

(** X18: the path [transcribe_and_save] derives when none is given. It
    is built from the audio path as given, which is not resolved: the file
    is a sibling of the audio file, named after its stem with
    [_transcription.] and the format appended, so that only the last
    extension of the audio file is replaced. *)
Theorem default_transcript_path (a fmt : string) :
  PosixPath.tail (PosixPath.Path a) <> [] ->
  PyStr.contains_char "/" fmt = false ->
  let audio := PosixPath.Path a in
  let derived :=
    PosixPath.mkPath (PosixPath.root audio)
      (removelast (PosixPath.tail audio)
       ++ [(PosixPath.stem audio ++ "_transcription." ++ fmt)%string]) in
  (forall lang s out s1,
      AudioTranscriber.transcribe_and_save a None lang fmt s = (Return out, s1) ->
      out = PosixPath.str derived)
  /\ PosixPath.Path (PosixPath.str derived) = derived
  /\ PosixPath.parent derived = PosixPath.parent audio
  /\ PosixPath.name derived
     = (PosixPath.stem audio ++ "_transcription." ++ fmt)%string
  /\ (fmt <> "" -> PyStr.contains_char "." fmt = false ->
      PosixPath.stem derived = (PosixPath.stem audio ++ "_transcription")%string
      /\ PosixPath.suffix derived = ("." ++ fmt)%string).
Proof.
  intros Hne Hfmt audio derived.
  pose proof (Path_normal a) as Hv. fold audio in Hv, Hne.
  destruct (stem_component audio Hv Hne) as [Hst Hfree].
  assert ((PosixPath.stem audio ++ "_transcription." ++ fmt)%string
          = ((PosixPath.stem audio ++ "_transcription") ++ "." ++ fmt)%string)
    as Hshape by now rewrite append_assoc.
  assert ((PosixPath.stem audio ++ "_transcription")%string <> "") as Hst'.
  { destruct (PosixPath.stem audio); [congruence | discriminate]. }
  assert (PyStr.contains_char "/" (PosixPath.stem audio ++ "_transcription")
          = false) as Hfree'
    by (rewrite contains_char_app, Hfree; reflexivity).
  pose proof (replaced_name_component _ _ Hst' Hfree' Hfmt) as Hnm.
  rewrite <- Hshape in Hnm.
  assert (Hparent : PosixPath.parent audio
                    = PosixPath.mkPath (PosixPath.root audio)
                        (removelast (PosixPath.tail audio))).
  { unfold PosixPath.parent. destruct (PosixPath.tail audio);
      [congruence | reflexivity]. }
  assert (Hpn : normal (PosixPath.parent audio)).
  { rewrite Hparent. destruct Hv as [Hroot Htail]. split; [exact Hroot|].
    cbn [PosixPath.tail]. rewrite (tail_decompose audio Hne) in Htail.
    now apply Forall_app in Htail as [Htail _]. }
  assert (Hdn : normal derived).
  { destruct Hpn as [Hroot Htail]. rewrite Hparent in Hroot, Htail.
    split; [exact Hroot|]. apply Forall_app. split; [exact Htail|].
    now constructor. }
  assert (Hname : PosixPath.name derived
                  = (PosixPath.stem audio ++ "_transcription." ++ fmt)%string).
  { unfold PosixPath.name, derived. cbn [PosixPath.tail]. apply last_last. }
  split; [|split; [|split; [|split]]].
  - intros lang s out s1 Hrun.
    pose proof (transcription_comes_before_saving_aux a None lang fmt s out
                  ltac:(now rewrite Hrun)) as ->.
    fold audio. rewrite (joinpath_component _ _ Hpn Hnm). now rewrite Hparent.
  - now apply Path_str.
  - unfold derived. rewrite parent_snoc. now rewrite Hparent.
  - exact Hname.
  - intros Hf Hdot. unfold PosixPath.stem at 1, PosixPath.suffix.
    rewrite Hname, Hshape, (suffix_index_replaced _ _ Hst' Hf Hdot).
    split; [apply take_app | apply drop_app].
Qed.

End SavingSteps.

Lemma default_transcript_path_witness :
  fst (AudioTranscriber.transcribe_and_save "/home/u/Desktop/x.mp4" None None
         "srt" (Demo.start Demo.w0 Demo.base_transcriber))
  = Return "/home/u/Desktop/x_transcription.srt"
  /\ PosixPath.suffix
       (PosixPath.Path "/home/u/Desktop/x_transcription.srt") = ".srt".
Proof.
  pose proof (@default_transcript_path Demo.World Demo.platform
                "/home/u/Desktop/x.mp4" "srt" ltac:(discriminate) eq_refl)
    as (Hrun & _ & _ & _ & Hparts).
  split.
  - destruct (AudioTranscriber.transcribe_and_save "/home/u/Desktop/x.mp4"
                None None "srt" (Demo.start Demo.w0 Demo.base_transcriber))
      as [[out|e] s1] eqn:Hcall.
    + now rewrite (Hrun None _ out s1 Hcall).
    + vm_compute in Hcall. discriminate.
  - exact (proj2 (Hparts ltac:(discriminate) eq_refl)).
Defined.

(** ** What a computation may emit *)

Section Emissions.
Context {W Obj : Type} `{Platform W}.
Variable allowed : event -> bool.

Lemma emits_ret {A} (a : A) : emits allowed (ret (W := W) (Obj := Obj) a).
Proof. intros s. exists []. now rewrite app_nil_r. Qed.

Lemma emits_raise {A} (e : exn) :
  emits allowed (raise (W := W) (Obj := Obj) (A := A) e).
Proof. intros s. exists []. now rewrite app_nil_r. Qed.

Lemma emits_lift_outcome {A} (o : outcome A) :
  emits allowed (lift_outcome (W := W) (Obj := Obj) o).
Proof. intros s. exists []. now rewrite app_nil_r. Qed.

Lemma emits_print (line : string) :
  allowed (EvPrint line) = true ->
  emits allowed (print (W := W) (Obj := Obj) line).
Proof. intros Hev s. exists [EvPrint line]. cbn. now rewrite Hev. Qed.

Lemma emits_call {A} (ev : event) (op : W -> outcome A * W) :
  allowed ev = true -> emits allowed (call (Obj := Obj) ev op).
Proof.
  intros Hev s. exists [ev]. unfold call. destruct (op (world s)).
  cbn. now rewrite Hev.
Qed.

Lemma emits_bind {A B} (m : M W Obj A) (k : A -> M W Obj B) :
  emits allowed m -> (forall a, emits allowed (k a)) ->
  emits allowed (bind m k).
Proof.
  intros Hm Hk s. unfold bind. destruct (Hm s) as (evs & Ht & Ha).
  destruct (m s) as [[a|e] s1]; cbn [snd] in *.
  - destruct (Hk a s1) as (evs2 & Ht2 & Ha2). exists (evs ++ evs2).
    rewrite Ht2, Ht, app_assoc, forallb_app, Ha, Ha2. now split.
  - now exists evs.
Qed.

Lemma emits_try_except {A} (body : M W Obj A) (handler : exn -> M W Obj A) :
  emits allowed body -> (forall e, emits allowed (handler e)) ->
  emits allowed (try_except body handler).
Proof.
  intros Hm Hk s. unfold try_except. destruct (Hm s) as (evs & Ht & Ha).
  destruct (body s) as [[a|e] s1]; cbn [snd] in *.
  - now exists evs.
  - destruct (Hk e s1) as (evs2 & Ht2 & Ha2). exists (evs ++ evs2).
    rewrite Ht2, Ht, app_assoc, forallb_app, Ha, Ha2. now split.
Qed.

Lemma keeps_this_ret {A} (a : A) : keeps_this (ret (W := W) (Obj := Obj) a).
Proof. now intros s. Qed.

Lemma keeps_this_raise {A} (e : exn) :
  keeps_this (raise (W := W) (Obj := Obj) (A := A) e).
Proof. now intros s. Qed.

Lemma keeps_this_lift_outcome {A} (o : outcome A) :
  keeps_this (lift_outcome (W := W) (Obj := Obj) o).
Proof. now intros s. Qed.

Lemma keeps_this_print (line : string) :
  keeps_this (print (W := W) (Obj := Obj) line).
Proof. now intros s. Qed.

Lemma keeps_this_call {A} (ev : event) (op : W -> outcome A * W) :
  keeps_this (call (Obj := Obj) ev op).
Proof. intros s. unfold call. now destruct (op (world s)). Qed.

Lemma keeps_this_bind {A B} (m : M W Obj A) (k : A -> M W Obj B) :
  keeps_this m -> (forall a, keeps_this (k a)) -> keeps_this (bind m k).
Proof.
  intros Hm Hk s. unfold bind. pose proof (Hm s) as Hs.
  destruct (m s) as [[a|e] s1]; cbn [snd] in *; [|exact Hs].
  now rewrite Hk.
Qed.

Lemma keeps_this_try_except {A} (body : M W Obj A)
    (handler : exn -> M W Obj A) :
  keeps_this body -> (forall e, keeps_this (handler e)) ->
  keeps_this (try_except body handler).
Proof.
  intros Hm Hk s. unfold try_except. pose proof (Hm s) as Hs.
  destruct (body s) as [[a|e] s1]; cbn [snd] in *; [exact Hs|].
  now rewrite Hk.
Qed.

End Emissions.

Ltac emissions :=
  repeat first
    [ apply emits_bind; [|intros ?]
    | apply emits_try_except; [|intros ?]
    | apply emits_ret | apply emits_raise | apply emits_lift_outcome
    | apply emits_print; reflexivity
    | apply emits_call; reflexivity ].

Ltac unchanged :=
  repeat first
    [ apply keeps_this_bind; [|intros ?]
    | apply keeps_this_try_except; [|intros ?]
    | apply keeps_this_ret | apply keeps_this_raise
    | apply keeps_this_lift_outcome
    | apply keeps_this_print | apply keeps_this_call ].

Section SavingIsQuiet.
Context {W Obj : Type} `{Platform W}.

Lemma save_transcription_emits (r : Result) (p fmt : string) :
  emits not_engine (AudioTranscriber.save_transcription (Obj := Obj) r p fmt)
  /\ keeps_this (AudioTranscriber.save_transcription (Obj := Obj) r p fmt).
Proof.
  assert (forall i segs,
             emits not_engine (AudioTranscriber.srt_loop (Obj := Obj) p i segs)
             /\ keeps_this (AudioTranscriber.srt_loop (Obj := Obj) p i segs))
    as Hsrt.
  { intros i segs. revert i.
    induction segs as [|seg segs IH]; intros i;
      cbn [AudioTranscriber.srt_loop].
    - split; [emissions | unchanged].
    - unfold AudioTranscriber.fwrite. split.
      + emissions. apply IH.
      + unchanged. apply IH. }
  assert (forall segs,
             emits not_engine (AudioTranscriber.vtt_loop (Obj := Obj) p segs)
             /\ keeps_this (AudioTranscriber.vtt_loop (Obj := Obj) p segs))
    as Hvtt.
  { induction segs as [|seg segs IH]; cbn [AudioTranscriber.vtt_loop].
    - split; [emissions | unchanged].
    - unfold AudioTranscriber.fwrite. split.
      + emissions. apply IH.
      + unchanged. apply IH. }
  unfold AudioTranscriber.save_transcription, AudioTranscriber.write_format,
    AudioTranscriber.write_txt, AudioTranscriber.write_json,
    AudioTranscriber.write_srt, AudioTranscriber.write_vtt,
    AudioTranscriber.fopen, AudioTranscriber.fwrite,
    AudioTranscriber.get_metadata, raise_in_handler.
  cbv zeta.
  split.
  - emissions.
    destruct (String.eqb _ "txt");
      [emissions; destruct (metadata r); emissions|].
    destruct (String.eqb _ "json"); [emissions|].
    destruct (String.eqb _ "srt"); [emissions; apply Hsrt|].
    destruct (String.eqb _ "vtt"); [emissions; apply Hvtt | emissions].
  - unchanged.
    destruct (String.eqb _ "txt");
      [unchanged; destruct (metadata r); unchanged|].
    destruct (String.eqb _ "json"); [unchanged|].
    destruct (String.eqb _ "srt"); [unchanged; apply Hsrt|].
    destruct (String.eqb _ "vtt"); [unchanged; apply Hvtt | unchanged].
Qed.

End SavingIsQuiet.

(** ** One model for a whole batch *)

Section OneModel.
Context {W : Type} `{Platform W}.

Lemma loads_after (s : State W AudioTranscriber.Self) (evs : list event) :
  forallb not_engine evs = true ->
  count is_model_load (trace s ++ evs) = loads s.
Proof.
  intros Hevs. unfold loads. apply count_snoc_other.
  rewrite forallb_forall in *. intros ev Hin. specialize (Hevs ev Hin).
  unfold not_engine in Hevs. now destruct ev.
Qed.

(** What [transcribe_and_save] leaves of the object and of the number of
    loads is what its call of [transcribe_audio] leaves. *)
Lemma transcribe_and_save_measure (a : string) (op lang : option string)
    (fmt : string) (s : State W AudioTranscriber.Self) :
  let s1 := snd (AudioTranscriber.transcribe_audio a lang fmt s) in
  let s2 := snd (AudioTranscriber.transcribe_and_save a op lang fmt s) in
  this s2 = this s1 /\ loads s2 = loads s1.
Proof.
  cbv zeta. rewrite transcribe_and_save_cases. cbv zeta.
  destruct (AudioTranscriber.transcribe_audio a lang fmt s) as [[r|e] s1];
    [|split; reflexivity].
  cbn [snd].
  match goal with
  | |- context [AudioTranscriber.save_transcription r ?p fmt s1] =>
      destruct (save_transcription_emits (Obj := AudioTranscriber.Self) r p fmt)
        as [Hemits Hkeeps];
      specialize (Hemits s1) as (evs & Ht & Hevs);
      specialize (Hkeeps s1);
      destruct (AudioTranscriber.save_transcription r p fmt s1) as [[[]|e] s2]
  end; cbn [snd] in *; unfold loads at 1; rewrite Ht; split;
    auto using loads_after.
Qed.

Lemma transcribe_audio_measure (a : string) (lang : option string)
    (fmt : string) (s : State W AudioTranscriber.Self) :
  let s1 := snd (AudioTranscriber.transcribe_audio a lang fmt s) in
  match AudioTranscriber.model (this s) with
  | Some _ => this s1 = this s /\ loads s1 = loads s
  | None =>
      (this s1 = this s /\ loads s1 = loads s /\ os_path_exists (world s) a = false)
      \/ (loads s1 = loads s + 1
          /\ match load_model (world s) (AudioTranscriber.model_size (this s))
             with
             | (Return m, _) => AudioTranscriber.model (this s1) = Some m
             | (Raise _, _) => this s1 = this s
             end)
  end.
Proof.
  cbv zeta. destruct (os_path_exists (world s) a) eqn:Hex.
  - destruct (transcribe_audio_effects a lang fmt s Hex) as (_ & _ & Hm).
    destruct (AudioTranscriber.model (this s)); [exact Hm|].
    right. destruct Hm as [Hc Hl]. split; [exact Hc|].
    destruct (load_model (world s) _) as [[m|e] w1];
      [now rewrite Hl | now destruct Hl].
  - rewrite (transcribe_audio_not_found a lang fmt s Hex). cbn [snd].
    destruct (AudioTranscriber.model (this s)); [now split | left; now split].
Qed.

(** An invariant kept by every file and by printing is kept by the
    loop. *)
Lemma transcribe_loop_invariant (J : State W AudioTranscriber.Self -> Prop)
    (outdir : string) (lang : option string) (fmt : string) :
  (forall a op s, J s ->
      J (snd (AudioTranscriber.transcribe_and_save a op lang fmt s))) ->
  (forall s line, J s ->
      J (mkState (world s) (trace s ++ [EvPrint line]) (this s))) ->
  forall files i total acc s,
    J s ->
    J (snd (AudioTranscriber.transcribe_loop files i total outdir lang
              fmt acc s)).
Proof.
  intros Hstep Hprint files i total acc s.
  rewrite (transcribe_loop_run_each total outdir lang fmt files i acc s).
  cbn [snd]. revert i s.
  induction files as [|file files IH]; intros i s Hs; [exact Hs|].
  cbn [run_each]. unfold transcribe_one at 1. unfold bind at 1, print at 1.
  cbn [world trace this].
  match goal with
  | |- context [AudioTranscriber.transcribe_and_save ?a ?op lang fmt ?st] =>
      pose proof (Hstep a op st (Hprint s _ Hs)) as Hst;
      destruct (AudioTranscriber.transcribe_and_save a op lang fmt st)
        as [[res|e] s1]
  end; cbn [snd] in Hst.
  - specialize (IH (S i) s1 Hst).
    destruct (run_each _ _ (S i) files s1) as [outs s2]. exact IH.
  - match goal with
    | |- context [run_each ?p ?r (S i) files ?st] =>
        specialize (IH (S i) st (Hprint s1 _ Hst));
        destruct (run_each p r (S i) files st) as [outs s2]
    end. exact IH.
Qed.

Lemma batch_transcribe_invariant (J : State W AudioTranscriber.Self -> Prop)
    (d : string) (od lang : option string) (fmt : string) :
  (forall a op s, J s ->
      J (snd (AudioTranscriber.transcribe_and_save a op lang fmt s))) ->
  (forall s w ev, not_engine ev = true -> J s ->
      J (mkState w (trace s ++ [ev]) (this s))) ->
  forall s, J s ->
    J (snd (AudioTranscriber.batch_transcribe d od lang fmt s)).
Proof.
  intros Hstep Hev s Hs.
  unfold AudioTranscriber.batch_transcribe. unfold bind at 1, reads at 1.
  destruct (negb (os_path_exists (world s) d)); [exact Hs|].
  unfold bind at 1, call at 1.
  match goal with
  | |- context [makedirs (world s) ?o] =>
      pose proof (fun w => Hev s w (EvMakedirs o) eq_refl Hs) as Hmk;
      destruct (makedirs (world s) o) as [[[]|e] w1]
  end; [|apply Hmk].
  specialize (Hmk w1).
  unfold bind at 1. cbn [world].
  destruct (listdir w1 d) as [names|e]; [|exact Hmk].
  unfold bind at 1, print at 1. cbn [world trace this].
  unfold bind at 1.
  match goal with
  | |- context [AudioTranscriber.transcribe_loop ?fs ?i ?t ?o lang fmt ?acc ?st] =>
      pose proof (transcribe_loop_invariant J o lang fmt Hstep
                    (fun s0 line => Hev s0 (world s0) (EvPrint line) eq_refl)
                    fs i t acc st
                    (Hev _ w1 (EvPrint _) eq_refl Hmk)) as Hloop;
      destruct (AudioTranscriber.transcribe_loop fs i t o lang fmt acc st)
        as [[res|e] s2]
  end; cbn [snd] in *; [|exact Hloop].
  unfold bind, print, ret. cbn [snd].
  exact (Hev s2 (world s2) (EvPrint _) eq_refl Hloop).
Qed.

(** X19: one model serves a whole batch. A transcriber that has its
    model goes through [batch_transcribe] without loading anything and
    comes out unchanged; and with a loader that does not fail, a
    transcriber without a model loads it at most once, however many
    files there are. *)
Theorem batch_loads_the_model_at_most_once (d : string)
    (od lang : option string) (fmt : string)
    (s : State W AudioTranscriber.Self) :
  let run := AudioTranscriber.batch_transcribe d od lang fmt s in
  (forall m,
      AudioTranscriber.model (this s) = Some m ->
      this (snd run) = this s /\ loads (snd run) = loads s)
  /\ ((forall w size, exists m w1, load_model w size = (Return m, w1)) ->
      loads (snd run) <= loads s + 1).
Proof.
  intros run.
  assert (forall (I : AudioTranscriber.Self -> nat -> Prop),
             (forall a op (s : State W AudioTranscriber.Self),
                 I (this s) (loads s) ->
                 I (this (snd (AudioTranscriber.transcribe_and_save a op lang
                                 fmt s)))
                   (loads (snd (AudioTranscriber.transcribe_and_save a op lang
                                  fmt s)))) ->
             I (this s) (loads s) -> I (this (snd run)) (loads (snd run)))
    as Hbatch.
  { intros I Hstep Hs. subst run.
    apply (batch_transcribe_invariant (fun st => I (this st) (loads st)));
      [exact Hstep | | exact Hs].
    intros s0 w ev Hev Hs0. cbn [this]. unfold loads. cbn [trace].
    rewrite loads_after; [exact Hs0|]. cbn. now rewrite Hev. }
  split.
  - intros m Hm.
    apply (Hbatch (fun t c => t = this s /\ c = loads s)); [|now split].
    intros a op s0 [Ht Hc].
    destruct (transcribe_and_save_measure a op lang fmt s0) as [-> ->].
    pose proof (transcribe_audio_measure a lang fmt s0) as Hau.
    cbv zeta in Hau. rewrite Ht, Hm in Hau. destruct Hau as [-> ->].
    now split.
  - intros Hloader.
    assert ((AudioTranscriber.model (this (snd run)) = None
             /\ loads (snd run) = loads s)
            \/ (AudioTranscriber.model (this (snd run)) <> None
                /\ loads (snd run) <= loads s + 1)) as [[_ ->] | [_ Hle]];
      [|lia|exact Hle].
    apply (Hbatch (fun t c => (AudioTranscriber.model t = None /\ c = loads s)
                              \/ (AudioTranscriber.model t <> None
                                  /\ c <= loads s + 1))).
    + intros a op s0 Hinv.
      destruct (transcribe_and_save_measure a op lang fmt s0) as [-> ->].
      pose proof (transcribe_audio_measure a lang fmt s0) as Hau.
      cbv zeta in Hau.
      destruct (AudioTranscriber.model (this s0)) as [m|] eqn:Hm.
      * destruct Hau as [-> ->]. rewrite Hm.
        destruct Hinv as [[? _] | Hinv]; [discriminate | now right].
      * destruct Hinv as [[_ Hc] | [Hne _]]; [|congruence].
        destruct Hau as [(-> & -> & _) | [-> Hl]]; [left; now split|].
        right. destruct (Hloader (world s0)
                           (AudioTranscriber.model_size (this s0)))
          as (m & w1 & Hload).
        rewrite Hload in Hl. rewrite Hl. split; [discriminate | lia].
    + destruct (AudioTranscriber.model (this s)) eqn:Hm.
      * right. split; [congruence | lia].
      * left. now split.
Qed.

End OneModel.

(** ** The dialogs *)

Lemma chosen_some (file_path p : string) :
  chosen file_path = Some p -> file_path = p /\ p <> "".
Proof.
  unfold chosen. destruct (String.eqb_spec file_path ""); [discriminate|].
  intros [= <-]. now split.
Qed.

Ltac dialog_step :=
  match goal with
  | |- context [@Tk _ _ ?x] => destruct (Tk x) as [[?root|?e] ?w]
  | |- context [@withdraw _ _ ?x ?r] =>
      destruct (withdraw x r) as [[[]|?e] ?w]
  | |- context [@attributes _ _ ?x ?r ?k ?v] =>
      destruct (attributes x r k v) as [[[]|?e] ?w]
  | |- context [@destroy _ _ ?x ?r] => destruct (destroy x r) as [[[]|?e] ?w]
  end; cbv beta iota; cbn [world trace this].

Ltac dialog_failed :=
  eexists _, _; split; [reflexivity|]; cbn [this trace];
  split; [reflexivity|]; split; [discriminate|];
  right; split; [reflexivity|]; eexists; reflexivity.

Section Dialogs.
Context {W : Type} `{Platform W} `{Toolkit W}.

Lemma pick_video_file_outcome {Obj} (title : string) (s : State W Obj) :
  dialog_outcome (Interactive.pick_video_file title)
    "Error opening file dialog: "
    (fun w dir => fst (askopenfilename w title dir Interactive.video_filetypes))
    s.
Proof.
  unfold dialog_outcome, Interactive.pick_video_file, Interactive.hidden_root,
    try_except, bind, gui, reads, ret, print.
  cbn [world trace this].
  do 3 (dialog_step; [|dialog_failed]).
  match goal with
  | |- context [askopenfilename ?x ?t ?d ?f] =>
      destruct (askopenfilename x t d f) as [[p|e] w4] eqn:Hask
  end; cbv beta iota; cbn [world trace this]; [|dialog_failed].
  dialog_step; [|dialog_failed].
  eexists _, _. split; [reflexivity|]. cbn [this trace].
  split; [reflexivity|]. split; [|now left].
  intros q Hq. apply chosen_some in Hq as [-> Hq]. split; [exact Hq|].
  eexists _, _. now rewrite Hask.
Qed.

Lemma pick_output_location_outcome {Obj} (title default_name : string)
    (s : State W Obj) :
  dialog_outcome (Interactive.pick_output_location title default_name)
    "Error opening save dialog: "
    (fun w dir =>
       fst (asksaveasfilename w title dir (Some default_name)
              Interactive.audio_output_filetypes))
    s.
Proof.
  unfold dialog_outcome, Interactive.pick_output_location,
    Interactive.hidden_root, try_except, bind, gui, reads, ret, print.
  cbn [world trace this].
  do 3 (dialog_step; [|dialog_failed]).
  match goal with
  | |- context [asksaveasfilename ?x ?t ?d ?i ?f] =>
      destruct (asksaveasfilename x t d i f) as [[p|e] w4] eqn:Hask
  end; cbv beta iota; cbn [world trace this]; [|dialog_failed].
  dialog_step; [|dialog_failed].
  eexists _, _. split; [reflexivity|]. cbn [this trace].
  split; [reflexivity|]. split; [|now left].
  intros q Hq. apply chosen_some in Hq as [-> Hq]. split; [exact Hq|].
  eexists _, _. now rewrite Hask.
Qed.

Lemma pick_audio_file_outcome {Obj} (title : string) (s : State W Obj) :
  dialog_outcome (Interactive.pick_audio_file title)
    "Error opening file dialog: "
    (fun w dir => fst (askopenfilename w title dir Interactive.audio_filetypes))
    s.
Proof.
  unfold dialog_outcome, Interactive.pick_audio_file, Interactive.hidden_root,
    try_except, bind, gui, reads, ret, print.
  cbn [world trace this].
  do 3 (dialog_step; [|dialog_failed]).
  match goal with
  | |- context [askopenfilename ?x ?t ?d ?f] =>
      destruct (askopenfilename x t d f) as [[p|e] w4] eqn:Hask
  end; cbv beta iota; cbn [world trace this]; [|dialog_failed].
  dialog_step; [|dialog_failed].
  eexists _, _. split; [reflexivity|]. cbn [this trace].
  split; [reflexivity|]. split; [|now left].
  intros q Hq. apply chosen_some in Hq as [-> Hq]. split; [exact Hq|].
  eexists _, _. now rewrite Hask.
Qed.

(** A path that [pick_video_file] returns is the answer of its dialog, and
    a dialog closed without a choice gives [None]. *)
Lemma pick_video_file_answer {Obj} (title : string) (s : State W Obj) :
  (forall v,
      fst (Interactive.pick_video_file title s) = Return (Some v) ->
      video_dialog_answer title s = Return v /\ v <> "")
  /\ (video_dialog_answer title s = Return "" ->
      fst (Interactive.pick_video_file title s) = Return None).
Proof.
  unfold video_dialog_answer, Interactive.pick_video_file,
    Interactive.hidden_root, try_except, bind, gui, reads, ret, print.
  cbn [world trace this].
  do 3 (dialog_step;
        [|cbn [fst]; split; [intros v Hv; discriminate Hv | reflexivity]]).
  match goal with
  | |- context [askopenfilename ?x ?t ?d ?f] =>
      destruct (askopenfilename x t d f) as [[p|e] w4]
  end; cbv beta iota; cbn [world trace this fst];
    [|split; [intros v Hv; discriminate Hv | reflexivity]].
  dialog_step; cbn [fst];
    [|split; [intros v Hv; discriminate Hv | reflexivity]].
  split.
  - intros v [= Hv]. apply chosen_some in Hv as [-> Hv]. now split.
  - now intros [= ->].
Qed.

Lemma pick_output_location_answer {Obj} (title default_name : string)
    (s : State W Obj) :
  (forall a,
      fst (Interactive.pick_output_location title default_name s)
      = Return (Some a) ->
      output_dialog_answer title default_name s = Return a /\ a <> "")
  /\ (output_dialog_answer title default_name s = Return "" ->
      fst (Interactive.pick_output_location title default_name s)
      = Return None).
Proof.
  unfold output_dialog_answer, Interactive.pick_output_location,
    Interactive.hidden_root, try_except, bind, gui, reads, ret, print.
  cbn [world trace this].
  do 3 (dialog_step;
        [|cbn [fst]; split; [intros v Hv; discriminate Hv | reflexivity]]).
  match goal with
  | |- context [asksaveasfilename ?x ?t ?d ?i ?f] =>
      destruct (asksaveasfilename x t d i f) as [[p|e] w4]
  end; cbv beta iota; cbn [world trace this fst];
    [|split; [intros v Hv; discriminate Hv | reflexivity]].
  dialog_step; cbn [fst];
    [|split; [intros v Hv; discriminate Hv | reflexivity]].
  split.
  - intros v [= Hv]. apply chosen_some in Hv as [-> Hv]. now split.
  - now intros [= ->].
Qed.


End Dialogs.

(** ** The two interactive entry points *)

Section Interactions.
Context {W : Type} `{Platform W} `{Toolkit W}.

Lemma extract_audio_keeps_this {Obj} (v : string) (a : option string)
    (fmt : string) :
  keeps_this (VideoConverter.extract_audio (Obj := Obj) v a fmt).
Proof.
  unfold VideoConverter.extract_audio, VideoConverter.extract_audio_body,
    VideoConverter.audio_write_audiofile, raise_in_handler.
  apply keeps_this_bind; [now intros ?|intros r].
  apply keeps_this_bind; [now intros ?|intros found].
  destruct (negb found); [apply keeps_this_raise|].
  apply keeps_this_bind; [destruct a; now intros ?|intros out].
  apply keeps_this_try_except; [|intros e; apply keeps_this_raise].
  unchanged. destruct (clip_has_audio _); unchanged.
Qed.

Lemma count_prints (f : event -> bool) (t evs : list event) :
  (forall line, f (EvPrint line) = false) ->
  Forall (fun ev => exists line, ev = EvPrint line) evs ->
  count f (t ++ evs) = count f t.
Proof.
  intros Hf Hevs. apply count_snoc_other.
  apply forallb_forall. intros ev Hin. rewrite Forall_forall in Hevs.
  destruct (Hevs ev Hin) as [line ->]. now rewrite Hf.
Qed.

Lemma extract_audio_interactive_cases {Obj} (s : State W Obj) :
  Interactive.extract_audio_interactive s =
  let say (s : State W Obj) (line : string) :=
    mkState (world s) (trace s ++ [EvPrint line]) (this s) in
  let s0 :=
    say (say s "=== Interactive Video to Audio Converter ===")
      "Please select a video file..." in
  match Interactive.pick_video_file "Select Video File" s0 with
  | (Raise e, s1) => (Raise e, s1)
  | (Return None, s1) =>
      (Return None, say s1 "No video file selected. Operation cancelled.")
  | (Return (Some v), s1) =>
      let s2 :=
        say (say s1 ("Selected video: " ++ v)%string)
          "Please choose where to save the audio file..." in
      match
        Interactive.pick_output_location "Save Audio File As"
          (PosixPath.stem (PosixPath.Path v) ++ ".mp3")%string s2
      with
      | (Raise e, s3) => (Raise e, s3)
      | (Return None, s3) =>
          (Return None,
           say s3 "No output location selected. Operation cancelled.")
      | (Return (Some a), s3) =>
          match VideoConverter.extract_audio v (Some a) "mp3" s3 with
          | (Return r, s4) =>
              (Return (Some r),
               say s4 ("✅ Success! Audio saved to: " ++ r)%string)
          | (Raise e, s4) =>
              (Return None,
               say s4 ("❌ Conversion failed: " ++ exn_str e)%string)
          end
      end
  end.
Proof.
  cbv zeta. unfold Interactive.extract_audio_interactive.
  unfold bind at 1, print at 1. unfold bind at 1, print at 1.
  cbn [world trace this]. unfold bind at 1.
  destruct (Interactive.pick_video_file _ _) as [[[v|]|e] s1];
    [|reflexivity|reflexivity].
  unfold bind at 1, print at 1. unfold bind at 1, print at 1.
  cbn [world trace this]. unfold bind at 1.
  destruct (Interactive.pick_output_location _ _ _) as [[[a|]|e] s3];
    [|reflexivity|reflexivity].
  unfold try_except, bind at 1.
  now destruct (VideoConverter.extract_audio v (Some a) _ s3) as [[r|e] s4].
Qed.

(** X21: [extract_audio_interactive] never raises: whatever the
    dialogs and the conversion do, it returns, and leaves the object
    alone. The video is what the open dialog answered and the output what
    the save dialog answered, which is offered the stem of the video with
    [.mp3]: with both chosen, the result is that of [extract_audio] on the
    video as input and the output as explicit audio path, with format
    [mp3], run in the state the save dialog left; a path it returns is
    returned, and an error it raises is printed and gives [None]. A path is
    returned in no other way. When the open dialog, or then the save
    dialog, is closed without a choice, the result is [None] after one
    more line, without any call of an engine. *)
Theorem interactive_extraction_never_raises (Obj : Type) (s : State W Obj) :
  let say (s : State W Obj) (line : string) :=
    mkState (world s) (trace s ++ [EvPrint line]) (this s) in
  let s0 :=
    say (say s "=== Interactive Video to Audio Converter ===")
      "Please select a video file..." in
  let first := Interactive.pick_video_file "Select Video File" s0 in
  let s2 (v : string) :=
    say (say (snd first) ("Selected video: " ++ v)%string)
      "Please choose where to save the audio file..." in
  let name (v : string) :=
    (PosixPath.stem (PosixPath.Path v) ++ ".mp3")%string in
  let second (v : string) :=
    Interactive.pick_output_location "Save Audio File As" (name v) (s2 v) in
  exists res s',
    Interactive.extract_audio_interactive s = (Return res, s')
    /\ this s' = this s
    /\ (forall r,
          res = Some r ->
          exists (v a : string) (s4 : State W Obj),
            video_dialog_answer "Select Video File" s0 = Return v
            /\ v <> ""
            /\ output_dialog_answer "Save Audio File As" (name v) (s2 v)
               = Return a
            /\ a <> ""
            /\ VideoConverter.extract_audio v (Some a) "mp3" (snd (second v))
               = (Return r, s4)
            /\ s' = say s4 ("✅ Success! Audio saved to: " ++ r)%string)
    /\ (forall v a,
          fst first = Return (Some v) ->
          fst (second v) = Return (Some a) ->
          match
            VideoConverter.extract_audio v (Some a) "mp3" (snd (second v))
          with
          | (Return r, s4) =>
              res = Some r
              /\ s' = say s4 ("✅ Success! Audio saved to: " ++ r)%string
          | (Raise e, s4) =>
              res = None
              /\ s' = say s4 ("❌ Conversion failed: " ++ exn_str e)%string
          end)
    /\ (video_dialog_answer "Select Video File" s0 = Return "" ->
        res = None
        /\ s' = say (snd first) "No video file selected. Operation cancelled."
        /\ count is_engine_call (trace s') = count is_engine_call (trace s))
    /\ (forall v,
          fst first = Return (Some v) ->
          output_dialog_answer "Save Audio File As" (name v) (s2 v)
          = Return "" ->
          res = None
          /\ s' = say (snd (second v))
                    "No output location selected. Operation cancelled."
          /\ count is_engine_call (trace s') = count is_engine_call (trace s)).
Proof.
  cbv zeta. rewrite extract_audio_interactive_cases. cbv zeta.
  match goal with
  | |- context [Interactive.pick_video_file ?t ?st] =>
      pose proof (pick_video_file_answer t st) as [Hans1 Hcan1];
      destruct (pick_video_file_outcome t st)
        as (res1 & s1 & Hp1 & Hthis1 & _ & Htr1);
      rewrite Hp1 in Hans1, Hcan1 |- *
  end.
  cbn [this trace fst snd] in Hthis1, Htr1, Hans1, Hcan1 |- *.
  assert (count is_engine_call (trace s1) = count is_engine_call (trace s))
    as Hc1.
  { destruct Htr1 as [-> | (_ & e & ->)]; rewrite <- ?app_assoc;
      apply count_prints; try reflexivity;
      repeat constructor; eexists; reflexivity. }
  assert (forall (t : list event) line,
             count is_engine_call t = count is_engine_call (trace s) ->
             count is_engine_call (t ++ [EvPrint line])
             = count is_engine_call (trace s)) as Hsay.
  { intros t line <-. apply count_prints; [reflexivity|].
    repeat constructor. eexists. reflexivity. }
  destruct res1 as [v|].
  2:{ eexists _, _. split; [reflexivity|]. cbn [this trace].
      split; [exact Hthis1|]. split; [discriminate|].
      split; [intros v a Hv; discriminate Hv|].
      split; [|intros v Hv; discriminate Hv].
      intros _. split; [reflexivity|]. split; [reflexivity|].
      now apply Hsay. }
  destruct (Hans1 v eq_refl) as [Hanswer Hv].
  match goal with
  | |- context [Interactive.pick_output_location ?t ?n ?st] =>
      pose proof (pick_output_location_answer t n st) as [Hans3 Hcan3];
      destruct (pick_output_location_outcome t n st)
        as (res2 & s3 & Hp3 & Hthis3 & _ & Htr3);
      rewrite Hp3 in Hans3, Hcan3 |- *
  end.
  cbn [this trace fst snd] in Hthis3, Htr3, Hans3, Hcan3 |- *.
  assert (count is_engine_call (trace s3) = count is_engine_call (trace s))
    as Hc3.
  { rewrite <- Hc1.
    destruct Htr3 as [-> | (_ & e & ->)]; rewrite <- ?app_assoc;
      apply count_prints; try reflexivity;
      repeat constructor; eexists; reflexivity. }
  destruct res2 as [a|].
  2:{ eexists _, _. split; [reflexivity|]. cbn [this trace].
      split; [congruence|]. split; [discriminate|].
      split; [intros v' a [= <-]; rewrite Hp3; cbn [fst];
              intros Ha; discriminate Ha|].
      split; [intros Hcancel; rewrite Hcancel in Hanswer;
              injection Hanswer as <-; now destruct Hv|].
      intros v' [= <-] _. rewrite Hp3. cbn [snd].
      split; [reflexivity|]. split; [reflexivity|]. now apply Hsay. }
  destruct (Hans3 a eq_refl) as [Hanswer3 Ha].
  pose proof (extract_audio_keeps_this v (Some a) "mp3" s3) as Hthis4.
  destruct (VideoConverter.extract_audio v (Some a) "mp3" s3) as [[r|e] s4]
    eqn:Hrun; cbn [snd] in Hthis4;
    (eexists _, _; split; [reflexivity|]; cbn [this trace];
     split; [congruence|]; split; [|split; [|split]]).
  - intros r' [= <-]. exists v, a, s4. rewrite Hp3. cbn [snd].
    now repeat split.
  - intros v' a' [= <-]. rewrite Hp3. cbn [fst snd]. intros [= <-].
    rewrite Hrun. now split.
  - intros Hcancel. rewrite Hcancel in Hanswer. injection Hanswer as <-.
    now destruct Hv.
  - intros v' [= <-] Hcancel. rewrite Hcancel in Hanswer3.
    injection Hanswer3 as <-. now destruct Ha.
  - discriminate.
  - intros v' a' [= <-]. rewrite Hp3. cbn [fst snd]. intros [= <-].
    rewrite Hrun. now split.
  - intros Hcancel. rewrite Hcancel in Hanswer. injection Hanswer as <-.
    now destruct Hv.
  - intros v' [= <-] Hcancel. rewrite Hcancel in Hanswer3.
    injection Hanswer3 as <-. now destruct Ha.
Qed.

End Interactions.

(** ** The format a transcript is saved in *)

Lemma lower_nonempty (x : string) : x <> "" -> PyStr.lower x <> "".
Proof.
  destruct x as [|a r]; [congruence|]. intros _. cbn [PyStr.lower].
  destruct r as [|b [|c r']]; try discriminate.
  destruct ((N_of_ascii a =? 226) && (N_of_ascii b =? 132)
            && (N_of_ascii c =? 170))%N; discriminate.
Qed.

(** On ASCII strings [lower] works character by character. *)
Lemma lower_isascii (x : string) :
  PyStr.isascii x = true ->
  list_ascii_of_string (PyStr.lower x)
  = map PyStr.lower_ascii (list_ascii_of_string x).
Proof.
  unfold PyStr.isascii. induction x as [|a r IH]; [reflexivity|].
  cbn [list_ascii_of_string forallb]. intros Hx.
  apply andb_true_iff in Hx as [Ha Hr]. specialize (IH Hr).
  cbn [PyStr.lower].
  destruct r as [|b [|c r']];
    try (cbn [list_ascii_of_string map]; f_equal; exact IH).
  destruct ((N_of_ascii a =? 226) && (N_of_ascii b =? 132)
            && (N_of_ascii c =? 170))%N eqn:Hk.
  - apply andb_true_iff in Hk as [Hk _]. apply andb_true_iff in Hk as [Hk _].
    apply N.eqb_eq in Hk. rewrite Hk in Ha. discriminate.
  - cbn [list_ascii_of_string map]. f_equal. exact IH.
Qed.

(** X22: the format of an interactive transcription is read off the
    name chosen in the save dialog: for an extension of ASCII characters,
    the part after the last dot of the name, in lower case, whatever it
    is, which lowers the letters [A] to [Z] and nothing else; and [txt]
    when the name has no dot or begins with its only dot. The directory
    plays no part. *)
Theorem format_follows_the_extension (d base e : string) :
  base <> "" ->
  PyStr.contains_char "/" base = false ->
  e <> "" ->
  PyStr.isascii e = true ->
  PyStr.contains_char "." e = false ->
  PyStr.contains_char "/" e = false ->
  Interactive.format_of_path (PosixPath.join d (base ++ "." ++ e))
  = PyStr.lower e
  /\ (PyStr.contains_char "." base = false ->
      Interactive.format_of_path (PosixPath.join d base) = "txt")
  /\ Interactive.format_of_path (PosixPath.join d ("." ++ e)) = "txt"
  /\ list_ascii_of_string (PyStr.lower e)
     = map PyStr.lower_ascii (list_ascii_of_string e).
Proof.
  intros Hbase Hslash He Hascii Hdot Heslash.
  unfold Interactive.format_of_path.
  split; [|split; [|split; [|exact (lower_isascii e Hascii)]]].
  - rewrite (proj1 (suffix_of_dotted_name _ base e
                      (name_of_join d _ (dotted_name_component base e Hbase
                                           Hslash Heslash))
                      Hbase He Hdot)).
    cbn [append PyStr.drop].
    destruct (String.eqb_spec (PyStr.lower e) ""); [|reflexivity].
    now destruct (lower_nonempty e He).
  - intros Hplain. rewrite suffix_of_plain_name; [reflexivity|].
    rewrite name_of_join; [exact Hplain|].
    repeat split; [exact Hbase | | exact Hslash]. intros ->. discriminate.
  - rewrite (suffix_of_hidden_name _ e); [reflexivity | | exact Hdot].
    apply name_of_join. repeat split; [discriminate | | exact Heslash].
    destruct e; [congruence | discriminate].
Qed.

Lemma format_follows_the_extension_witness :
  Interactive.format_of_path "/home/u/Documents/talk.final.SRT" = "srt"
  /\ Interactive.format_of_path "/home/u/Documents/notes" = "txt"
  /\ Interactive.format_of_path "/home/u/Documents/talk.docx" = "docx".
Proof.
  split; [|split].
  - exact (proj1 (format_follows_the_extension "/home/u/Documents"
                    "talk.final" "SRT" ltac:(discriminate) eq_refl
                    ltac:(discriminate) eq_refl eq_refl eq_refl)).
  - exact (proj1 (proj2 (format_follows_the_extension "/home/u/Documents"
                           "notes" "x" ltac:(discriminate) eq_refl
                           ltac:(discriminate) eq_refl eq_refl eq_refl))
             eq_refl).
  - exact (proj1 (format_follows_the_extension "/home/u/Documents"
                    "talk" "docx" ltac:(discriminate) eq_refl
                    ltac:(discriminate) eq_refl eq_refl eq_refl)).
Defined.

Section InteractiveTranscription.
Context {W : Type} `{Platform W} `{Toolkit W}.

Lemma transcribe_and_save_keeps_size (a : string) (op lang : option string)
    (fmt : string) (s : State W AudioTranscriber.Self) :
  AudioTranscriber.model_size
    (this (snd (AudioTranscriber.transcribe_and_save a op lang fmt s)))
  = AudioTranscriber.model_size (this s).
Proof.
  rewrite (proj1 (transcribe_and_save_measure a op lang fmt s)).
  destruct (os_path_exists (world s) a) eqn:Hex.
  - exact (proj1 (transcribe_audio_effects a lang fmt s Hex)).
  - now rewrite (transcribe_audio_not_found a lang fmt s Hex).
Qed.

Lemma transcribe_interactive_cases (s : State W AudioTranscriber.Self) :
  Interactive.transcribe_interactive s =
  let say (s : State W AudioTranscriber.Self) (line : string) :=
    mkState (world s) (trace s ++ [EvPrint line]) (this s) in
  let s0 :=
    say (say s "=== Interactive Audio Transcriber ===")
      "Please select an audio file to transcribe..." in
  match Interactive.pick_audio_file "Select Audio File" s0 with
  | (Raise e, s1) => (Raise e, s1)
  | (Return None, s1) =>
      (Return None, say s1 "No audio file selected. Operation cancelled.")
  | (Return (Some a), s1) =>
      let s2 :=
        say (say s1 ("Selected audio: " ++ a)%string)
          "Choose where to save the transcription..." in
      let at_ (w : W) := mkState w (trace s2) (this s2) in
      match Tk (world s2) with
      | (Raise e, w1) => (Raise e, at_ w1)
      | (Return root, w1) =>
      match withdraw w1 root with
      | (Raise e, w2) => (Raise e, at_ w2)
      | (Return _, w2) =>
      match attributes w2 root "-topmost" true with
      | (Raise e, w3) => (Raise e, at_ w3)
      | (Return _, w3) =>
      match
        asksaveasfilename w3 "Save Transcription As" None
          (Some (PosixPath.stem (PosixPath.Path a) ++ "_transcription.txt")%string)
          Interactive.transcript_filetypes
      with
      | (Raise e, w4) => (Raise e, at_ w4)
      | (Return p, w4) =>
      match destroy w4 root with
      | (Raise e, w5) => (Raise e, at_ w5)
      | (Return _, w5) =>
          if String.eqb p "" then
            (Return None,
             say (at_ w5) "No output location selected. Operation cancelled.")
          else
            match
              AudioTranscriber.transcribe_and_save a (Some p) None
                (Interactive.format_of_path p) (at_ w5)
            with
            | (Return r, s4) =>
                (Return (Some r),
                 say s4 ("✅ Success! Transcription saved to: " ++ r)%string)
            | (Raise e, s4) =>
                (Return None,
                 say s4 ("❌ Transcription failed: " ++ exn_str e)%string)
            end
      end end end end end
  end.
Proof.
  cbv zeta. unfold Interactive.transcribe_interactive.
  unfold bind at 1, print at 1. unfold bind at 1, print at 1.
  cbn [world trace this]. unfold bind at 1.
  destruct (Interactive.pick_audio_file _ _) as [[[a|]|e] s1];
    [|reflexivity|reflexivity].
  unfold bind at 1, print at 1. unfold bind at 1, print at 1.
  cbn [world trace this].
  unfold Interactive.hidden_root, bind, gui, ret. cbn [world trace this].
  destruct (Tk (world s1)) as [[root|e] w1]; cbv beta iota;
    cbn [world trace this]; [|reflexivity].
  destruct (withdraw w1 root) as [[[]|e] w2]; cbv beta iota;
    cbn [world trace this]; [|reflexivity].
  destruct (attributes w2 root "-topmost" true) as [[[]|e] w3]; cbv beta iota;
    cbn [world trace this]; [|reflexivity].
  destruct (asksaveasfilename w3 _ _ _ _) as [[p|e] w4]; cbv beta iota;
    cbn [world trace this]; [|reflexivity].
  destruct (destroy w4 root) as [[[]|e] w5]; cbv beta iota;
    cbn [world trace this]; [|reflexivity].
  destruct (String.eqb p ""); [reflexivity|].
  unfold try_except, print.
  now destruct (AudioTranscriber.transcribe_and_save a (Some p) None _ _)
    as [[r|e] s4].
Qed.

(** X23: unlike the extraction, [transcribe_interactive] can raise, but
    only from its save dialog, which is not guarded: an error that comes
    out was raised by one of the toolkit calls of that dialog, before
    whisper was called or the object changed. It returns a path only when
    the save dialog gave that path, not empty, and [transcribe_and_save]
    returned it for the format read off its name; failures of the
    transcription are printed and give [None]. *)
Theorem interactive_transcription_outcomes
    (s : State W AudioTranscriber.Self) :
  let run := Interactive.transcribe_interactive s in
  (forall e,
      fst run = Raise e ->
      toolkit_raised e
      /\ this (snd run) = this s
      /\ count is_engine_call (trace (snd run))
         = count is_engine_call (trace s))
  /\ (forall p,
        fst run = Return (Some p) ->
        p <> ""
        /\ (exists w d i,
              fst (asksaveasfilename w "Save Transcription As" d i
                     Interactive.transcript_filetypes) = Return p)
        /\ exists (a : string) (s0 s1 : State W AudioTranscriber.Self),
             a <> ""
             /\ AudioTranscriber.transcribe_and_save a (Some p) None
                  (Interactive.format_of_path p) s0
                = (Return p, s1))
  /\ AudioTranscriber.model_size (this (snd run))
     = AudioTranscriber.model_size (this s).
Proof.
  intros run. subst run. rewrite transcribe_interactive_cases. cbv zeta.
  match goal with
  | |- context [Interactive.pick_audio_file ?t ?st] =>
      destruct (pick_audio_file_outcome t st)
        as (res1 & s1 & -> & Hthis1 & Hans1 & Htr1)
  end.
  cbn [this trace] in Hthis1, Htr1.
  assert (count is_engine_call (trace s1) = count is_engine_call (trace s))
    as Hc1.
  { destruct Htr1 as [-> | (_ & e & ->)]; rewrite <- ?app_assoc;
      apply count_prints; try reflexivity;
      repeat constructor; eexists; reflexivity. }
  destruct res1 as [a|].
  2:{ cbn [fst snd this].
      split; [now intros|]. split; [now intros|]. now rewrite Hthis1. }
  destruct (Hans1 a eq_refl) as (Ha & _).
  cbn [world trace this].
  assert (forall (t : list event) line,
             count is_engine_call t = count is_engine_call (trace s) ->
             count is_engine_call (t ++ [EvPrint line])
             = count is_engine_call (trace s)) as Hsay.
  { intros t line <-. apply count_prints; [reflexivity|].
    repeat constructor. eexists. reflexivity. }
  pose proof (Hsay _ "Choose where to save the transcription..."
                (Hsay _ ("Selected audio: " ++ a)%string Hc1)) as Hc2.
  destruct (Tk (world s1)) as [[root|e] w1] eqn:HTk;
    cbn [world trace this fst snd].
  2:{ split; [|split; [now intros | exact (f_equal _ Hthis1)]].
      intros e' [= <-]. split; [|split; [exact Hthis1 | exact Hc2]].
      exists (world s1), {| window_id := 0 |}. left. now rewrite HTk. }
  destruct (withdraw w1 root) as [[[]|e] w2] eqn:Hwd;
    cbn [world trace this fst snd].
  2:{ split; [|split; [now intros | exact (f_equal _ Hthis1)]].
      intros e' [= <-]. split; [|split; [exact Hthis1 | exact Hc2]].
      exists w1, root. right. left. now rewrite Hwd. }
  destruct (attributes w2 root "-topmost" true) as [[[]|e] w3] eqn:Hat;
    cbn [world trace this fst snd].
  2:{ split; [|split; [now intros | exact (f_equal _ Hthis1)]].
      intros e' [= <-]. split; [|split; [exact Hthis1 | exact Hc2]].
      exists w2, root. right. right. left. now rewrite Hat. }
  match goal with
  | |- context [asksaveasfilename w3 ?t ?d ?i ?f] =>
      destruct (asksaveasfilename w3 t d i f) as [[p|e] w4] eqn:Hask
  end; cbn [world trace this fst snd].
  2:{ split; [|split; [now intros | exact (f_equal _ Hthis1)]].
      intros e' [= <-]. split; [|split; [exact Hthis1 | exact Hc2]].
      exists w3, root. do 4 right. eexists _, _. now rewrite Hask. }
  destruct (destroy w4 root) as [[[]|e] w5] eqn:Hds;
    cbn [world trace this fst snd].
  2:{ split; [|split; [now intros | exact (f_equal _ Hthis1)]].
      intros e' [= <-]. split; [|split; [exact Hthis1 | exact Hc2]].
      exists w4, root. do 3 right. left. now rewrite Hds. }
  destruct (String.eqb_spec p "") as [-> | Hp].
  { cbn [fst snd this]. split; [now intros|].
    split; [now intros | exact (f_equal _ Hthis1)]. }
  match goal with
  | |- context [AudioTranscriber.transcribe_and_save a (Some p) None ?f ?st] =>
      pose proof (transcribe_and_save_keeps_size a (Some p) None f st)
        as Hsize;
      pose proof (transcription_comes_before_saving_aux a (Some p) None f st)
        as Hout;
      destruct (AudioTranscriber.transcribe_and_save a (Some p) None f st)
        as [[res|e] s6] eqn:Hrun
  end; cbn [fst snd this trace world] in *.
  - specialize (Hout res eq_refl). subst res.
    split; [now intros|]. split; [|now rewrite Hsize, Hthis1].
    intros q [= <-]. split; [exact Hp|]. split.
    + eexists _, _, _. now rewrite Hask.
    + eexists a, _, s6. split; [exact Ha | exact Hrun].
  - split; [now intros|]. split; [now intros|].
    now rewrite Hsize, Hthis1.
Qed.

End InteractiveTranscription.

(** The dialogs on the demo desk: both answered; no display; the save
    dialog closed; a name with an extension that is no format. *)
Lemma interactive_examples :
  let video := "/home/u/Desktop/x.mp4" in
  fst (Interactive.extract_audio_interactive
         (H0 := Desk.toolkit true video "/out/x.mp3") (Demo.start Demo.w0 tt))
  = Return (Some "/out/x.mp3")
  /\ Interactive.extract_audio_interactive
       (H0 := Desk.toolkit false video "/out/x.mp3") (Demo.start Demo.w0 tt)
     = (Return None,
        mkState Demo.w0
          [ EvPrint "=== Interactive Video to Audio Converter ===";
            EvPrint "Please select a video file...";
            EvPrint "Error opening file dialog: no display name and no $DISPLAY environment variable";
            EvPrint "No video file selected. Operation cancelled." ]
          tt)
  /\ fst (Interactive.extract_audio_interactive
            (H0 := Desk.toolkit true video "") (Demo.start Demo.w0 tt))
     = Return None
  /\ (let run :=
        Interactive.transcribe_interactive
          (H0 := Desk.toolkit true video "/out/x.docx")
          (Demo.start Demo.w0 Demo.base_transcriber) in
      fst run = Return (Some "/out/x.docx")
      /\ count is_file_output (trace (snd run)) = 0).
Proof. vm_compute. repeat split. Qed.
